(** * CustomersAI-agent: the RAG retrieval pipeline

    A shallow embedding of the retrieval pipeline of the repository
    (query expansion, filtered vector search, merge, reranking, context
    formatting, chunking, and the message endpoint with the widget that
    displays its reply), together with the properties of these functions.

    Sources embedded here:
    - [.agent/System/rag_pipeline.md]: [generate_query_variants],
      [search_qdrant], [multi_query_search], [rerank_with_llm],
      [rerank_by_score], [format_rag_context], [chunk_text];
    - the hackathon roadmap ([app/services/rag.py], [app/main.py]):
      [search_knowledge], [format_rag_context], [handle_message];
    - the embeddable widget: [sendMessage]. *)

From Stdlib Require Import List String Ascii ZArith QArith Bool Lia Arith.
From Stdlib Require Import Permutation Sorted DecimalString.
Import ListNotations.

Local Open Scope Z_scope.

(* ================================================================== *)
(** * Python values used by the pipeline *)
(* ================================================================== *)

(** Python [str] values are sequences of code points.  They are modelled
    by [string], whose characters are the 256 code points of the Latin-1
    range (the accented letters of the French messages included). *)

Module Py.

(** [str.isspace] on one character: the code points below 256 that
    Python treats as whitespace are 0x09-0x0D, 0x1C-0x1F, 0x20, 0x85
    and 0xA0. *)
Definition isspace (c : ascii) : bool :=
  let n := nat_of_ascii c in
  ((9 <=? n) && (n <=? 13) || (28 <=? n) && (n <=? 32)
   || (n =? 133) || (n =? 160))%nat.

(** [len(s)] *)
Definition len (s : string) : Z := Z.of_nat (String.length s).

(** Truthiness of a string: [bool(s)] is [False] exactly for [""]. *)
Definition truthy (s : string) : bool :=
  match s with EmptyString => false | String _ _ => true end.

Fixpoint take (n : nat) (s : string) : string :=
  match n, s with
  | O, _ => EmptyString
  | S _, EmptyString => EmptyString
  | S n', String c s' => String c (take n' s')
  end.

Fixpoint drop (n : nat) (s : string) : string :=
  match n, s with
  | O, _ => s
  | S _, EmptyString => EmptyString
  | S n', String _ s' => drop n' s'
  end.

(** Normalisation of one slice bound against a sequence of length
    [n]: a negative bound counts from the end, and every bound is
    clipped to [0 .. n]. *)
Definition clamp (n i : Z) : Z :=
  if i <? 0 then Z.max 0 (i + n) else Z.min i n.

(** [s[i:j]] *)
Definition slice (s : string) (i j : Z) : string :=
  let lo := clamp (len s) i in
  let hi := clamp (len s) j in
  take (Z.to_nat (hi - lo)) (drop (Z.to_nat lo) s).

(** [s.lstrip()], [s.rstrip()] and [s.strip()] without argument. *)
Fixpoint lstrip (s : string) : string :=
  match s with
  | EmptyString => EmptyString
  | String c s' => if isspace c then lstrip s' else s
  end.

Fixpoint rstrip (s : string) : string :=
  match s with
  | EmptyString => EmptyString
  | String c s' =>
      match rstrip s' with
      | EmptyString => if isspace c then EmptyString else String c EmptyString
      | r => String c r
      end
  end.

Definition strip (s : string) : string := rstrip (lstrip s).

(** [s.isspace()] for a non-empty [s]; on [""] this is the vacuous
    "every character is whitespace". *)
Fixpoint all_space (s : string) : bool :=
  match s with
  | EmptyString => true
  | String c s' => isspace c && all_space s'
  end.

(** [str(i)] for an integer. *)
Definition str_of_int (i : Z) : string :=
  NilZero.string_of_int (Z.to_int i).

(** [sep.join(parts)] *)
Definition join (sep : string) (parts : list string) : string :=
  String.concat sep parts.

(** [s.lower()]: on the Latin-1 range the upper-case letters are A-Z
    and 0xC0-0xDE without the multiplication sign 0xD7; each maps to
    the code point 32 above it. *)
Definition lower_char (c : ascii) : ascii :=
  let n := nat_of_ascii c in
  if ((65 <=? n) && (n <=? 90)
      || (192 <=? n) && (n <=? 222) && negb (n =? 215))%nat
  then ascii_of_nat (n + 32) else c.

Fixpoint lower (s : string) : string :=
  match s with
  | EmptyString => EmptyString
  | String c s' => String (lower_char c) (lower s')
  end.

(** [needle in hay] on strings. *)
Fixpoint contains (needle hay : string) : bool :=
  String.prefix needle hay
  || match hay with
     | EmptyString => false
     | String _ hay' => contains needle hay'
     end.

(** [enumerate(l, start)] *)
Fixpoint enumerate {A : Type} (start : Z) (l : list A) : list (Z * A) :=
  match l with
  | [] => []
  | x :: l' => (start, x) :: enumerate (start + 1) l'
  end.

(** [sorted(l, key=key, reverse=True)].  Python's sort is stable, also
    with [reverse=True]: elements with equal keys keep their input
    order, so the result is determined by the keys; it is computed
    here by stable insertion from the right.  Keys are floats in the
    source, modelled as rationals (every finite float is one; NaN is
    not modelled). *)
Fixpoint insert_desc {A : Type} (key : A -> Q) (x : A) (l : list A)
  : list A :=
  match l with
  | [] => [x]
  | y :: l' =>
      if Qle_bool (key y) (key x) then x :: y :: l'
      else y :: insert_desc key x l'
  end.

Definition sorted_desc {A : Type} (key : A -> Q) (l : list A) : list A :=
  fold_right (insert_desc key) [] l.

(** A [dict] with string keys: Python keeps the keys in insertion
    order, and assigning to a key that is present replaces its value
    in place. *)
Definition dict (V : Type) : Type := list (string * V).

Fixpoint dict_set {V : Type} (d : dict V) (k : string) (v : V) : dict V :=
  match d with
  | [] => [(k, v)]
  | (k', v') :: d' =>
      if String.eqb k' k then (k, v) :: d'
      else (k', v') :: dict_set d' k v
  end.

Fixpoint dict_lookup {V : Type} (d : dict V) (k : string) : option V :=
  match d with
  | [] => None
  | (k', v') :: d' => if String.eqb k' k then Some v' else dict_lookup d' k
  end.

Definition dict_values {V : Type} (d : dict V) : list V := map snd d.

(** The values stored in chunk metadata by the ingestion code are
    strings and integers; [VNone] is Python's [None], the result of
    [d.get(k)] on a missing key. *)
Inductive value : Type :=
| VNone
| VStr (s : string)
| VInt (i : Z).

(** [d.get(k)] and [d.get(k, default)] *)
Definition get (d : dict value) (k : string) : value :=
  match dict_lookup d k with Some v => v | None => VNone end.

Definition get_default (d : dict value) (k : string) (default : value)
  : value :=
  match dict_lookup d k with Some v => v | None => default end.

Definition value_truthy (v : value) : bool :=
  match v with
  | VNone => false
  | VStr s => truthy s
  | VInt i => negb (i =? 0)
  end.

(** [a or b] *)
Definition or_ (a b : value) : value := if value_truthy a then a else b.

(** [str(v)], as an f-string renders [{v}]. *)
Definition str (v : value) : string :=
  match v with
  | VNone => "None"%string
  | VStr s => s
  | VInt i => str_of_int i
  end.

(** The characters that cannot be written inside a string literal. *)
Definition nl : string := String (ascii_of_nat 10) EmptyString.
Definition dq : string := String (ascii_of_nat 34) EmptyString.

(** [l[:k]] on a list. *)
Definition list_prefix {A : Type} (l : list A) (k : Z) : list A :=
  firstn (Z.to_nat (clamp (Z.of_nat (List.length l)) k)) l.

(** [l[i]] on a list: a negative index counts from the end, an index
    outside [-len .. len-1] raises [IndexError] ([None] here). *)
Definition list_index {A : Type} (l : list A) (i : Z) : option A :=
  let n := Z.of_nat (List.length l) in
  if (0 <=? i) && (i <? n) then nth_error l (Z.to_nat i)
  else if (- n <=? i) && (i <? 0) then nth_error l (Z.to_nat (i + n))
  else None.

End Py.

(** Exceptions raised by the Python code or by the services it calls. *)
Inductive exn : Type :=
| JSONDecodeError
| TypeError
| IndexError
| KeyError
| ServiceError (service : string).

(** Outcome of a Python call: a value, or a raised exception. *)
Inductive result (A : Type) : Type :=
| Ok (a : A)
| Raise (e : exn).
Arguments Ok {A} a.
Arguments Raise {A} e.

Definition bind {A B : Type} (r : result A) (k : A -> result B) : result B :=
  match r with
  | Ok a => k a
  | Raise e => Raise e
  end.

Notation "x <- c ;; k" := (bind c (fun x => k))
  (at level 61, c at next level, right associativity).

Definition raises {A : Type} (r : result A) : Prop :=
  exists e, r = Raise e.

(** A value decoded by [json.loads], as the Python object it yields. *)
#[warnings="-register-all"]
Inductive json : Type :=
| JNull
| JBool (b : bool)
| JInt (i : Z)
| JFloat (q : Q)
| JStr (s : string)
| JArr (items : list json)
| JObj (fields : list (string * json)).

(* ================================================================== *)
(** * The vector index *)
(* ================================================================== *)

Module Qdrant.

Definition vector : Type := list Q.

(** The payload stored with every point of the collection
    [knowledge_base] (collection schema of rag_pipeline.md). *)
Record payload : Type := {
  tenant_id : string;
  source_type : string;
  source_id : string;
  content : string;
  metadata : Py.dict Py.value
}.

Record point : Type := {
  id : string;
  point_vector : vector;
  point_payload : payload
}.

(** One search hit: [hit.id], [hit.score], [hit.payload]. *)
Record scored_point : Type := {
  hit_id : string;
  hit_score : Q;
  hit_payload : payload
}.

(** The conditions of a [query_filter]: [{"key": k, "match": {"value":
    v}}] and [{"key": k, "match": {"any": vs}}]. *)
Inductive condition : Type :=
| MatchValue (key value : string)
| MatchAny (key : string) (any : list string).

Definition payload_field (p : payload) (key : string) : option string :=
  if String.eqb key "tenant_id" then Some (tenant_id p)
  else if String.eqb key "source_type" then Some (source_type p)
  else if String.eqb key "source_id" then Some (source_id p)
  else if String.eqb key "content" then Some (content p)
  else None.

Definition satisfies (p : payload) (c : condition) : bool :=
  match c with
  | MatchValue key value =>
      match payload_field p key with
      | Some v => String.eqb v value
      | None => false
      end
  | MatchAny key any =>
      match payload_field p key with
      | Some v => existsb (String.eqb v) any
      | None => false
      end
  end.

(** The client: whether the service answers, and the points of the
    collection in insertion order. *)
Record client : Type := {
  reachable : bool;
  knowledge_base : list point
}.

Definition score_point (similarity : vector -> vector -> Q)
    (query_vector : vector) (p : point) : scored_point :=
  {| hit_id := id p;
     hit_score := similarity query_vector (point_vector p);
     hit_payload := point_payload p |}.

(** Modelled from the spec: the Vector Index [search] is the Qdrant
    service, whose code is outside the repository.  Spec 4.3: it
    "returns at most topK entries sorted by descending similarity
    score, restricted to entries matching tenantId and filters", ties
    broken by insertion order, an empty or filtered-to-empty index
    gives an empty sequence; an unreachable index is an error.  Every
    condition under [must] has to hold. *)
Definition search (c : client) (similarity : vector -> vector -> Q)
    (query_vector : vector) (limit : Z) (must : list condition)
  : result (list scored_point) :=
  if reachable c then
    Ok (firstn (Z.to_nat limit)
          (Py.sorted_desc hit_score
             (map (score_point similarity query_vector)
                (filter (fun p => forallb (satisfies (point_payload p)) must)
                   (knowledge_base c)))))
  else Raise (ServiceError "qdrant").

End Qdrant.

(* ================================================================== *)
(** * rag_pipeline.md *)
(* ================================================================== *)

Module RagPipeline.

(** The dictionaries returned by [search_qdrant]. *)
Record chunk : Type := {
  id : string;
  content : string;
  score : Q;
  source_type : string;
  metadata : Py.dict Py.value
}.

Section Services.

(** The services the pipeline calls: the embedding provider, the
    similarity of the collection (cosine), the Qdrant client, the
    language model and the JSON decoder. *)
Variable embed_text : string -> result Qdrant.vector.
Variable similarity : Qdrant.vector -> Qdrant.vector -> Q.
Variable qdrant_client : Qdrant.client.
Variable llm_invoke : string -> result string.
Variable json_loads : string -> result json.

(** ** 1. Query expansion *)

Definition query_variants_prompt (original_query : string) : string :=
  (Py.nl
   ++ "    Given this user question, generate 3 alternative phrasings"
   ++ Py.nl
   ++ "    that maintain the same semantic meaning but use different words."
   ++ Py.nl ++ Py.nl
   ++ "    Original: " ++ original_query ++ Py.nl ++ Py.nl
   ++ "    Return as JSON array: ["
   ++ Py.dq ++ "variant1" ++ Py.dq ++ ", "
   ++ Py.dq ++ "variant2" ++ Py.dq ++ ", "
   ++ Py.dq ++ "variant3" ++ Py.dq ++ "]" ++ Py.nl
   ++ "    ")%string.

(** [[original_query] + variants]: list concatenation, a
    [TypeError] when [variants] is not a list. *)
Definition list_plus (l : list json) (variants : json)
  : result (list json) :=
  match variants with
  | JArr items => Ok (l ++ items)
  | _ => Raise TypeError
  end.

Definition generate_query_variants (original_query : string)
  : result (list json) :=
  response <- llm_invoke (query_variants_prompt original_query) ;;
  variants <- json_loads response ;;
  (* Always include original *)
  list_plus [JStr original_query] variants.

(** ** 2. Dense vector search *)

Definition chunk_of_hit (hit : Qdrant.scored_point) : chunk :=
  {| id := Qdrant.hit_id hit;
     content := Qdrant.content (Qdrant.hit_payload hit);
     score := Qdrant.hit_score hit;
     source_type := Qdrant.source_type (Qdrant.hit_payload hit);
     metadata := Qdrant.metadata (Qdrant.hit_payload hit) |}.

Definition search_filter (tenant_id : string) : list Qdrant.condition :=
  [ Qdrant.MatchValue "tenant_id" tenant_id;
    Qdrant.MatchAny "source_type" ["document"; "website"]%string ].

Definition search_qdrant (query tenant_id : string) (top_k : Z)
  : result (list chunk) :=
  embedding <- embed_text query ;;
  results <- Qdrant.search qdrant_client similarity embedding top_k
               (search_filter tenant_id) ;;
  Ok (map chunk_of_hit results).

(** The loop [for query in queries: ... all_chunks.extend(chunks)]. *)
Fixpoint search_each (queries : list string) (tenant_id : string)
    (all_chunks : list chunk) : result (list chunk) :=
  match queries with
  | [] => Ok all_chunks
  | query :: queries' =>
      chunks <- search_qdrant query tenant_id 5 ;;
      search_each queries' tenant_id (all_chunks ++ chunks)
  end.

(** [{chunk["id"]: chunk for chunk in all_chunks}] *)
Definition unique_chunks (all_chunks : list chunk) : Py.dict chunk :=
  fold_left (fun d c => Py.dict_set d (id c) c) all_chunks [].

(** The merge step of [multi_query_search], on the chunks collected
    from all query variants. *)
Definition merge_chunks (all_chunks : list chunk) : list chunk :=
  let sorted_chunks :=
    Py.sorted_desc score (Py.dict_values (unique_chunks all_chunks)) in
  Py.list_prefix sorted_chunks 12.

Definition multi_query_search (queries : list string) (tenant_id : string)
  : result (list chunk) :=
  all_chunks <- search_each queries tenant_id [] ;;
  Ok (merge_chunks all_chunks).

(** ** 3. Reranking *)

Definition chunks_text (chunks : list chunk) : string :=
  Py.join (Py.nl ++ Py.nl)
    (map (fun '(i, c) =>
            ("[" ++ Py.str_of_int i ++ "] "
             ++ Py.slice (content c) 0 200 ++ "...")%string)
       (Py.enumerate 0 chunks)).

Definition rerank_prompt (original_query : string) (chunks : list chunk)
    (top_k : Z) : string :=
  (Py.nl
   ++ "    Given the user question and these text chunks, rank them by relevance."
   ++ Py.nl
   ++ "    Return the indices of the top " ++ Py.str_of_int top_k
   ++ " most relevant chunks." ++ Py.nl ++ Py.nl
   ++ "    Question: " ++ original_query ++ Py.nl ++ Py.nl
   ++ "    Chunks:" ++ Py.nl
   ++ "    " ++ chunks_text chunks ++ Py.nl ++ Py.nl
   ++ "    Return ONLY a JSON array of indices: [0, 3, 5]" ++ Py.nl
   ++ "    ")%string.

(** [selected_indices[:top_k]], as the sequence the comprehension
    iterates over: a list gives its prefix, a string gives the
    characters of its prefix (each a one-character string), and
    any other JSON value cannot be sliced. *)
Definition sliced_indices (selected_indices : json) (top_k : Z)
  : result (list json) :=
  match selected_indices with
  | JArr items => Ok (Py.list_prefix items top_k)
  | JStr s =>
      Ok (map (fun c => JStr (String c EmptyString))
            (list_ascii_of_string
               (Py.slice s 0 top_k)))
  | _ => Raise TypeError
  end.

(** [chunks[i]]: the index has to be an integer ([True] and [False]
    are the integers 1 and 0). *)
Definition chunk_at (chunks : list chunk) (i : json) : result chunk :=
  let at_ (z : Z) :=
    match Py.list_index chunks z with
    | Some c => Ok c
    | None => Raise IndexError
    end in
  match i with
  | JInt z => at_ z
  | JBool b => at_ (Z.b2z b)
  | _ => Raise TypeError
  end.

Fixpoint select_chunks (chunks : list chunk) (indices : list json)
  : result (list chunk) :=
  match indices with
  | [] => Ok []
  | i :: indices' =>
      c <- chunk_at chunks i ;;
      rest <- select_chunks chunks indices' ;;
      Ok (c :: rest)
  end.

Definition rerank_with_llm (original_query : string)
    (chunks : list chunk) (top_k : Z) : result (list chunk) :=
  response <- llm_invoke (rerank_prompt original_query chunks top_k) ;;
  selected_indices <- json_loads response ;;
  indices <- sliced_indices selected_indices top_k ;;
  select_chunks chunks indices.

End Services.

Definition rerank_by_score (chunks : list chunk) (top_k : Z) : list chunk :=
  Py.list_prefix (Py.sorted_desc score chunks) top_k.

(** ** 4. Context injection *)

Definition separator : string :=
  (Py.nl ++ Py.nl ++ "---" ++ Py.nl ++ Py.nl)%string.

Definition chunk_source (c : chunk) : Py.value :=
  Py.or_ (Py.get (metadata c) "source_url") (Py.get (metadata c) "filename").

(** The block of one chunk: the three-line f-string, stripped. *)
Definition context_part (i : Z) (c : chunk) : string :=
  Py.strip
    (Py.nl ++ "Source " ++ Py.str_of_int i ++ ": "
     ++ Py.str (chunk_source c) ++ Py.nl
     ++ content c ++ Py.nl
     ++ "        ")%string.

Definition format_rag_context (chunks : list chunk) : string :=
  let context_parts :=
    fold_left (fun parts '(i, c) => parts ++ [context_part i c])
      (Py.enumerate 1 chunks) [] in
  Py.join separator context_parts.

(** ** Chunking *)

(** The [while] loop of [chunk_text], from the state [(start, chunks)].
    Each unit of [fuel] pays for one evaluation of the loop test;
    [None] means that the loop is still running when the fuel is
    spent. *)
Fixpoint chunk_loop (fuel : nat) (text : string) (chunk_size overlap : Z)
    (start : Z) (chunks : list string) : option (list string) :=
  match fuel with
  | O => None
  | S fuel' =>
      if start <? Py.len text then
        let end_ := start + chunk_size in
        let chunk := Py.slice text start end_ in
        (* Only add non-empty chunks *)
        let chunks' :=
          if Py.truthy (Py.strip chunk) then chunks ++ [Py.strip chunk]
          else chunks in
        chunk_loop fuel' text chunk_size overlap
          (start + (chunk_size - overlap)) chunks'
      else Some chunks
  end.

Definition chunk_text_fuel (fuel : nat) (text : string)
    (chunk_size overlap : Z) : option (list string) :=
  chunk_loop fuel text chunk_size overlap 0 [].

(** [chunk_text] with the fuel that suffices whenever the start index
    advances by at least one character per iteration. *)
Definition chunk_text (text : string) (chunk_size overlap : Z)
  : option (list string) :=
  chunk_text_fuel (S (String.length text)) text chunk_size overlap.

End RagPipeline.

(* ================================================================== *)
(** * The roadmap's backend: app/services/rag.py and app/main.py *)
(* ================================================================== *)

Module Roadmap.

(** The dictionaries returned by [search_knowledge]. *)
Record chunk : Type := {
  content : string;
  score : Q;
  source_type : string;
  metadata : Py.dict Py.value
}.

Definition separator : string :=
  (Py.nl ++ Py.nl ++ "---" ++ Py.nl ++ Py.nl)%string.

Definition chunk_source (c : chunk) : Py.value :=
  Py.or_ (Py.get (metadata c) "url")
    (Py.get_default (metadata c) "filename" (Py.VStr "Unknown")).

Definition context_part (i : Z) (c : chunk) : string :=
  ("Source " ++ Py.str_of_int i ++ ": " ++ Py.str (chunk_source c)
   ++ Py.nl ++ content c)%string.

Definition format_rag_context (chunks : list chunk) : string :=
  match chunks with
  | [] => EmptyString
  | _ =>
      let context_parts :=
        fold_left (fun parts '(i, c) => parts ++ [context_part i c])
          (Py.enumerate 1 chunks) [] in
      Py.join separator context_parts
  end.

(** The request body; its field [content] is [request_content] here,
    next to the [content] of a chunk. *)
Record MessageRequest : Type := {
  tenant_id : string;
  user_id : string;
  channel : string;
  request_content : string
}.

Record MessageResponse : Type := {
  response : string;
  intent : option string;
  sources : option (list string)
}.

(** A chat message handed to the language model. *)
Record message : Type := { role : string; message_content : string }.

Section Services.

Variable embed_text : string -> result Qdrant.vector.
Variable similarity : Qdrant.vector -> Qdrant.vector -> Q.
Variable qdrant : Qdrant.client.
Variable llm_ainvoke : list message -> result string.
(** The text of the FAQ prompt of [app/agents/nodes.py], a constant. *)
Variable FAQ_SYSTEM_PROMPT : string.
(** [save_conversation] yields the conversation's id;
    [save_message] stores one message. *)
Variable save_conversation : string -> string -> string -> result string.
Variable save_message : string -> string -> string -> result unit.

Definition chunk_of_hit (hit : Qdrant.scored_point) : chunk :=
  {| content := Qdrant.content (Qdrant.hit_payload hit);
     score := Qdrant.hit_score hit;
     source_type := Qdrant.source_type (Qdrant.hit_payload hit);
     metadata := Qdrant.metadata (Qdrant.hit_payload hit) |}.

Definition search_knowledge (query tenant_id : string) (top_k : Z)
  : result (list chunk) :=
  query_embedding <- embed_text query ;;
  results <- Qdrant.search qdrant similarity query_embedding top_k
               [Qdrant.MatchValue "tenant_id" tenant_id] ;;
  Ok (map chunk_of_hit results).

Definition handle_faq (query : string) : result string :=
  llm_ainvoke [ {| role := "system"; message_content := FAQ_SYSTEM_PROMPT |};
                {| role := "user"; message_content := query |} ].

(** The endpoint [POST /api/v1/support/message].  The arguments of
    [save_conversation], elided in the last listing of the roadmap,
    are those of its first listing. *)
Definition handle_message (request : MessageRequest)
  : result MessageResponse :=
  conv_id <- save_conversation (tenant_id request) (user_id request)
               (channel request) ;;
  _ <- save_message conv_id "user" (request_content request) ;;
  response_text <-
    (* Simple routing: check if RAG needed *)
    (if Py.contains "livraison" (Py.lower (request_content request))
        || Py.contains "retour" (Py.lower (request_content request))
     then handle_faq (request_content request)
     else
       (* Use RAG *)
       chunks <- search_knowledge (request_content request)
                   (tenant_id request) 3 ;;
       let context := format_rag_context chunks in
       llm_ainvoke
         [ {| role := "system";
              message_content :=
                ("Use this context:" ++ Py.nl ++ context)%string |};
           {| role := "user";
              message_content := request_content request |} ]) ;;
  _ <- save_message conv_id "assistant" response_text ;;
  Ok {| response := response_text; intent := Some "faq"%string;
        sources := None |}.

End Services.

End Roadmap.

(* ================================================================== *)
(** * The embeddable widget *)
(* ================================================================== *)

Module Widget.

(** [String.prototype.trim]: the white space and line terminators of
    ECMAScript in the Latin-1 range are 0x09-0x0D, 0x20 and 0xA0. *)
Definition isspace (c : ascii) : bool :=
  let n := nat_of_ascii c in
  ((9 <=? n) && (n <=? 13) || (n =? 32) || (n =? 160))%nat.

Fixpoint trim_start (s : string) : string :=
  match s with
  | EmptyString => EmptyString
  | String c s' => if isspace c then trim_start s' else s
  end.

Fixpoint trim_end (s : string) : string :=
  match s with
  | EmptyString => EmptyString
  | String c s' =>
      match trim_end s' with
      | EmptyString => if isspace c then EmptyString else String c EmptyString
      | r => String c r
      end
  end.

Definition trim (s : string) : string := trim_end (trim_start s).

(** Truthiness of a value decoded from JSON: [null], [false], [0] and
    [""] are falsy, arrays and objects are truthy. *)
Definition truthy (v : json) : bool :=
  match v with
  | JNull => false
  | JBool b => b
  | JInt i => negb (i =? 0)
  | JFloat q => negb (Qeq_bool q 0)
  | JStr s => Py.truthy s
  | JArr _ => true
  | JObj _ => true
  end.

(** [data.key]: [None] is [undefined]; reading a property of [null]
    throws a [TypeError]. *)
Definition property (data : json) (key : string) : result (option json) :=
  match data with
  | JNull => Raise TypeError
  | JObj fields => Ok (Py.dict_lookup fields key)
  | _ => Ok None
  end.

Definition truthy_opt (v : option json) : bool :=
  match v with Some x => truthy x | None => false end.

Definition e_acute : string := String (ascii_of_nat 233) EmptyString.
Definition e_grave : string := String (ascii_of_nat 232) EmptyString.

(** The reply shown when the server's answer carries no text. *)
Definition no_answer_text : string :=
  ("D" ++ e_acute ++ "sol" ++ e_acute
   ++ ", je n'ai pas pu traiter cela.")%string.

(** The reply shown when the request fails. *)
Definition connection_fallback_text : string :=
  ("D" ++ e_acute ++ "sol" ++ e_acute ++ ", j'ai des probl" ++ e_grave
   ++ "mes de connexion. Veuillez r" ++ e_acute
   ++ "essayer plus tard.")%string.

(** What [fetch] and [response.json()] can do: the request is
    rejected (network failure), or a response arrives with its [ok]
    flag and a body that decodes to JSON or does not. *)
Inductive fetch_result : Type :=
| Rejected
| Response (ok : bool) (body : option json).

(** The state of the widget that [sendMessage] reads and writes: the
    input field, the messages displayed (role and content, oldest
    first), the typing indicator, the conversation id, and the errors
    written to the console. *)
Record widget : Type := {
  input_value : string;
  messages : list (string * json);
  typing : bool;
  conversationId : json;
  console_errors : list string
}.

Definition addMessage (content : json) (role : string) (w : widget)
  : widget :=
  {| input_value := input_value w;
     messages := messages w ++ [(role, content)];
     typing := typing w;
     conversationId := conversationId w;
     console_errors := console_errors w |}.

Definition set_input (v : string) (w : widget) : widget :=
  {| input_value := v;
     messages := messages w;
     typing := typing w;
     conversationId := conversationId w;
     console_errors := console_errors w |}.

Definition set_typing (b : bool) (w : widget) : widget :=
  {| input_value := input_value w;
     messages := messages w;
     typing := b;
     conversationId := conversationId w;
     console_errors := console_errors w |}.

Definition showTyping : widget -> widget := set_typing true.
Definition hideTyping : widget -> widget := set_typing false.

Definition set_conversationId (v : json) (w : widget) : widget :=
  {| input_value := input_value w;
     messages := messages w;
     typing := typing w;
     conversationId := v;
     console_errors := console_errors w |}.

Definition console_error (msg : string) (w : widget) : widget :=
  {| input_value := input_value w;
     messages := messages w;
     typing := typing w;
     conversationId := conversationId w;
     console_errors := console_errors w ++ [msg] |}.

(** The [try] block: the state reached, and whether it completed
    ([Ok]) or threw ([Raise]); the state is kept in both cases, as
    the [catch] block continues from it. *)
Definition try_block (outcome : fetch_result) (w : widget)
  : widget * result unit :=
  match outcome with
  | Rejected => (w, Raise (ServiceError "fetch"))
  | Response ok body =>
      let w1 := hideTyping w in
      if negb ok then (w1, Raise (ServiceError "Failed to send message"))
      else
        match body with
        | None => (w1, Raise JSONDecodeError)
        | Some data =>
            match property data "conversation_id" with
            | Raise e => (w1, Raise e)
            | Ok cid =>
                let w2 :=
                  match cid with
                  | Some v => if truthy v then set_conversationId v w1 else w1
                  | None => w1
                  end in
                match property data "response" with
                | Raise e => (w2, Raise e)
                | Ok r =>
                    let content :=
                      match r with
                      | Some v => if truthy v then v else JStr no_answer_text
                      | None => JStr no_answer_text
                      end in
                    (addMessage content "assistant" w2, Ok tt)
                end
            end
        end
  end.

Definition catch_block (w : widget) : widget :=
  addMessage (JStr connection_fallback_text) "assistant"
    (hideTyping (console_error "Error sending message:" w)).

(** [sendMessage]; [fetch] answers the request built from the message
    and the current conversation id. *)
Definition sendMessage (fetch : string -> json -> fetch_result)
    (w : widget) : widget :=
  let message := trim (input_value w) in
  if negb (Py.truthy message) then w
  else
    let w1 := showTyping (set_input EmptyString
                            (addMessage (JStr message) "user" w)) in
    match try_block (fetch message (conversationId w1)) w1 with
    | (w2, Ok _) => w2
    | (w2, Raise _) => catch_block w2
    end.

End Widget.

(* ================================================================== *)
(** * The chunker as the specification words it *)
(* ================================================================== *)

Module ChunkSpec.

(** The window [text[start .. start+size)]. *)
Definition window (text : string) (size start : Z) : string :=
  Py.slice text start (start + size).

(** The number of starts [0, step, 2*step, ...] below [len(text)]. *)
Definition window_count (text : string) (step : Z) : nat :=
  Z.to_nat ((Py.len text + step - 1) / step).

(** The windows at [start = 0, size-overlap, 2*(size-overlap), ...],
    in order. *)
Definition windows (text : string) (size overlap : Z) : list string :=
  map (fun k => window text size (Z.of_nat k * (size - overlap)))
    (seq 0 (window_count text (size - overlap))).

(** The chunks of the specification: the windows themselves, without
    those that are whitespace-only or shorter than [minimum]. *)
Definition claimed_chunks (minimum : Z) (text : string) (size overlap : Z)
  : list string :=
  filter (fun w => negb (Py.all_space w || (Py.len w <? minimum)))
    (windows text size overlap).

(** What the code emits for a list of windows: each window stripped,
    the whitespace-only ones left out. *)
Definition emitted (ws : list string) : list string :=
  map Py.strip (filter (fun w => negb (Py.all_space w)) ws).

(** Concatenation "accounting for overlap": the first piece whole,
    every later piece without the [overlap] characters it shares with
    its predecessor. *)
Definition reassemble (overlap : Z) (pieces : list string) : string :=
  match pieces with
  | [] => EmptyString
  | w :: rest =>
      (w ++ String.concat EmptyString
              (map (Py.drop (Z.to_nat overlap)) rest))%string
  end.

End ChunkSpec.

(* ================================================================== *)
(** * The merge step as the specification words it *)
(* ================================================================== *)

Module MergeSpec.

Import RagPipeline.

(** [c] is the last chunk of [l] that carries its id. *)
Definition last_with_id (l : list chunk) (c : chunk) : Prop :=
  exists l1 l2 : list chunk,
    l = l1 ++ c :: l2 /\ forall c', In c' l2 -> id c' <> id c.


End MergeSpec.

(* ================================================================== *)
(** * Tenant isolation as the specification words it *)
(* ================================================================== *)

Module IsolationSpec.

(** The candidate [c] derives from a point of the collection that
    belongs to [tenant]: it carries that point's id and payload. *)
Definition from_tenant (c : Qdrant.client) (tenant : string)
    (candidate : RagPipeline.chunk) : Prop :=
  exists p : Qdrant.point,
    In p (Qdrant.knowledge_base c)
    /\ Qdrant.tenant_id (Qdrant.point_payload p) = tenant
    /\ RagPipeline.id candidate = Qdrant.id p
    /\ RagPipeline.content candidate
       = Qdrant.content (Qdrant.point_payload p)
    /\ RagPipeline.metadata candidate
       = Qdrant.metadata (Qdrant.point_payload p).

(** The same for the candidates of [search_knowledge], which carry
    no id. *)
Definition knowledge_from_tenant (c : Qdrant.client) (tenant : string)
    (candidate : Roadmap.chunk) : Prop :=
  exists p : Qdrant.point,
    In p (Qdrant.knowledge_base c)
    /\ Qdrant.tenant_id (Qdrant.point_payload p) = tenant
    /\ Roadmap.content candidate
       = Qdrant.content (Qdrant.point_payload p)
    /\ Roadmap.metadata candidate
       = Qdrant.metadata (Qdrant.point_payload p).

End IsolationSpec.

(* ================================================================== *)
(** * Sample data *)
(* ================================================================== *)

Module Examples.

Definition delivery_text : string := "Delivery takes 3 to 5 business days.".
Definition returns_text : string := "Returns are accepted within 30 days.".

Definition mk_chunk (cid text : string) (s : Q) : RagPipeline.chunk :=
  {| RagPipeline.id := cid;
     RagPipeline.content := text;
     RagPipeline.score := s;
     RagPipeline.source_type := "website";
     RagPipeline.metadata :=
       [("source_url"%string, Py.VStr "https://ma-boutique.com/livraison")] |}.

(** The same chunk found with two scores by two query variants. *)
Definition a_strong : RagPipeline.chunk := mk_chunk "a" delivery_text (9 # 10).
Definition a_weak : RagPipeline.chunk := mk_chunk "a" delivery_text (5 # 10).
Definition b_mid : RagPipeline.chunk := mk_chunk "b" returns_text (7 # 10).

(** A collection with points of two tenants. *)
Definition mk_point (pid tenant kind text : string) (v : Q) : Qdrant.point :=
  {| Qdrant.id := pid;
     Qdrant.point_vector := [v];
     Qdrant.point_payload :=
       {| Qdrant.tenant_id := tenant;
          Qdrant.source_type := kind;
          Qdrant.source_id := "src";
          Qdrant.content := text;
          Qdrant.metadata := [("url"%string, Py.VStr "https://example.com")] |} |}.

Definition mixed_index : list Qdrant.point :=
  [ mk_point "p1" "t1" "website" delivery_text (9 # 10);
    mk_point "p2" "t2" "website" returns_text (95 # 100);
    mk_point "p3" "t1" "document" returns_text (4 # 10);
    mk_point "p4" "t2" "document" delivery_text (8 # 10);
    mk_point "p5" "t1" "faq" delivery_text (99 # 100) ].

Definition online : Qdrant.client :=
  {| Qdrant.reachable := true; Qdrant.knowledge_base := mixed_index |}.

Definition unreachable : Qdrant.client :=
  {| Qdrant.reachable := false; Qdrant.knowledge_base := mixed_index |}.

(** One-dimensional embeddings with the product as similarity. *)
Definition embed_text (query : string) : result Qdrant.vector := Ok [1%Q].

Definition similarity (q v : Qdrant.vector) : Q :=
  match q, v with
  | [a], [b] => (a * b)%Q
  | _, _ => 0%Q
  end.


(** The answer of the language model with two paraphrases. *)
Definition variants_text : string :=
  ("[" ++ Py.dq ++ "delivery time" ++ Py.dq ++ ", "
   ++ Py.dq ++ "shipping delay" ++ Py.dq ++ "]")%string.

Definition variants_json : json :=
  JArr [JStr "delivery time"; JStr "shipping delay"].

(** A language model that is down, and one that answers [text]. *)
Definition llm_down (prompt : string) : result string :=
  Raise (ServiceError "llm").

Definition llm_says (text : string) (prompt : string) : result string :=
  Ok text.

(** A decoder that rejects its input, and one that decodes it to
    [v]. *)
Definition not_json (s : string) : result json := Raise JSONDecodeError.

Definition decodes_to (v : json) (s : string) : result json := Ok v.

(** A chat model that answers [text], a database that stores
    everything, and a question that is routed to the RAG branch. *)
Definition chat_says (text : string) (messages : list Roadmap.message)
  : result string := Ok text.

Definition save_conversation (tenant_id user_id channel : string)
  : result string := Ok "conv-1"%string.

Definition save_message (conversation_id role content : string)
  : result unit := Ok tt.

Definition order_question : Roadmap.MessageRequest :=
  {| Roadmap.tenant_id := "t1";
     Roadmap.user_id := "u1";
     Roadmap.channel := "widget";
     Roadmap.request_content := "Where is my order?" |}.

(** A widget whose visitor has typed a question. *)
Definition typed : Widget.widget :=
  {| Widget.input_value := "  Where is my order? ";
     Widget.messages := [];
     Widget.typing := false;
     Widget.conversationId := JStr "conv-1";
     Widget.console_errors := [] |}.

Definition server_error (message : string) (conversation_id : json)
  : Widget.fetch_result :=
  Widget.Response false
    (Some (JObj [("detail"%string, JStr "Internal Server Error")])).

End Examples.

(* ================================================================== *)
(** * The fallback as the specification words it *)
(* ================================================================== *)

Module FallbackSpec.

(** The request of the widget failed: it was rejected, the response
    is not [ok], or its body does not decode to a JSON value with
    properties. *)
Definition request_failed (outcome : Widget.fetch_result) : bool :=
  match outcome with
  | Widget.Rejected => true
  | Widget.Response ok body =>
      negb ok
      || match body with
         | None => true
         | Some JNull => true
         | Some _ => false
         end
  end.

(** The message is routed to the RAG branch of [handle_message]. *)
Definition routed_to_rag (request : Roadmap.MessageRequest) : bool :=
  negb (Py.contains "livraison" (Py.lower (Roadmap.request_content request))
        || Py.contains "retour" (Py.lower (Roadmap.request_content request))).

End FallbackSpec.

(* ================================================================== *)
(** * Website crawling and ingestion *)
(* ================================================================== *)

Module Crawl4AI.

(** What [crawler.arun] yields for a page. *)
Record crawl_result : Type := {
  url : string;
  title : string;
  markdown : string;
  internal_links : list string
}.

(** The keyword arguments of [arun] besides the url. *)
Record run_config : Type := {
  word_count_threshold : Z;
  excluded_tags : list string;
  exclude_external_links : bool
}.

(** The crawler: [arun(url=u, ...)] with its keyword arguments, [None]
    for a call with the url alone; it returns a result or raises. *)
Definition crawler : Type :=
  string -> option run_config -> result crawl_result.

(** The arguments both listings pass for the starting page. *)
Definition base_config : run_config :=
  {| word_count_threshold := 50;
     excluded_tags := ["nav"; "footer"; "aside"]%string;
     exclude_external_links := true |}.

(** [link in visited] for the set [visited]. *)
Definition visited_mem (link : string) (visited : list string) : bool :=
  existsb (String.eqb link) visited.

End Crawl4AI.

(** [crawl_website] of rag_pipeline.md. *)
Module PipelineCrawl.

Record page : Type := {
  url : string;
  title : string;
  content : string;
  links : list string
}.

Definition page_of (r : Crawl4AI.crawl_result) : page :=
  {| url := Crawl4AI.url r;
     title := Crawl4AI.title r;
     content := Crawl4AI.markdown r;
     links := Crawl4AI.internal_links r |}.

Section Crawler.

Variable arun : Crawl4AI.crawler.

(** The loop [for link in to_visit], from the state [(visited,
    pages)]; what the [except] branch prints is not part of the
    result. *)
Fixpoint crawl_links (to_visit visited : list string) (pages : list page)
  : list page :=
  match to_visit with
  | [] => pages
  | link :: to_visit' =>
      if Crawl4AI.visited_mem link visited then
        crawl_links to_visit' visited pages
      else
        let visited' := link :: visited in
        match arun link None with
        | Ok r => crawl_links to_visit' visited' (pages ++ [page_of r])
        | Raise _ => crawl_links to_visit' visited' pages
        end
  end.

Definition crawl_website (base_url : string) (max_pages : Z)
  : result (list page) :=
  r <- arun base_url (Some Crawl4AI.base_config) ;;
  let pages := [page_of r] in
  let visited := [base_url] in
  let to_visit := Py.list_prefix (Crawl4AI.internal_links r) max_pages in
  Ok (crawl_links to_visit visited pages).

End Crawler.

End PipelineCrawl.

(** [crawl_website] and [ingest_website] of the roadmap
    ([app/services/crawler.py], [app/main.py]). *)
Module RoadmapIngestion.

Record page : Type := {
  url : string;
  title : string;
  content : string
}.

Definition page_of (r : Crawl4AI.crawl_result) : page :=
  {| url := Crawl4AI.url r;
     title := Crawl4AI.title r;
     content := Crawl4AI.markdown r |}.

(** [s.split(sep)] for a separator that is not empty (Python raises
    [ValueError] on an empty one): the pieces between the occurrences
    of [sep] found from the left, without overlap.  [skip] counts the
    characters of a separator just found that are still to pass,
    [piece] is the piece being read. *)
Fixpoint split_from (sep : string) (skip : nat) (s piece : string)
  : list string :=
  match s with
  | EmptyString => [piece]
  | String c s' =>
      match skip with
      | S k => split_from sep k s' piece
      | O =>
          if String.prefix sep s then
            piece :: split_from sep (String.length sep - 1) s' EmptyString
          else split_from sep 0 s' (piece ++ String c EmptyString)
      end
  end.

Definition split (s sep : string) : list string :=
  split_from sep 0 s EmptyString.

(** The separator of paragraphs, two newlines. *)
Definition blank_line : string := (Py.nl ++ Py.nl)%string.

(** A point as [ingest_website] hands it to [qdrant.upsert]. *)
Record point : Type := {
  id : string;
  vector : Qdrant.vector;
  tenant_id : string;
  source_type : string;
  point_content : string;
  metadata : Py.dict Py.value
}.

(** The dictionary [ingest_website] returns. *)
Record summary : Type := {
  status : string;
  pages_crawled : Z;
  chunks_indexed : Z
}.

Section Services.

Variable arun : Crawl4AI.crawler.
Variable embed_text : string -> result Qdrant.vector.
(** [qdrant.upsert] of one point: it succeeds or raises. *)
Variable upsert : point -> result unit.

Fixpoint crawl_links (to_visit visited : list string) (pages : list page)
  : list page :=
  match to_visit with
  | [] => pages
  | link :: to_visit' =>
      match arun link None with
      | Ok r => crawl_links to_visit' (link :: visited) (pages ++ [page_of r])
      | Raise _ => crawl_links to_visit' visited pages
      end
  end.

Definition crawl_website (base_url : string) (max_pages : Z)
  : result (list page) :=
  r <- arun base_url (Some Crawl4AI.base_config) ;;
  let pages := [page_of r] in
  let visited := [base_url] in
  let to_visit :=
    Py.list_prefix
      (filter (fun link => negb (Crawl4AI.visited_mem link visited))
         (Crawl4AI.internal_links r))
      (max_pages - 1) in
  Ok (crawl_links to_visit visited pages).

Definition make_point (tenant_id : string) (p : page) (i : Z)
    (chunk : string) (embedding : Qdrant.vector) : point :=
  {| id := (tenant_id ++ "-" ++ url p ++ "-" ++ Py.str_of_int i)%string;
     vector := embedding;
     tenant_id := tenant_id;
     source_type := "website";
     point_content := chunk;
     metadata := [ ("url"%string, Py.VStr (url p));
                   ("title"%string, Py.VStr (title p));
                   ("chunk_index"%string, Py.VInt i) ] |}.

(** The inner loop over the enumerated chunks of one page.  The state
    is the list of points upserted so far and [indexed_count]; the
    points stay upserted when a later call raises. *)
Fixpoint index_chunks (tenant_id : string) (p : page)
    (chunks : list (Z * string)) (upserted : list point) (indexed_count : Z)
  : list point * result Z :=
  match chunks with
  | [] => (upserted, Ok indexed_count)
  | (i, chunk) :: chunks' =>
      if Py.len (Py.strip chunk) <? 50 then
        index_chunks tenant_id p chunks' upserted indexed_count
      else
        match embed_text chunk with
        | Raise e => (upserted, Raise e)
        | Ok embedding =>
            let pt := make_point tenant_id p i chunk embedding in
            match upsert pt with
            | Raise e => (upserted, Raise e)
            | Ok _ =>
                index_chunks tenant_id p chunks' (upserted ++ [pt])
                  (indexed_count + 1)
            end
        end
  end.

(** The outer loop over the pages. *)
Fixpoint index_pages (tenant_id : string) (pages : list page)
    (upserted : list point) (indexed_count : Z) : list point * result Z :=
  match pages with
  | [] => (upserted, Ok indexed_count)
  | p :: pages' =>
      (* Simple chunking (split by paragraphs) *)
      let chunks := split (content p) blank_line in
      match index_chunks tenant_id p (Py.enumerate 0 chunks) upserted
              indexed_count with
      | (upserted', Ok indexed_count') =>
          index_pages tenant_id pages' upserted' indexed_count'
      | (upserted', Raise e) => (upserted', Raise e)
      end
  end.

(** [ingest_website]: the points upserted, and the summary returned
    or the exception raised. *)
Definition ingest_website (tenant_id website_url : string)
  : list point * result summary :=
  match crawl_website website_url 10 with
  | Raise e => ([], Raise e)
  | Ok pages =>
      match index_pages tenant_id pages [] 0 with
      | (upserted, Raise e) => (upserted, Raise e)
      | (upserted, Ok indexed_count) =>
          (upserted,
           Ok {| status := "success";
                 pages_crawled := Z.of_nat (List.length pages);
                 chunks_indexed := indexed_count |})
      end
  end.

End Services.

End RoadmapIngestion.

(** What the crawl loops produce, as a list comprehension: the pages
    of the links whose crawl succeeds. *)
Module CrawlSpec.

Definition crawled {P : Type} (arun : Crawl4AI.crawler)
    (page_of : Crawl4AI.crawl_result -> P) (requested : list string)
  : list P :=
  flat_map (fun link =>
              match arun link None with
              | Ok r => [page_of r]
              | Raise _ => []
              end) requested.

(** The links of [to_visit] that are not in [visited], each once, in
    the order of their first occurrence. *)
Fixpoint first_visits (to_visit visited : list string) : list string :=
  match to_visit with
  | [] => []
  | link :: to_visit' =>
      if Crawl4AI.visited_mem link visited then first_visits to_visit' visited
      else link :: first_visits to_visit' (link :: visited)
  end.

(** A point that [ingest_website] may upsert for [tenant] from the
    crawled [pages]: a paragraph of one of the pages, of at least 50
    characters once stripped, stored as it stands under the tenant's
    id. *)
Definition ingested_from (tenant : string)
    (pages : list RoadmapIngestion.page) (pt : RoadmapIngestion.point)
  : Prop :=
  RoadmapIngestion.tenant_id pt = tenant
  /\ RoadmapIngestion.source_type pt = "website"%string
  /\ exists (p : RoadmapIngestion.page) (i : nat),
       In p pages
       /\ nth_error (RoadmapIngestion.split (RoadmapIngestion.content p)
                       RoadmapIngestion.blank_line) i
          = Some (RoadmapIngestion.point_content pt)
       /\ 50 <= Py.len (Py.strip (RoadmapIngestion.point_content pt))
       /\ RoadmapIngestion.id pt
          = (tenant ++ "-" ++ RoadmapIngestion.url p ++ "-"
             ++ Py.str_of_int (Z.of_nat i))%string
       /\ Py.get (RoadmapIngestion.metadata pt) "url"
          = Py.VStr (RoadmapIngestion.url p).

End CrawlSpec.

(* ================================================================== *)
(** * Conversations and messages: app/services/supabase_client.py *)
(* ================================================================== *)

Module RoadmapStorage.

Record conversation : Type := {
  id : string;
  tenant_id : string;
  user_id : string;
  channel : string;
  status : string
}.

Record conversation_message : Type := {
  message_id : string;
  conversation_id : string;
  role : string;
  content : string;
  metadata : Py.dict Py.value
}.

(** The tables [conversations] and [conversation_messages], rows in
    insertion order.  Calls to the database are taken to succeed. *)
Record database : Type := {
  conversations : list conversation;
  conversation_messages : list conversation_message
}.

(** The filter [.eq("tenant_id", t).eq("user_id", u).eq("channel", c)]. *)
Definition selected (tenant user chan : string) (row : conversation) : bool :=
  String.eqb (tenant_id row) tenant
  && String.eqb (user_id row) user
  && String.eqb (channel row) chan.

Section Client.

(** The id that the database gives to a new row, from the number of
    rows the table holds. *)
Variable new_id : nat -> string.

(** Get or create conversation. *)
Definition save_conversation (tenant user chan : string) (db : database)
  : database * conversation :=
  let result_data := filter (selected tenant user chan) (conversations db) in
  match result_data with
  | row :: _ => (db, row)
  | [] =>
      (* Create new *)
      let row :=
        {| id := new_id (List.length (conversations db));
           tenant_id := tenant;
           user_id := user;
           channel := chan;
           status := "open" |} in
      ({| conversations := conversations db ++ [row];
          conversation_messages := conversation_messages db |}, row)
  end.

(** Save message to DB; [metadata or {}]. *)
Definition save_message (conv_id role_ content_ : string)
    (metadata_ : option (Py.dict Py.value)) (db : database)
  : database * conversation_message :=
  let row :=
    {| message_id := new_id (List.length (conversation_messages db));
       conversation_id := conv_id;
       role := role_;
       content := content_;
       metadata := match metadata_ with Some m => m | None => [] end |} in
  ({| conversations := conversations db;
      conversation_messages := conversation_messages db ++ [row] |}, row).

(** [handle_message] of the listing that stores the messages and
    echoes the request. *)
Definition handle_message (request : Roadmap.MessageRequest) (db : database)
  : database * Roadmap.MessageResponse :=
  (* Get/create conversation *)
  let '(db1, conv) :=
    save_conversation (Roadmap.tenant_id request) (Roadmap.user_id request)
      (Roadmap.channel request) db in
  (* Save user message *)
  let '(db2, _) :=
    save_message (id conv) "user" (Roadmap.request_content request) None db1 in
  let response_text := ("Echo: " ++ Roadmap.request_content request)%string in
  (* Save assistant message *)
  let '(db3, _) := save_message (id conv) "assistant" response_text None db2 in
  (db3,
   {| Roadmap.response := response_text;
      Roadmap.intent := Some "unknown"%string;
      Roadmap.sources := None |}).

(** The endpoint called once for each request of a list, in order. *)
Definition serve (requests : list Roadmap.MessageRequest) (db : database)
  : database :=
  fold_left (fun db' request => fst (handle_message request db')) requests db.

End Client.

Definition empty : database :=
  {| conversations := []; conversation_messages := [] |}.

(** Every message is filed under a conversation of the table. *)
Definition messages_filed (db : database) : Prop :=
  forall m, In m (conversation_messages db) ->
    exists conv, In conv (conversations db) /\ id conv = conversation_id m.

(** No two conversations of the table share tenant, user and
    channel. *)
Definition one_conversation_each (db : database) : Prop :=
  forall tenant user chan,
    (List.length (filter (selected tenant user chan) (conversations db))
     <= 1)%nat.

End RoadmapStorage.

(* ================================================================== *)
(** * Document ingestion of rag_pipeline.md *)
(* ================================================================== *)

Module PipelineDocuments.

(** An uploaded file: [file.filename], [file.size],
    [file.content_type], and [file.file], the handle the readers
    open. *)
Record UploadFile : Type := {
  filename : string;
  size : Z;
  content_type : string;
  file : string
}.

(** A row of the table [documents]. *)
Record document : Type := {
  id : string;
  tenant_id : string;
  doc_filename : string;
  file_path : string;
  file_size : Z;
  mime_type : string;
  status : string;
  chunk_count : option Z
}.

(** The bucket "documents" (paths, in upload order) and the table
    "documents".  Calls to Supabase are taken to succeed. *)
Record supabase : Type := {
  storage : list string;
  documents : list document
}.

(** What [upload_document] raises: an exception of a reader, or its
    own [ValueError]. *)
Inductive failure : Type :=
| ReaderError (e : exn)
| ValueError (message : string).

Definition pdf_mime : string := "application/pdf".
Definition docx_mime : string :=
  "application/vnd.openxmlformats-officedocument.wordprocessingml.document".

Section Readers.

(** [PdfReader(f).pages] with [extract_text()] of each page, and
    [Document(f).paragraphs] with the [text] of each paragraph. *)
Variable pdf_pages : string -> result (list string).
Variable docx_paragraphs : string -> result (list string).
Variable new_id : nat -> string.

Definition extract_pdf_text (file_path : string) : result string :=
  pages <- pdf_pages file_path ;;
  Ok (fold_left (fun text page => (text ++ page ++ Py.nl)%string) pages
        EmptyString).

Definition extract_docx_text (file_path : string) : result string :=
  paragraphs <- docx_paragraphs file_path ;;
  Ok (Py.join Py.nl paragraphs).

Definition set_processed (doc_id : string) (count : Z) (d : document)
  : document :=
  if String.eqb (id d) doc_id then
    {| id := id d;
       tenant_id := tenant_id d;
       doc_filename := doc_filename d;
       file_path := file_path d;
       file_size := file_size d;
       mime_type := mime_type d;
       status := "processed";
       chunk_count := Some count |}
  else d.

(** [upload_document]: the state of Supabase it leaves, and whether it
    returned; [None] stands for a chunking loop that does not end. *)
Definition upload_document (tenant : string) (f : UploadFile) (s : supabase)
  : option (supabase * option failure) :=
  (* 1. Save to Supabase Storage *)
  let path :=
    ("tenants/" ++ tenant ++ "/documents/" ++ filename f)%string in
  let storage1 := storage s ++ [path] in
  (* 2. Store metadata in DB *)
  let db_doc :=
    {| id := new_id (List.length (documents s));
       tenant_id := tenant;
       doc_filename := filename f;
       file_path := path;
       file_size := size f;
       mime_type := content_type f;
       status := "processing";
       chunk_count := None |} in
  let s1 := {| storage := storage1; documents := documents s ++ [db_doc] |} in
  (* 3. Extract text *)
  let extracted :=
    if String.eqb (content_type f) pdf_mime then
      match extract_pdf_text (file f) with
      | Ok text => inl text
      | Raise e => inr (ReaderError e)
      end
    else if String.eqb (content_type f) docx_mime then
      match extract_docx_text (file f) with
      | Ok text => inl text
      | Raise e => inr (ReaderError e)
      end
    else
      inr (ValueError ("Unsupported file type: " ++ content_type f)%string) in
  match extracted with
  | inr e => Some (s1, Some e)
  | inl text =>
      (* 4. Chunk + embed + index *)
      match RagPipeline.chunk_text text 500 50 with
      | None => None
      | Some chunks =>
          (* 5. Update status *)
          Some ({| storage := storage1;
                   documents :=
                     map (set_processed (id db_doc)
                            (Z.of_nat (List.length chunks)))
                       (documents s1) |}, None)
      end
  end.

End Readers.

End PipelineDocuments.

(* ================================================================== *)
(** * The API client of the dashboard: lib/api.ts, lib/api-playground.ts *)
(* ================================================================== *)

Module Api.

(** A response: its status, and its body decoded as JSON when it is
    JSON. *)
Record response : Type := {
  status : Z;
  body : option json
}.

(** [response.ok]: the status is in the range 200-299. *)
Definition ok (r : response) : bool :=
  (200 <=? status r) && (status r <=? 299).

(** [fetch] is rejected (no response), or answered. *)
Inductive fetch_result : Type :=
| Rejected
| Answered (r : response).

Record request : Type := {
  method : string;
  url : string;
  request_body : option json
}.

(** What a call of the client throws: the rejection of [fetch], the
    failure of [response.json()] on a body that is not JSON, the
    [TypeError] of reading a property of [null], or the [Error] it
    makes itself, with the value given as its message. *)
Inductive thrown : Type :=
| FetchFailed
| BodyNotJson
| PropertyOfNull
| Error (message : json).

Inductive outcome (A : Type) : Type :=
| Resolved (a : A)
| Threw (t : thrown).
Arguments Resolved {A} a.
Arguments Threw {A} t.

(** The block [const error = await response.json(); throw new
    Error(error.detail || fallback)]. *)
Definition throw_detail {A : Type} (r : response) (fallback : string)
  : outcome A :=
  match body r with
  | None => Threw BodyNotJson
  | Some error =>
      match Widget.property error "detail" with
      | Raise _ => Threw PropertyOfNull
      | Ok detail =>
          match detail with
          | Some d => if Widget.truthy d then Threw (Error d)
                      else Threw (Error (JStr fallback))
          | None => Threw (Error (JStr fallback))
          end
      end
  end.

(** [return response.json()] *)
Definition return_json (r : response) : outcome json :=
  match body r with
  | None => Threw BodyNotJson
  | Some data => Resolved data
  end.

Section Client.

Variable API_BASE_URL : string.
Variable fetch : request -> fetch_result.

(** The shape shared by the calls that return the decoded body. *)
Definition call_json (req : request) (fallback : string) : outcome json :=
  match fetch req with
  | Rejected => Threw FetchFailed
  | Answered r =>
      if negb (ok r) then throw_detail r fallback else return_json r
  end.

(** The shape of the calls that return nothing. *)
Definition call_void (req : request) (fallback : string) : outcome unit :=
  match fetch req with
  | Rejected => Threw FetchFailed
  | Answered r =>
      if negb (ok r) then throw_detail r fallback else Resolved tt
  end.

(** [JSON.stringify] of [{content, conversation_id}]: a property that
    is [undefined] is left out. *)
Definition playground_body (content : string) (conversation_id : option json)
  : json :=
  JObj (("content"%string, JStr content)
        :: match conversation_id with
           | Some c => [("conversation_id"%string, c)]
           | None => []
           end).

Definition sendPlaygroundMessage (content : string)
    (conversation_id : option json) : outcome json :=
  call_json
    {| method := "POST";
       url := (API_BASE_URL ++ "/api/v1/playground/message")%string;
       request_body := Some (playground_body content conversation_id) |}
    "Failed to send message".

Definition ingestDocument (document_id : string) : outcome json :=
  call_json
    {| method := "POST";
       url := (API_BASE_URL ++ "/api/v1/ingestion/document")%string;
       request_body := Some (JObj [("document_id"%string, JStr document_id)]) |}
    "Failed to queue document ingestion".

Definition optional_field (key : string) (v : option json)
  : list (string * json) :=
  match v with Some x => [(key, x)] | None => [] end.

Definition ingestWebsite (site_url : string)
    (max_pages website_page_id : option json) : outcome json :=
  call_json
    {| method := "POST";
       url := (API_BASE_URL ++ "/api/v1/ingestion/website")%string;
       request_body :=
         Some (JObj (("url"%string, JStr site_url)
                     :: optional_field "max_pages" max_pages
                     ++ optional_field "website_page_id" website_page_id)) |}
    "Failed to queue website ingestion".

Definition getJobStatus (jobId : string) : outcome json :=
  call_json
    {| method := "GET";
       url := (API_BASE_URL ++ "/api/v1/ingestion/job/" ++ jobId)%string;
       request_body := None |}
    "Failed to fetch job status".

Definition listDocuments : outcome json :=
  call_json
    {| method := "GET";
       url := (API_BASE_URL ++ "/api/v1/knowledge/documents")%string;
       request_body := None |}
    "Failed to fetch documents".

Definition listWebsites : outcome json :=
  call_json
    {| method := "GET";
       url := (API_BASE_URL ++ "/api/v1/knowledge/websites")%string;
       request_body := None |}
    "Failed to fetch websites".

Definition deleteDocument (documentId : string) : outcome unit :=
  call_void
    {| method := "DELETE";
       url := (API_BASE_URL ++ "/api/v1/knowledge/documents/"
               ++ documentId)%string;
       request_body := None |}
    "Failed to delete document".

Definition deleteWebsite (websiteId : string) : outcome unit :=
  call_void
    {| method := "DELETE";
       url := (API_BASE_URL ++ "/api/v1/knowledge/websites/"
               ++ websiteId)%string;
       request_body := None |}
    "Failed to delete website".

(** The calls on the AI settings: here the body of a failed response
    is read with [response.json().catch(() => ({}))]. *)
Definition call_settings (req : request) : outcome json :=
  match fetch req with
  | Rejected => Threw FetchFailed
  | Answered r =>
      if negb (ok r) then
        let errorData := match body r with Some e => e | None => JObj [] end in
        throw_detail {| status := status r; body := Some errorData |}
          ("HTTP error! status: " ++ Py.str_of_int (status r))
      else return_json r
  end.

Definition settings_url : string :=
  (API_BASE_URL ++ "/api/v1/ai-settings/")%string.

Definition getAISettings : outcome json :=
  call_settings
    {| method := "GET"; url := settings_url; request_body := None |}.

Definition updateAISettings (settings : json) : outcome json :=
  call_settings
    {| method := "PUT"; url := settings_url; request_body := Some settings |}.

Definition patchAISettings (settings : json) : outcome json :=
  call_settings
    {| method := "PATCH"; url := settings_url;
       request_body := Some settings |}.

End Client.

Definition resolves {A : Type} (o : outcome A) : bool :=
  match o with Resolved _ => true | Threw _ => false end.

End Api.

(* ================================================================== *)
(** * The playground page of the dashboard *)
(* ================================================================== *)

Module Playground.

(** A message of the page; [content] of an assistant message is
    [response.response], whatever the server sent ([None]:
    [undefined]). *)
Record Message : Type := {
  id : string;
  role : string;
  content : option json;
  timestamp : string
}.

(** The state [handleSend] reads and writes; [conversationId] is
    [None] for [null] and [undefined]. *)
Record state : Type := {
  messages : list Message;
  input : string;
  isLoading : bool;
  conversationId : option json
}.

(** A toast; its description is the error whose [message] is shown. *)
Record toast : Type := {
  title : string;
  description : Api.thrown;
  variant : string
}.

(** [Date.now()] and [new Date().toLocaleTimeString(...)] when the
    user message is made and when the assistant message is made. *)
Record clock : Type := {
  sent_now : Z;
  sent_time : string;
  received_now : Z;
  received_time : string
}.

Section Page.

Variable API_BASE_URL : string.
Variable fetch : Api.request -> Api.fetch_result.

(** The [try] block: the message to append and the conversation id
    to keep, or what was thrown.  No state is set before the last
    statement that can throw. *)
Definition try_block (c : clock) (currentInput : string)
    (conversationId_ : option json)
  : Api.outcome (Message * option json) :=
  match Api.sendPlaygroundMessage API_BASE_URL fetch currentInput
          (if Widget.truthy_opt conversationId_ then conversationId_
           else None) with
  | Api.Threw t => Api.Threw t
  | Api.Resolved response =>
      match (if negb (Widget.truthy_opt conversationId_)
             then Widget.property response "conversation_id"
             else Ok conversationId_) with
      | Raise _ => Api.Threw Api.PropertyOfNull
      | Ok conversationId' =>
          match Widget.property response "response" with
          | Raise _ => Api.Threw Api.PropertyOfNull
          | Ok r =>
              Api.Resolved
                ({| id := Py.str_of_int (received_now c + 1);
                    role := "assistant";
                    content := r;
                    timestamp := received_time c |},
                 conversationId')
          end
      end
  end.

(** [handleSend], run to completion on the state it was called in:
    the state it leaves, and the toasts it shows. *)
Definition handleSend (c : clock) (s : state) : state * list toast :=
  if negb (Py.truthy (Widget.trim (input s))) || isLoading s then (s, [])
  else
    let userMessage :=
      {| id := Py.str_of_int (sent_now c);
         role := "user";
         content := Some (JStr (input s));
         timestamp := sent_time c |} in
    let currentInput := input s in
    match try_block c currentInput (conversationId s) with
    | Api.Resolved (assistantMessage, conversationId') =>
        ({| messages := (messages s ++ [userMessage]) ++ [assistantMessage];
            input := EmptyString;
            isLoading := false;
            conversationId := conversationId' |}, [])
    | Api.Threw t =>
        ({| messages := messages s ++ [userMessage];
            input := EmptyString;
            isLoading := false;
            conversationId := conversationId s |},
         [{| title := "Erreur"; description := t;
             variant := "destructive" |}])
    end.

(** [handleClear] *)
Definition handleClear (s : state) : state :=
  {| messages := [];
     input := input s;
     isLoading := isLoading s;
     conversationId := None |}.

End Page.

End Playground.

(* ================================================================== *)
(** * The context formatter as the specification words it *)
(* ================================================================== *)

Module FormatSpec.

Definition separator : string :=
  (Py.nl ++ Py.nl ++ "---" ++ Py.nl ++ Py.nl)%string.






End FormatSpec.

(* ================================================================== *)
(** * Sample data for crawling, storage and the dashboard *)
(* ================================================================== *)

Module Samples.

Definition home : string := "https://shop.example/".
Definition delivery : string := "https://shop.example/delivery".
Definition returns : string := "https://shop.example/returns".
Definition gone : string := "https://shop.example/old".

Definition crawled_page (u t m : string) (links : list string)
  : Crawl4AI.crawl_result :=
  {| Crawl4AI.url := u;
     Crawl4AI.title := t;
     Crawl4AI.markdown := m;
     Crawl4AI.internal_links := links |}.

(** A paragraph of more than 50 characters, a blank line, and a short
    paragraph. *)
Definition welcome : string :=
  ("Welcome to the shop. We make ceramics and ship them everywhere in Europe."
   ++ Py.nl ++ Py.nl ++ "Contact us.")%string.

Definition embedded (text : string) : result Qdrant.vector := Ok [1 # 2].

Definition stored (p : RoadmapIngestion.point) : result unit := Ok tt.

(** A site of three pages; the home page links to itself, twice to
    the delivery page, and to a page that cannot be fetched. *)
Definition shop : Crawl4AI.crawler :=
  fun u _ =>
    if String.eqb u home then
      Ok (crawled_page home "Shop" welcome
            [home; delivery; returns; delivery; gone])
    else if String.eqb u delivery then
      Ok (crawled_page delivery "Delivery" Examples.delivery_text [home])
    else if String.eqb u returns then
      Ok (crawled_page returns "Returns" Examples.returns_text [home])
    else Raise (ServiceError "crawler").

Definition row_id (n : nat) : string :=
  ("row-" ++ Py.str_of_int (Z.of_nat n))%string.

Definition request_of (tenant user text : string) : Roadmap.MessageRequest :=
  {| Roadmap.tenant_id := tenant;
     Roadmap.user_id := user;
     Roadmap.channel := "web";
     Roadmap.request_content := text |}.

Definition a_pdf : PipelineDocuments.UploadFile :=
  {| PipelineDocuments.filename := "terms.pdf";
     PipelineDocuments.size := 2048;
     PipelineDocuments.content_type := PipelineDocuments.pdf_mime;
     PipelineDocuments.file := "terms.pdf" |}.

Definition a_picture : PipelineDocuments.UploadFile :=
  {| PipelineDocuments.filename := "logo.png";
     PipelineDocuments.size := 512;
     PipelineDocuments.content_type := "image/png";
     PipelineDocuments.file := "logo.png" |}.

Definition two_pages (f : string) : result (list string) :=
  Ok [Examples.delivery_text; Examples.returns_text].

Definition no_paragraphs (f : string) : result (list string) :=
  Raise (ServiceError "docx").

Definition no_documents : PipelineDocuments.supabase :=
  {| PipelineDocuments.storage := []; PipelineDocuments.documents := [] |}.

(** A server that refuses every request, with a reason. *)
Definition refusing (reason : json) : Api.request -> Api.fetch_result :=
  fun _ =>
    Api.Answered
      {| Api.status := 503;
         Api.body := Some (JObj [("detail"%string, reason)]) |}.

(** A server whose failures are not JSON. *)
Definition gateway_down : Api.request -> Api.fetch_result :=
  fun _ => Api.Answered {| Api.status := 502; Api.body := None |}.

(** A server that answers the widget. *)
Definition answering (message : string) (conversation_id : json)
  : Widget.fetch_result :=
  Widget.Response true
    (Some (JObj [("response"%string, JStr "It is on its way.");
                 ("conversation_id"%string, JStr "conv-2")])).

Definition noon : Playground.clock :=
  {| Playground.sent_now := 1700000000000;
     Playground.sent_time := "12:00";
     Playground.received_now := 1700000000750;
     Playground.received_time := "12:00" |}.

Definition typed (text : string) : Playground.state :=
  {| Playground.messages := [];
     Playground.input := text;
     Playground.isLoading := false;
     Playground.conversationId := None |}.

End Samples.

(* ================================================================== *)
(** * Properties *)
(* ================================================================== *)

(** ** Strings *)

Section StringFacts.

Lemma length_take (n : nat) (s : string) :
  String.length (Py.take n s) = Nat.min n (String.length s).
Proof.
  revert s; induction n as [|n IH]; intros [|c s]; simpl; auto.
Qed.

Lemma length_drop (n : nat) (s : string) :
  String.length (Py.drop n s) = (String.length s - n)%nat.
Proof.
  revert s; induction n as [|n IH]; intros [|c s]; simpl; auto.
Qed.

Lemma take_drop (n : nat) (s : string) :
  (Py.take n s ++ Py.drop n s)%string = s.
Proof.
  revert s; induction n as [|n IH]; intros [|c s]; simpl; auto.
  now rewrite IH.
Qed.

Lemma drop_drop (n m : nat) (s : string) :
  Py.drop n (Py.drop m s) = Py.drop (m + n) s.
Proof.
  revert s; induction m as [|m IH]; intros s; simpl; auto.
  destruct s as [|c s]; simpl; auto.
  now destruct n.
Qed.

Lemma take_all (n : nat) (s : string) :
  (String.length s <= n)%nat -> Py.take n s = s.
Proof.
  revert s; induction n as [|n IH]; intros [|c s]; simpl; auto; intros H.
  - lia.
  - f_equal. apply IH. lia.
Qed.

Lemma drop_all (n : nat) (s : string) :
  (String.length s <= n)%nat -> Py.drop n s = EmptyString.
Proof.
  revert s; induction n as [|n IH]; intros [|c s]; simpl; auto; intros H.
  - lia.
  - apply IH. lia.
Qed.

Lemma take_min (n : nat) (s : string) :
  Py.take (Nat.min n (String.length s)) s = Py.take n s.
Proof.
  revert s; induction n as [|n IH]; intros [|c s]; simpl; auto.
  now rewrite IH.
Qed.

(** Dropping inside a prefix. *)
Lemma drop_take (n m : nat) (s : string) :
  Py.drop n (Py.take m s) = Py.take (m - n) (Py.drop n s).
Proof.
  revert m s; induction n as [|n IH]; intros m s; simpl.
  - now rewrite Nat.sub_0_r.
  - destruct m as [|m]; destruct s as [|c s]; simpl; auto.
    now destruct (m - n)%nat.
Qed.

(** A prefix split in two. *)
Lemma take_add (n m : nat) (s : string) :
  Py.take (n + m) s = (Py.take n s ++ Py.take m (Py.drop n s))%string.
Proof.
  revert s; induction n as [|n IH]; intros s; simpl; auto.
  destruct s as [|c s]; simpl.
  - now destruct m.
  - now rewrite IH.
Qed.

(** On bounds that are not negative and in order, a slice is a prefix
    of a suffix. *)
Lemma slice_nonneg (s : string) (i j : Z) :
  0 <= i <= j ->
  Py.slice s i j = Py.take (Z.to_nat (j - i)) (Py.drop (Z.to_nat i) s).
Proof.
  intros Hij. unfold Py.slice, Py.clamp, Py.len.
  destruct (Z.ltb_spec i 0); [lia|].
  destruct (Z.ltb_spec j 0); [lia|].
  set (n := String.length s).
  destruct (Z.le_gt_cases (Z.of_nat n) i) as [Hlen|Hlen].
  - rewrite (drop_all (Z.to_nat i)) by (fold n; lia).
    rewrite (drop_all (Z.to_nat (Z.min i (Z.of_nat n)))) by (fold n; lia).
    now destruct (Z.to_nat _), (Z.to_nat _).
  - rewrite (Z.min_l i) by lia.
    rewrite <- (take_min (Z.to_nat (j - i))).
    f_equal. rewrite length_drop. fold n. lia.
Qed.

End StringFacts.

Section StripFacts.

Lemma lstrip_cases (s : string) :
  (Py.all_space s = true /\ Py.lstrip s = EmptyString)
  \/ (Py.all_space s = false
      /\ exists c s', Py.lstrip s = String c s' /\ Py.isspace c = false).
Proof.
  induction s as [|c s IH]; simpl.
  - now left.
  - destruct (Py.isspace c) eqn:Hc; simpl.
    + exact IH.
    + right. split; [reflexivity|]. now exists c, s.
Qed.

Lemma rstrip_head (c : ascii) (s : string) :
  Py.isspace c = false -> Py.truthy (Py.rstrip (String c s)) = true.
Proof.
  intros Hc. simpl. rewrite Hc. now destruct (Py.rstrip s).
Qed.

(** [chunk.strip()] is falsy exactly on whitespace-only windows. *)
Lemma truthy_strip (s : string) :
  Py.truthy (Py.strip s) = negb (Py.all_space s).
Proof.
  unfold Py.strip.
  destruct (lstrip_cases s) as [[Ha Hl]|[Ha (c & s' & Hl & Hc)]];
    rewrite Ha, Hl; simpl Py.truthy.
  - reflexivity.
  - now apply rstrip_head.
Qed.

Lemma concat_empty_cons (x : string) (xs : list string) :
  String.concat EmptyString (x :: xs)
  = (x ++ String.concat EmptyString xs)%string.
Proof.
  destruct xs as [|y ys]; simpl; auto.
  induction x as [|c x IH]; simpl; auto. now rewrite <- IH.
Qed.

End StripFacts.

(** ** The chunker *)

Section Chunker.

Variable text : string.
Variables chunk_size overlap : Z.

Let step : Z := chunk_size - overlap.

(** The starts below [len(text)] are those of the first
    [window_count] multiples of the step. *)
Lemma window_count_spec (k : nat) :
  0 < step ->
  (k < ChunkSpec.window_count text step)%nat
  <-> Z.of_nat k * step < Py.len text.
Proof.
  intros Hstep. unfold ChunkSpec.window_count.
  assert (Hlen : 0 <= Py.len text) by (unfold Py.len; lia).
  set (a := Py.len text + step - 1).
  pose proof (Z.div_mod a step ltac:(lia)) as Hdm.
  pose proof (Z.mod_pos_bound a step Hstep) as Hr.
  assert (Hq : 0 <= a / step) by (apply Z.div_pos; lia).
  split; intros H.
  - assert (Z.of_nat k + 1 <= a / step) by lia. nia.
  - assert (Z.of_nat k < a / step) by nia. lia.
Qed.

Lemma window_count_le :
  0 < step -> (ChunkSpec.window_count text step <= String.length text)%nat.
Proof.
  intros Hstep.
  destruct (Nat.le_gt_cases (ChunkSpec.window_count text step)
              (String.length text)) as [H|H]; [exact H|].
  apply window_count_spec in H; [|exact Hstep].
  unfold Py.len in H. nia.
Qed.

Let windows_from (k0 : nat) : list string :=
  map (fun k => ChunkSpec.window text chunk_size (Z.of_nat k * step))
    (seq k0 (ChunkSpec.window_count text step - k0)).

(** The loop, entered at the [k0]-th start with enough fuel, appends
    what the remaining windows emit. *)
Lemma chunk_loop_windows :
  0 < step ->
  forall (fuel k0 : nat) (chunks : list string),
    (ChunkSpec.window_count text step - k0 < fuel)%nat ->
    RagPipeline.chunk_loop fuel text chunk_size overlap
      (Z.of_nat k0 * step) chunks
    = Some (chunks ++ ChunkSpec.emitted (windows_from k0)).
Proof.
  intros Hstep. induction fuel as [|fuel IH]; intros k0 chunks Hfuel.
  - lia.
  - simpl. unfold windows_from.
    destruct (Z.ltb_spec (Z.of_nat k0 * step) (Py.len text)) as [Hlt|Hge].
    + apply window_count_spec in Hlt; [|exact Hstep].
      replace (ChunkSpec.window_count text step - k0)%nat
        with (S (ChunkSpec.window_count text step - S k0)) by lia.
      replace (Z.of_nat k0 * step + (chunk_size - overlap))
        with (Z.of_nat (S k0) * step) by (unfold step; lia).
      rewrite IH by lia. f_equal.
      simpl seq. simpl map. unfold ChunkSpec.emitted. simpl filter.
      fold (ChunkSpec.window text chunk_size (Z.of_nat k0 * step)).
      rewrite truthy_strip.
      destruct (Py.all_space _); simpl.
      * reflexivity.
      * now rewrite <- app_assoc.
    + assert (Hk : ~ (k0 < ChunkSpec.window_count text step)%nat).
      { intros Hk. apply window_count_spec in Hk; [lia|exact Hstep]. }
      replace (ChunkSpec.window_count text step - k0)%nat with 0%nat by lia.
      simpl. now rewrite app_nil_r.
Qed.

(** [chunk_text] returns, and returns what the windows emit. *)
Lemma chunk_text_emitted :
  overlap < chunk_size ->
  RagPipeline.chunk_text text chunk_size overlap
  = Some (ChunkSpec.emitted (ChunkSpec.windows text chunk_size overlap)).
Proof.
  intros Hlt. assert (Hstep : 0 < step) by (unfold step; lia).
  unfold RagPipeline.chunk_text, RagPipeline.chunk_text_fuel.
  change 0 with (Z.of_nat 0 * step).
  rewrite chunk_loop_windows.
  - unfold windows_from, ChunkSpec.windows. fold step.
    now rewrite Nat.sub_0_r.
  - exact Hstep.
  - pose proof (window_count_le Hstep). lia.
Qed.

(** With a step that is not positive the start index never passes
    the end of a non-empty text. *)
Lemma chunk_loop_diverges :
  step <= 0 -> text <> EmptyString ->
  forall (fuel : nat) (start : Z) (chunks : list string),
    start <= 0 ->
    RagPipeline.chunk_loop fuel text chunk_size overlap start chunks = None.
Proof.
  intros Hstep Htext. induction fuel as [|fuel IH]; intros start chunks Hs.
  - reflexivity.
  - simpl.
    assert (Hlen : 0 < Py.len text).
    { unfold Py.len. destruct text; [congruence|simpl; lia]. }
    destruct (Z.ltb_spec start (Py.len text)); [|lia].
    apply IH. unfold step in Hstep. lia.
Qed.

End Chunker.

Section Reassembly.

(** Consecutive blocks of [st] characters make up a prefix. *)
Lemma concat_blocks (u : string) (st : nat) (m a : nat) :
  String.concat EmptyString
    (map (fun j => Py.take st (Py.drop (j * st) u)) (seq a m))
  = Py.take (m * st) (Py.drop (a * st) u).
Proof.
  revert a; induction m as [|m IH]; intros a.
  - reflexivity.
  - simpl seq. simpl map. rewrite concat_empty_cons, IH.
    simpl Nat.mul. rewrite take_add, drop_drop.
    do 3 f_equal. lia.
Qed.

Variable text : string.
Variables chunk_size overlap : Z.
Hypothesis Hpre : 0 <= overlap < chunk_size.

Let sz : nat := Z.to_nat chunk_size.
Let ov : nat := Z.to_nat overlap.
Let st : nat := (sz - ov)%nat.

Lemma window_nat (k : nat) :
  ChunkSpec.window text chunk_size (Z.of_nat k * (chunk_size - overlap))
  = Py.take sz (Py.drop (k * st) text).
Proof.
  unfold ChunkSpec.window. rewrite slice_nonneg by nia.
  f_equal.
  - unfold sz. f_equal. lia.
  - f_equal. unfold st, sz, ov. nia.
Qed.

(** A later window without the characters it shares with its
    predecessor is the next block of the text after the first
    window. *)
Lemma later_window_nat (j : nat) :
  Py.drop ov
    (ChunkSpec.window text chunk_size
       (Z.of_nat (S j) * (chunk_size - overlap)))
  = Py.take st (Py.drop (j * st) (Py.drop sz text)).
Proof.
  rewrite window_nat, drop_take, !drop_drop.
  fold st. do 2 f_equal. unfold st, sz, ov. nia.
Qed.

Lemma reassemble_windows :
  ChunkSpec.reassemble overlap (ChunkSpec.windows text chunk_size overlap)
  = text.
Proof.
  unfold ChunkSpec.windows.
  assert (Hstep : 0 < chunk_size - overlap) by lia.
  pose proof (window_count_spec text chunk_size overlap) as Hcount.
  cbv zeta in Hcount.
  destruct (ChunkSpec.window_count text (chunk_size - overlap)) as [|N].
  - assert (Hlen : ~ Z.of_nat 0 * (chunk_size - overlap) < Py.len text).
    { intros H. apply Hcount in H; [lia|exact Hstep]. }
    unfold Py.len in Hlen. destruct text; [reflexivity|simpl in Hlen; lia].
  - cbn [seq map]. unfold ChunkSpec.reassemble.
    rewrite <- seq_shift, !map_map. fold ov.
    rewrite (map_ext _ (fun j => Py.take st (Py.drop (j * st) (Py.drop sz text))))
      by (intros j; apply later_window_nat).
    rewrite concat_blocks.
    rewrite (window_nat 0). cbn [Nat.mul Py.drop].
    rewrite (take_all (N * st)).
    + apply take_drop.
    + rewrite length_drop.
      assert (Hend : ~ Z.of_nat (S N) * (chunk_size - overlap) < Py.len text).
      { intros H. apply Hcount in H; [lia|exact Hstep]. }
      unfold Py.len in Hend. unfold st, sz, ov. nia.
Qed.

End Reassembly.

(** ** Claims on the chunker *)

(** C5 (as amended): for [0 <= overlap < size] the windows
    [text[start : start+size]] cut by [chunk_text], the first one whole
    and each later one without the [overlap] characters it shares with
    its predecessor, concatenate to the text; the chunks returned are
    these windows stripped of leading and trailing whitespace, without
    the whitespace-only ones, so the text is recovered from the
    windows and not from the chunks. *)
Theorem chunk_text_windows_reassemble (text : string) (size overlap : Z) :
  0 <= overlap < size ->
  ChunkSpec.reassemble overlap (ChunkSpec.windows text size overlap) = text
  /\ RagPipeline.chunk_text text size overlap
     = Some (map Py.strip
               (filter (fun w => negb (Py.all_space w))
                  (ChunkSpec.windows text size overlap))).
Proof.
  intros Hpre. split.
  - now apply reassemble_windows.
  - apply chunk_text_emitted. lia.
Qed.

Lemma chunk_text_windows_reassemble_witness :
  ChunkSpec.reassemble 6 (ChunkSpec.windows "0123456789" 8 6)
  = "0123456789"%string
  /\ RagPipeline.chunk_text "0123456789" 8 6
     = Some (map Py.strip
               (filter (fun w => negb (Py.all_space w))
                  (ChunkSpec.windows "0123456789" 8 6))).
Proof.
  apply (chunk_text_windows_reassemble "0123456789" 8 6). lia.
Defined.

(** C5 as stated fails: on ["ab cd"] with size 3 and overlap 0 no
    window is dropped, yet the chunks concatenate to ["abcd"]. *)
Lemma chunk_text_not_lossless :
  exists chunks : list string,
    RagPipeline.chunk_text "ab cd" 3 0 = Some chunks
    /\ List.length chunks = List.length (ChunkSpec.windows "ab cd" 3 0)
    /\ ChunkSpec.reassemble 0 chunks <> "ab cd"%string.
Proof.
  exists ["ab"; "cd"]%string. repeat split. vm_compute. discriminate.
Qed.

(** C6 (as amended): for [0 <= overlap < size], [chunk_text] returns, in
    order, the windows [text[start : start+size]] for [start = 0,
    size-overlap, 2*(size-overlap), ...] below [len(text)], each
    stripped of leading and trailing whitespace, and leaves a window
    out exactly when it is whitespace-only; no minimum length applies. *)
Theorem chunk_text_stripped_windows (text : string) (size overlap : Z) :
  0 <= overlap < size ->
  let step := size - overlap in
  let count := ChunkSpec.window_count text step in
  (forall k : nat, (k < count)%nat <-> Z.of_nat k * step < Py.len text)
  /\ RagPipeline.chunk_text text size overlap
     = Some (map Py.strip
               (filter (fun w => negb (Py.all_space w))
                  (map (fun k => Py.slice text (Z.of_nat k * step)
                                    (Z.of_nat k * step + size))
                     (seq 0 count)))).
Proof.
  intros Hpre step count. split.
  - intros k. apply window_count_spec. unfold step. lia.
  - apply chunk_text_emitted. lia.
Qed.

Lemma chunk_text_stripped_windows_witness :
  RagPipeline.chunk_text " a  b " 3 0 = Some ["a"; "b"]%string.
Proof.
  rewrite (proj2 (chunk_text_stripped_windows " a  b " 3 0 ltac:(lia))).
  reflexivity.
Defined.

(** C6 as stated fails: the two-character text ["hi"] is returned
    although it is shorter than ten characters, and the windows
    [" a "] and [" b "] are returned as ["a"] and ["b"]. *)
Lemma chunk_text_no_minimum_length :
  RagPipeline.chunk_text "hi" 500 50
  <> Some (ChunkSpec.claimed_chunks 10 "hi" 500 50)
  /\ RagPipeline.chunk_text " a  b " 3 0
     <> Some (ChunkSpec.claimed_chunks 0 " a  b " 3 0).
Proof.
  split; vm_compute; discriminate.
Qed.

(** C10: [chunk_text] terminates exactly when the text is empty or
    [overlap < size]: with [overlap < size] the start index grows by
    [size - overlap >= 1] per iteration and [len(text) + 1] loop tests
    suffice; with [overlap >= size] and a non-empty text no amount of
    fuel lets the loop finish. *)
Theorem chunk_text_terminates_iff (text : string) (size overlap : Z) :
  (exists (fuel : nat) (chunks : list string),
      RagPipeline.chunk_text_fuel fuel text size overlap = Some chunks)
  <-> (text = EmptyString \/ overlap < size).
Proof.
  split.
  - intros (fuel & chunks & Hrun).
    destruct text as [|c text'] eqn:Htext; [now left|right].
    destruct (Z.lt_ge_cases overlap size) as [Hlt|Hge]; [exact Hlt|].
    unfold RagPipeline.chunk_text_fuel in Hrun.
    rewrite chunk_loop_diverges in Hrun; try discriminate; lia.
  - intros [Hempty|Hlt].
    + subst text. now exists 1%nat, [].
    + exists (S (String.length text)). eexists.
      apply (chunk_text_emitted text size overlap Hlt).
Qed.

(** ** Sorting by descending score *)

Section Sorting.

Context {A : Type} (key : A -> Q).

(** [a] may stand before [b] in a list sorted by descending key. *)
Let desc (a b : A) : Prop := (key b <= key a)%Q.

Lemma insert_desc_perm (x : A) (l : list A) :
  Permutation (Py.insert_desc key x l) (x :: l).
Proof.
  induction l as [|y l IH]; simpl.
  - reflexivity.
  - destruct (Qle_bool (key y) (key x)).
    + reflexivity.
    + rewrite IH. apply perm_swap.
Qed.

Lemma sorted_desc_perm (l : list A) : Permutation (Py.sorted_desc key l) l.
Proof.
  induction l as [|x l IH]; simpl.
  - reflexivity.
  - rewrite insert_desc_perm. now constructor.
Qed.

Lemma insert_desc_sorted (x : A) (l : list A) :
  StronglySorted desc l -> StronglySorted desc (Py.insert_desc key x l).
Proof.
  induction l as [|y l IH]; simpl; intros Hs.
  - constructor; constructor.
  - inversion Hs as [|? ? Hl Hy]; subst.
    destruct (Qle_bool (key y) (key x)) eqn:Hle.
    + apply Qle_bool_iff in Hle.
      constructor; [exact Hs|]. constructor; [exact Hle|].
      eapply Forall_impl; [|exact Hy].
      intros z Hz. unfold desc in *. eapply Qle_trans; eassumption.
    + assert (Hlt : (key x < key y)%Q).
      { apply Qnot_le_lt. intros H. apply Qle_bool_iff in H. congruence. }
      constructor; [now apply IH|].
      eapply Permutation_Forall; [symmetry; apply insert_desc_perm|].
      constructor; [|exact Hy]. unfold desc. now apply Qlt_le_weak.
Qed.

Lemma sorted_desc_sorted (l : list A) :
  StronglySorted desc (Py.sorted_desc key l).
Proof.
  induction l as [|x l IH]; simpl.
  - constructor.
  - now apply insert_desc_sorted.
Qed.

Lemma sorted_firstn (n : nat) (l : list A) :
  StronglySorted desc l -> StronglySorted desc (firstn n l).
Proof.
  revert l; induction n as [|n IH]; intros [|x l] Hs; simpl;
    try constructor.
  - apply IH. now inversion Hs.
  - inversion Hs as [|? ? _ Hx]; subst.
    rewrite Forall_forall in *. intros y Hy. apply Hx.
    rewrite <- (firstn_skipn n l). apply in_or_app. now left.
Qed.

(** In a list sorted by descending key an earlier element has the
    larger or equal key. *)
Lemma sorted_nth_error (l : list A) (i j : nat) (a b : A) :
  StronglySorted desc l -> (i < j)%nat ->
  nth_error l i = Some a -> nth_error l j = Some b ->
  (key b <= key a)%Q.
Proof.
  intros Hs. revert i j.
  induction Hs as [|x l Hl IH Hx]; intros i j Hij Hi Hj.
  - now destruct i.
  - destruct j as [|j]; [lia|]. destruct i as [|i]; simpl in *.
    + injection Hi as ->. rewrite Forall_forall in Hx.
      apply Hx. eapply nth_error_In; eassumption.
    + apply (IH i j); auto. lia.
Qed.

(** Hence an element with a strictly larger key stands earlier. *)
Lemma sorted_higher_first (l : list A) (i j : nat) (a b : A) :
  StronglySorted desc l ->
  nth_error l i = Some a -> nth_error l j = Some b ->
  (key b < key a)%Q -> (i < j)%nat.
Proof.
  intros Hs Hi Hj Hlt.
  destruct (Nat.lt_trichotomy i j) as [H|[H|H]]; [exact H| |].
  - subst j. rewrite Hi in Hj. injection Hj as ->.
    now apply Qlt_irrefl in Hlt.
  - pose proof (sorted_nth_error l j i b a Hs H Hj Hi) as Hle.
    exfalso. eapply Qlt_not_le; eassumption.
Qed.

(** The sort is stable: among the elements whose key equals [k] the
    input order is kept. *)
Lemma insert_desc_stable (k : Q) (x : A) (l : list A) :
  filter (fun y => Qeq_bool (key y) k) (Py.insert_desc key x l)
  = filter (fun y => Qeq_bool (key y) k) (x :: l).
Proof.
  induction l as [|y l IH]; simpl.
  - reflexivity.
  - destruct (Qle_bool (key y) (key x)) eqn:Hle; simpl.
    + reflexivity.
    + simpl in IH. rewrite IH.
      destruct (Qeq_bool (key x) k) eqn:Hx; [|reflexivity].
      destruct (Qeq_bool (key y) k) eqn:Hy; [|reflexivity].
      apply Qeq_bool_iff in Hx, Hy.
      assert (Hyx : (key y <= key x)%Q).
      { rewrite Hx, Hy. apply Qle_refl. }
      apply Qle_bool_iff in Hyx. congruence.
Qed.

Lemma sorted_desc_stable (k : Q) (l : list A) :
  filter (fun y => Qeq_bool (key y) k) (Py.sorted_desc key l)
  = filter (fun y => Qeq_bool (key y) k) l.
Proof.
  induction l as [|x l IH]; simpl.
  - reflexivity.
  - rewrite insert_desc_stable. simpl. now rewrite IH.
Qed.

Lemma list_prefix_firstn (l : list A) (k : Z) :
  exists n : nat,
    Py.list_prefix l k = firstn n l
    /\ (0 <= k -> Z.of_nat n <= k).
Proof.
  unfold Py.list_prefix, Py.clamp. eexists. split; [reflexivity|].
  intros Hk. destruct (Z.ltb_spec k 0); lia.
Qed.

End Sorting.

(** ** Claim on the score-based reranker *)

(** C9: for every candidate list and every [top_k], [rerank_by_score]
    returns a prefix of the candidates sorted by descending score (a
    rearrangement of the candidates in which no score is followed by a
    larger one), and of two candidates in the output the one with the
    higher score stands first; for [top_k] a count (not negative) the
    prefix has at most [top_k] elements. *)
Theorem rerank_by_score_sorted_prefix
    (chunks : list RagPipeline.chunk) (top_k : Z) :
  let output := RagPipeline.rerank_by_score chunks top_k in
  (exists sorted rest : list RagPipeline.chunk,
      Permutation sorted chunks
      /\ StronglySorted
           (fun a b => (RagPipeline.score b <= RagPipeline.score a)%Q) sorted
      /\ sorted = output ++ rest)
  /\ (0 <= top_k -> Z.of_nat (List.length output) <= top_k)
  /\ forall (i j : nat) (a b : RagPipeline.chunk),
       nth_error output i = Some a -> nth_error output j = Some b ->
       (RagPipeline.score b < RagPipeline.score a)%Q -> (i < j)%nat.
Proof.
  intros output. subst output. unfold RagPipeline.rerank_by_score.
  destruct (list_prefix_firstn
              (Py.sorted_desc RagPipeline.score chunks) top_k)
    as (n & -> & Hn).
  pose proof (sorted_desc_sorted RagPipeline.score chunks) as Hs.
  split; [|split].
  - exists (Py.sorted_desc RagPipeline.score chunks),
      (skipn n (Py.sorted_desc RagPipeline.score chunks)).
    repeat split.
    + apply sorted_desc_perm.
    + exact Hs.
    + symmetry. apply firstn_skipn.
  - intros Hk. rewrite length_firstn. specialize (Hn Hk). lia.
  - intros i j a b. apply sorted_higher_first. now apply sorted_firstn.
Qed.

(** ** The merge step of the multi-query search *)

Section Merge.

Import RagPipeline.

Lemma dict_set_keys {V : Type} (d : Py.dict V) (k k' : string) (v : V) :
  In k' (map fst (Py.dict_set d k v)) -> k' = k \/ In k' (map fst d).
Proof.
  induction d as [|[k0 v0] d IH]; simpl.
  - intros [H|[]]. now left.
  - destruct (String.eqb_spec k0 k) as [->|Hne]; simpl; intuition.
Qed.

Lemma dict_set_nodup {V : Type} (d : Py.dict V) (k : string) (v : V) :
  NoDup (map fst d) -> NoDup (map fst (Py.dict_set d k v)).
Proof.
  induction d as [|[k0 v0] d IH]; simpl; intros Hnd.
  - constructor; [intros []|constructor].
  - inversion Hnd as [|? ? Hk0 Hd]; subst.
    destruct (String.eqb_spec k0 k) as [->|Hne]; simpl.
    + now constructor.
    + constructor; [|now apply IH].
      intros Hin. apply dict_set_keys in Hin. destruct Hin; congruence.
Qed.

Lemma in_dict_set {V : Type} (d : Py.dict V) (k k' : string) (v v' : V) :
  NoDup (map fst d) ->
  In (k', v') (Py.dict_set d k v) ->
  (k' = k /\ v' = v) \/ (k' <> k /\ In (k', v') d).
Proof.
  induction d as [|[k0 v0] d IH]; simpl; intros Hnd.
  - intros [H|[]]. injection H as <- <-. now left.
  - inversion Hnd as [|? ? Hk0 Hd]; subst.
    destruct (String.eqb_spec k0 k) as [->|Hne]; simpl.
    + intros [H|H].
      * injection H as <- <-. now left.
      * right. split; [|now right].
        intros ->. apply Hk0. now apply (in_map fst) in H.
    + intros [H|H].
      * injection H as <- <-. right. split; [congruence|now left].
      * destruct (IH Hd H) as [?|[? ?]]; [now left|right]. split; auto.
Qed.

Import MergeSpec.

(** What the dictionary built from the chunks seen so far holds. *)
Let dict_inv (seen : list chunk) (d : Py.dict chunk) : Prop :=
  NoDup (map fst d)
  /\ forall k c, In (k, c) d -> id c = k /\ last_with_id seen c.

Lemma dict_inv_step (seen : list chunk) (d : Py.dict chunk) (c : chunk) :
  dict_inv seen d -> dict_inv (seen ++ [c]) (Py.dict_set d (id c) c).
Proof.
  intros [Hnd Hd]. split; [now apply dict_set_nodup|].
  intros k c0 Hin. apply in_dict_set in Hin; [|exact Hnd].
  destruct Hin as [[-> ->]|[Hne Hin]].
  - split; [reflexivity|]. exists seen, []. split; [reflexivity|].
    intros c' [].
  - destruct (Hd k c0 Hin) as [Hid (l1 & l2 & -> & Hl2)].
    split; [exact Hid|]. exists l1, (l2 ++ [c]). split.
    + now rewrite <- app_assoc.
    + intros c' Hc'. apply in_app_or in Hc'. destruct Hc' as [H|[<-|[]]].
      * now apply Hl2.
      * congruence.
Qed.

Lemma dict_inv_fold (l seen : list chunk) (d : Py.dict chunk) :
  dict_inv seen d ->
  dict_inv (seen ++ l) (fold_left (fun d c => Py.dict_set d (id c) c) l d).
Proof.
  revert seen d; induction l as [|c l IH]; intros seen d Hinv; simpl.
  - now rewrite app_nil_r.
  - replace (seen ++ c :: l) with ((seen ++ [c]) ++ l)
      by now rewrite <- app_assoc.
    apply IH. now apply dict_inv_step.
Qed.

Lemma unique_chunks_inv (all_chunks : list chunk) :
  NoDup (map fst (unique_chunks all_chunks))
  /\ forall k c, In (k, c) (unique_chunks all_chunks) ->
                 id c = k /\ last_with_id all_chunks c.
Proof.
  apply (dict_inv_fold all_chunks [] []). split; [constructor|].
  intros k c [].
Qed.

Lemma unique_chunks_ids (all_chunks : list chunk) :
  map id (Py.dict_values (unique_chunks all_chunks))
  = map fst (unique_chunks all_chunks).
Proof.
  destruct (unique_chunks_inv all_chunks) as [_ H].
  unfold Py.dict_values. rewrite map_map.
  induction (unique_chunks all_chunks) as [|[k c] d IH]; simpl; auto.
  f_equal.
  - now apply (H k c); left.
  - apply IH. intros k' c' Hin. apply H. now right.
Qed.

Lemma list_prefix_incl {A : Type} (l : list A) (k : Z) (x : A) :
  In x (Py.list_prefix l k) -> In x l.
Proof.
  unfold Py.list_prefix. intros H.
  rewrite <- (firstn_skipn (Z.to_nat (Py.clamp (Z.of_nat (List.length l)) k)) l).
  apply in_or_app. now left.
Qed.

Lemma nodup_firstn {A : Type} (n : nat) (l : list A) :
  NoDup l -> NoDup (firstn n l).
Proof.
  intros H. rewrite <- (firstn_skipn n l) in H.
  now apply NoDup_app_remove_r in H.
Qed.

(** Every merged chunk is the last one of its id among the collected
    chunks, and no id is kept twice. *)
Lemma merge_chunks_last (all_chunks : list chunk) :
  NoDup (map id (merge_chunks all_chunks))
  /\ forall c, In c (merge_chunks all_chunks) -> last_with_id all_chunks c.
Proof.
  unfold merge_chunks. split.
  - unfold Py.list_prefix. rewrite <- firstn_map. apply nodup_firstn.
    eapply Permutation_NoDup.
    + apply Permutation_map. symmetry. apply sorted_desc_perm.
    + rewrite unique_chunks_ids. apply unique_chunks_inv.
  - intros c Hc. apply list_prefix_incl in Hc.
    apply (Permutation_in _ (sorted_desc_perm score _)) in Hc.
    unfold Py.dict_values in Hc. apply in_map_iff in Hc.
    destruct Hc as ([k c'] & <- & Hin).
    now apply (proj2 (unique_chunks_inv all_chunks) k c').
Qed.

(** The chunks collected by the search loop are the per-variant
    results, concatenated in the order of the variants. *)
Lemma search_each_concat
    (embed_text : string -> result Qdrant.vector)
    (similarity : Qdrant.vector -> Qdrant.vector -> Q)
    (client : Qdrant.client) (tenant : string)
    (queries : list string) (acc all_chunks : list chunk) :
  search_each embed_text similarity client queries tenant acc = Ok all_chunks ->
  exists results : list (list chunk),
    Forall2 (fun q r => search_qdrant embed_text similarity client q tenant 5
                        = Ok r) queries results
    /\ all_chunks = acc ++ List.concat results.
Proof.
  revert acc; induction queries as [|q qs IH]; simpl; intros acc.
  - intros [= <-]. exists []. split; [constructor|]. now rewrite app_nil_r.
  - destruct (search_qdrant _ _ _ q tenant 5) as [found|e] eqn:Hq;
      [|discriminate]. simpl.
    intros Hrest. destruct (IH _ Hrest) as (results & Hall & ->).
    exists (found :: results). split; [now constructor|].
    simpl. now rewrite app_assoc.
Qed.

(** [multi_query_search] applies the merge step to them. *)
Lemma multi_query_search_merges
    (embed_text : string -> result Qdrant.vector)
    (similarity : Qdrant.vector -> Qdrant.vector -> Q)
    (client : Qdrant.client) (tenant : string)
    (queries : list string) (merged : list chunk) :
  multi_query_search embed_text similarity client queries tenant = Ok merged ->
  exists results : list (list chunk),
    Forall2 (fun q r => search_qdrant embed_text similarity client q tenant 5
                        = Ok r) queries results
    /\ merged = merge_chunks (List.concat results).
Proof.
  unfold multi_query_search.
  destruct (search_each _ _ _ queries tenant []) as [all_chunks|e] eqn:Hall;
    [|discriminate]. simpl.
  intros [= <-]. destruct (search_each_concat _ _ _ _ _ _ _ Hall)
    as (results & Hres & ->).
  now exists results.
Qed.

End Merge.

Section MergeComplete.

Import RagPipeline.
Import MergeSpec.








End MergeComplete.



(** ** Tenant isolation *)

Section Isolation.

Variable embed_text : string -> result Qdrant.vector.
Variable similarity : Qdrant.vector -> Qdrant.vector -> Q.
Variable client : Qdrant.client.
Variable tenant : string.

(** Every hit is a point of the collection that satisfies all the
    conditions of the filter. *)
Lemma search_hits (query_vector : Qdrant.vector) (limit : Z)
    (must : list Qdrant.condition) (hits : list Qdrant.scored_point) :
  Qdrant.search client similarity query_vector limit must = Ok hits ->
  forall h, In h hits ->
    exists p : Qdrant.point,
      In p (Qdrant.knowledge_base client)
      /\ forallb (Qdrant.satisfies (Qdrant.point_payload p)) must = true
      /\ h = Qdrant.score_point similarity query_vector p.
Proof.
  unfold Qdrant.search. destruct (Qdrant.reachable client); [|discriminate].
  intros [= <-] h Hh.
  assert (Hs : In h (Py.sorted_desc Qdrant.hit_score
                       (map (Qdrant.score_point similarity query_vector)
                          (filter (fun p => forallb
                                     (Qdrant.satisfies (Qdrant.point_payload p))
                                     must)
                             (Qdrant.knowledge_base client))))).
  { rewrite <- (firstn_skipn (Z.to_nat limit)). apply in_or_app. now left. }
  apply (Permutation_in _ (sorted_desc_perm _ _)) in Hs.
  apply in_map_iff in Hs. destruct Hs as (p & <- & Hp).
  apply filter_In in Hp. destruct Hp as [Hin Hsat].
  exists p. auto.
Qed.

Lemma tenant_condition (p : Qdrant.payload) :
  Qdrant.satisfies p (Qdrant.MatchValue "tenant_id" tenant) = true ->
  Qdrant.tenant_id p = tenant.
Proof.
  unfold Qdrant.satisfies, Qdrant.payload_field. simpl.
  apply String.eqb_eq.
Qed.

Lemma search_qdrant_isolated (query : string) (top_k : Z)
    (cs : list RagPipeline.chunk) :
  RagPipeline.search_qdrant embed_text similarity client query tenant top_k
  = Ok cs ->
  Forall (IsolationSpec.from_tenant client tenant) cs.
Proof.
  unfold RagPipeline.search_qdrant.
  destruct (embed_text query) as [v|e]; [|discriminate]. simpl.
  destruct (Qdrant.search _ _ _ _ _) as [hits|e] eqn:Hsearch;
    [|discriminate]. simpl.
  intros [= <-]. apply Forall_forall. intros c Hc.
  apply in_map_iff in Hc. destruct Hc as (h & <- & Hh).
  destruct (search_hits _ _ _ _ Hsearch h Hh) as (p & Hp & Hsat & ->).
  exists p. repeat split; auto.
  simpl in Hsat. apply andb_prop in Hsat. now apply tenant_condition.
Qed.

Lemma search_each_isolated (queries : list string)
    (acc cs : list RagPipeline.chunk) :
  Forall (IsolationSpec.from_tenant client tenant) acc ->
  RagPipeline.search_each embed_text similarity client queries tenant acc
  = Ok cs ->
  Forall (IsolationSpec.from_tenant client tenant) cs.
Proof.
  revert acc; induction queries as [|q qs IH]; simpl; intros acc Hacc.
  - now intros [= <-].
  - destruct (RagPipeline.search_qdrant _ _ _ q tenant 5) as [found|e]
      eqn:Hq; [|discriminate]. simpl.
    apply IH. apply Forall_app. split; [exact Hacc|].
    now apply (search_qdrant_isolated q 5).
Qed.

Lemma search_knowledge_isolated (query : string) (top_k : Z)
    (cs : list Roadmap.chunk) :
  Roadmap.search_knowledge embed_text similarity client query tenant top_k
  = Ok cs ->
  Forall (IsolationSpec.knowledge_from_tenant client tenant) cs.
Proof.
  unfold Roadmap.search_knowledge.
  destruct (embed_text query) as [v|e]; [|discriminate]. simpl.
  destruct (Qdrant.search _ _ _ _ _) as [hits|e] eqn:Hsearch;
    [|discriminate]. simpl.
  intros [= <-]. apply Forall_forall. intros c Hc.
  apply in_map_iff in Hc. destruct Hc as (h & <- & Hh).
  destruct (search_hits _ _ _ _ Hsearch h Hh) as (p & Hp & Hsat & ->).
  exists p. repeat split; auto.
  simpl in Hsat. apply andb_prop in Hsat. now apply tenant_condition.
Qed.

End Isolation.

(** C1: whatever the collection holds, every candidate returned by
    [search_qdrant], by [multi_query_search] and by [search_knowledge]
    for a requesting tenant derives from a point of the collection
    whose payload carries that tenant's id. *)
Theorem tenant_isolation
    (embed_text : string -> result Qdrant.vector)
    (similarity : Qdrant.vector -> Qdrant.vector -> Q)
    (client : Qdrant.client) (tenant : string) :
  (forall query top_k cs,
      RagPipeline.search_qdrant embed_text similarity client query tenant top_k
      = Ok cs ->
      Forall (IsolationSpec.from_tenant client tenant) cs)
  /\ (forall queries cs,
        RagPipeline.multi_query_search embed_text similarity client queries
          tenant = Ok cs ->
        Forall (IsolationSpec.from_tenant client tenant) cs)
  /\ (forall query top_k cs,
        Roadmap.search_knowledge embed_text similarity client query tenant
          top_k = Ok cs ->
        Forall (IsolationSpec.knowledge_from_tenant client tenant) cs).
Proof.
  split; [|split].
  - apply search_qdrant_isolated.
  - intros queries cs. unfold RagPipeline.multi_query_search.
    destruct (RagPipeline.search_each _ _ _ queries tenant [])
      as [all_chunks|e] eqn:Hall; [|discriminate]. simpl.
    intros [= <-].
    apply search_each_isolated in Hall; [|constructor].
    rewrite Forall_forall in *. intros c Hc. apply Hall.
    destruct (proj2 (merge_chunks_last all_chunks) c Hc) as (l1 & l2 & -> & _).
    apply in_or_app. right. now left.
  - apply search_knowledge_isolated.
Qed.

Lemma tenant_isolation_witness :
  exists cs : list RagPipeline.chunk,
    RagPipeline.multi_query_search Examples.embed_text Examples.similarity
      Examples.online ["delivery"; "shipping"]%string "t1" = Ok cs
    /\ map RagPipeline.id cs = ["p1"; "p3"]%string
    /\ Forall (IsolationSpec.from_tenant Examples.online "t1") cs.
Proof.
  eexists. split; [vm_compute; reflexivity|]. split; [reflexivity|].
  apply (proj1 (proj2 (tenant_isolation Examples.embed_text
                         Examples.similarity Examples.online "t1"))
           ["delivery"; "shipping"]%string).
  vm_compute. reflexivity.
Defined.

(** ** The query expander *)

(** C3 (as amended): [generate_query_variants] has no fallback.  It
    returns a list exactly when the language model answers and the
    answer decodes to a JSON array, and the list is then the original
    query followed by the decoded items; when the model call fails or
    the answer does not decode the exception propagates to the caller,
    and an answer that decodes to something else than an array raises
    a [TypeError]. *)
Theorem generate_query_variants_fail_closed
    (llm_invoke : string -> result string)
    (json_loads : string -> result json) (original_query : string) :
  let run :=
    RagPipeline.generate_query_variants llm_invoke json_loads original_query in
  let answer :=
    llm_invoke (RagPipeline.query_variants_prompt original_query) in
  (forall queries,
      run = Ok queries
      <-> exists response items,
            answer = Ok response
            /\ json_loads response = Ok (JArr items)
            /\ queries = JStr original_query :: items)
  /\ (forall e, answer = Raise e -> run = Raise e)
  /\ (forall response e,
        answer = Ok response -> json_loads response = Raise e ->
        run = Raise e)
  /\ (forall response v,
        answer = Ok response -> json_loads response = Ok v ->
        (forall items, v <> JArr items) -> run = Raise TypeError).
Proof.
  cbv zeta. unfold RagPipeline.generate_query_variants.
  destruct (llm_invoke _) as [response|e]; simpl.
  - destruct (json_loads response) as [v|e] eqn:Hjson; simpl.
    + repeat split.
      * destruct v; simpl; try discriminate.
        intros [= <-]. now exists response, items.
      * intros (r & items & [= <-] & Hr & ->).
        rewrite Hjson in Hr. injection Hr as ->. reflexivity.
      * discriminate.
      * intros r e [= <-]. rewrite Hjson. discriminate.
      * intros r v' [= <-]. rewrite Hjson. intros [= <-] Hv.
        destruct v; try reflexivity. now destruct (Hv items).
    + repeat split; try discriminate.
      * intros (r & items & [= <-] & Hr & _). congruence.
      * intros r e' [= <-]. rewrite Hjson. now intros [= <-].
      * intros r v [= <-]. rewrite Hjson. discriminate.
  - repeat split; try discriminate.
    + intros (r & items & Hr & _). discriminate.
    + now intros e' [= <-].
Qed.

(** C3 as stated fails: with the language model down, and with an
    answer that is not JSON, the expander raises instead of returning
    the original query alone. *)
Lemma generate_query_variants_raises :
  RagPipeline.generate_query_variants Examples.llm_down Examples.not_json
    "how long does shipping take" = Raise (ServiceError "llm")
  /\ RagPipeline.generate_query_variants
       (Examples.llm_says "Sure, here are three variants") Examples.not_json
       "how long does shipping take" = Raise JSONDecodeError.
Proof.
  split; reflexivity.
Qed.

(** ** The model-based reranker *)

Section RerankWithLlm.

Variable chunks : list RagPipeline.chunk.

Let n : Z := Z.of_nat (List.length chunks).






End RerankWithLlm.



(** ** Errors in the message endpoint and in the widget *)

Section HandleMessage.

Variable embed_text : string -> result Qdrant.vector.
Variable similarity : Qdrant.vector -> Qdrant.vector -> Q.
Variable qdrant : Qdrant.client.
Variable llm_ainvoke : list Roadmap.message -> result string.
Variable FAQ_SYSTEM_PROMPT : string.
Variable save_conversation : string -> string -> string -> result string.
Variable save_message : string -> string -> string -> result unit.
Variable request : Roadmap.MessageRequest.

Let run : result Roadmap.MessageResponse :=
  Roadmap.handle_message embed_text similarity qdrant llm_ainvoke
    FAQ_SYSTEM_PROMPT save_conversation save_message request.

Let search : result (list Roadmap.chunk) :=
  Roadmap.search_knowledge embed_text similarity qdrant
    (Roadmap.request_content request) (Roadmap.tenant_id request) 3.

(** A reply is returned only when the search succeeded. *)
Lemma handle_message_needs_search (resp : Roadmap.MessageResponse) :
  FallbackSpec.routed_to_rag request = true ->
  run = Ok resp -> exists chunks, search = Ok chunks.
Proof.
  unfold run, search, Roadmap.handle_message, FallbackSpec.routed_to_rag.
  intros Hroute. apply negb_true_iff in Hroute. rewrite Hroute.
  destruct (save_conversation _ _ _) as [conv|e]; [|discriminate]. simpl.
  destruct (save_message conv "user" _) as [[]|e]; [|discriminate]. simpl.
  destruct (Roadmap.search_knowledge _ _ _ _ _ _) as [chunks|e];
    [|discriminate].
  intros _. now exists chunks.
Qed.

Lemma search_unreachable :
  Qdrant.reachable qdrant = false ->
  raises search.
Proof.
  intros Hdown. unfold search, Roadmap.search_knowledge, Qdrant.search.
  rewrite Hdown.
  destruct (embed_text _) as [v|e]; simpl; eexists; reflexivity.
Qed.

Lemma handle_message_search_unreachable :
  Qdrant.reachable qdrant = false ->
  FallbackSpec.routed_to_rag request = true ->
  raises run.
Proof.
  intros Hdown Hroute. destruct run as [resp|e] eqn:Hrun.
  - destruct (handle_message_needs_search resp Hroute Hrun) as (chunks & Hc).
    destruct (search_unreachable Hdown) as (e & He). congruence.
  - now exists e.
Qed.

(** The exception of a failing search is the one the endpoint
    raises. *)
Lemma handle_message_propagates (conv : string) (e : exn) :
  FallbackSpec.routed_to_rag request = true ->
  save_conversation (Roadmap.tenant_id request) (Roadmap.user_id request)
    (Roadmap.channel request) = Ok conv ->
  save_message conv "user" (Roadmap.request_content request) = Ok tt ->
  search = Raise e ->
  run = Raise e.
Proof.
  unfold run, search, Roadmap.handle_message, FallbackSpec.routed_to_rag.
  intros Hroute Hconv Huser Hsearch.
  apply negb_true_iff in Hroute. rewrite Hroute, Hconv. simpl.
  rewrite Huser. simpl. now rewrite Hsearch.
Qed.

(** Every step of the endpoint, in the order of the listing: the
    exception of the first step that fails is the outcome, and the
    reply is returned when none fails. *)
Lemma handle_message_steps :
  let text := Roadmap.request_content request in
  let conversation :=
    save_conversation (Roadmap.tenant_id request) (Roadmap.user_id request)
      (Roadmap.channel request) in
  let faq_call :=
    llm_ainvoke
      [ {| Roadmap.role := "system";
           Roadmap.message_content := FAQ_SYSTEM_PROMPT |};
        {| Roadmap.role := "user"; Roadmap.message_content := text |} ] in
  let rag_call chunks :=
    llm_ainvoke
      [ {| Roadmap.role := "system";
           Roadmap.message_content :=
             ("Use this context:" ++ Py.nl
              ++ Roadmap.format_rag_context chunks)%string |};
        {| Roadmap.role := "user"; Roadmap.message_content := text |} ] in
  (forall e, conversation = Raise e -> run = Raise e)
  /\ (forall conv, conversation = Ok conv ->
        (forall e, save_message conv "user" text = Raise e -> run = Raise e)
        /\ (save_message conv "user" text = Ok tt ->
            (forall e, FallbackSpec.routed_to_rag request = false ->
               faq_call = Raise e -> run = Raise e)
            /\ (forall e, FallbackSpec.routed_to_rag request = true ->
                  search = Raise e -> run = Raise e)
            /\ (forall chunks e,
                  FallbackSpec.routed_to_rag request = true ->
                  search = Ok chunks -> rag_call chunks = Raise e ->
                  run = Raise e)
            /\ (forall answer,
                  FallbackSpec.routed_to_rag request = false
                  /\ faq_call = Ok answer
                  \/ FallbackSpec.routed_to_rag request = true
                     /\ (exists chunks,
                           search = Ok chunks
                           /\ rag_call chunks = Ok answer) ->
                  (forall e,
                     save_message conv "assistant" answer = Raise e ->
                     run = Raise e)
                  /\ (save_message conv "assistant" answer = Ok tt ->
                      run = Ok {| Roadmap.response := answer;
                                  Roadmap.intent := Some "faq"%string;
                                  Roadmap.sources := None |})))).
Proof.
  cbv zeta.
  unfold run, search, Roadmap.handle_message, Roadmap.handle_faq,
    FallbackSpec.routed_to_rag.
  split.
  - intros e ->. reflexivity.
  - intros conv ->. cbn [bind]. split.
    + intros e ->. reflexivity.
    + intros ->. cbn [bind].
      destruct (Py.contains "livraison" _ || Py.contains "retour" _);
        cbn [negb].
      * split; [intros e _ ->; reflexivity|].
        split; [intros e Hroute; discriminate Hroute|].
        split; [intros chunks e Hroute; discriminate Hroute|].
        intros answer [[_ Hfaq] | [Hroute _]]; [|discriminate Hroute].
        rewrite Hfaq. cbn [bind]. split.
        -- intros e ->. reflexivity.
        -- intros ->. reflexivity.
      * split; [intros e Hroute; discriminate Hroute|].
        split; [intros e _ ->; reflexivity|].
        split;
          [intros chunks e _ Hs Hr; rewrite Hs; cbn [bind]; now rewrite Hr|].
        intros answer [[Hroute _] | [_ (chunks & Hsearch & Hrag)]];
          [discriminate Hroute|].
        rewrite Hsearch. cbn [bind]. rewrite Hrag. cbn [bind]. split.
        -- intros e ->. reflexivity.
        -- intros ->. reflexivity.
Qed.

(** A failing embedding is a failing search. *)
Lemma search_embedding_fails (e : exn) :
  embed_text (Roadmap.request_content request) = Raise e ->
  search = Raise e.
Proof.
  intros He. unfold search, Roadmap.search_knowledge. now rewrite He.
Qed.

End HandleMessage.

Section SendMessage.

Variable fetch : string -> json -> Widget.fetch_result.
Variable w : Widget.widget.

Let message : string := Widget.trim (Widget.input_value w).

(** A failed request ends in the [catch] block. *)
Lemma try_block_failed (outcome : Widget.fetch_result) (w1 : Widget.widget) :
  FallbackSpec.request_failed outcome = true ->
  exists w2 e,
    Widget.try_block outcome w1 = (w2, Raise e)
    /\ Widget.messages w2 = Widget.messages w1.
Proof.
  destruct outcome as [|ok body]; simpl.
  - intros _. now exists w1, (ServiceError "fetch").
  - destruct ok; simpl.
    + destruct body as [data|]; [|intros _; now eexists _, _].
      destruct data; try discriminate. intros _. now eexists _, _.
    + intros _. now eexists _, _.
Qed.

Lemma sendMessage_failed :
  Py.truthy message = true ->
  FallbackSpec.request_failed (fetch message (Widget.conversationId w))
  = true ->
  Widget.messages (Widget.sendMessage fetch w)
  = Widget.messages w
      ++ [("user"%string, JStr message);
          ("assistant"%string, JStr Widget.connection_fallback_text)].
Proof.
  intros Hmsg Hfail. unfold Widget.sendMessage. fold message.
  rewrite Hmsg. simpl negb. cbv iota. simpl Widget.conversationId.
  destruct (try_block_failed _
              (Widget.showTyping
                 (Widget.set_input EmptyString
                    (Widget.addMessage (JStr message) "user" w))) Hfail)
    as (w2 & e & -> & Hw2).
  unfold Widget.catch_block. simpl. rewrite Hw2. simpl.
  now rewrite <- app_assoc.
Qed.

Ltac widget_state :=
  unfold Widget.try_block, Widget.catch_block, Widget.addMessage,
    Widget.hideTyping, Widget.showTyping, Widget.set_typing,
    Widget.console_error, Widget.set_input, Widget.set_conversationId;
  cbn [negb Widget.input_value Widget.messages Widget.typing
       Widget.conversationId Widget.console_errors Widget.property];
  rewrite <- ?app_assoc; reflexivity.

(** A request that did not fail was answered by a JSON value with
    properties. *)
Lemma request_answered (outcome : Widget.fetch_result) :
  FallbackSpec.request_failed outcome = false ->
  exists data cid r,
    outcome = Widget.Response true (Some data)
    /\ Widget.property data "conversation_id" = Ok cid
    /\ Widget.property data "response" = Ok r.
Proof.
  destruct outcome as [|[|] [data|]]; simpl; try discriminate.
  destruct data; try discriminate; intros _; eexists _, _, _;
    repeat split; reflexivity.
Qed.

(** The widget after a failed request. *)
Lemma sendMessage_failed_state :
  Py.truthy message = true ->
  FallbackSpec.request_failed (fetch message (Widget.conversationId w))
  = true ->
  Widget.sendMessage fetch w
  = {| Widget.input_value := EmptyString;
       Widget.messages :=
         Widget.messages w
         ++ [("user"%string, JStr message);
             ("assistant"%string, JStr Widget.connection_fallback_text)];
       Widget.typing := false;
       Widget.conversationId := Widget.conversationId w;
       Widget.console_errors :=
         Widget.console_errors w ++ ["Error sending message:"%string] |}.
Proof.
  intros Hmsg Hfail. unfold Widget.sendMessage. fold message.
  rewrite Hmsg. cbn [negb]. cbv zeta.
  change (Widget.conversationId
            (Widget.showTyping
               (Widget.set_input EmptyString
                  (Widget.addMessage (JStr message) "user" w))))
    with (Widget.conversationId w).
  destruct (fetch message (Widget.conversationId w)) as [|[|] [data|]];
    [widget_state | | widget_state | widget_state | widget_state].
  destruct data; try discriminate Hfail. widget_state.
Qed.

(** The widget after an answered request. *)
Lemma sendMessage_answered_state (data : json) (cid r : option json) :
  Py.truthy message = true ->
  fetch message (Widget.conversationId w) = Widget.Response true (Some data) ->
  Widget.property data "conversation_id" = Ok cid ->
  Widget.property data "response" = Ok r ->
  Widget.sendMessage fetch w
  = {| Widget.input_value := EmptyString;
       Widget.messages :=
         Widget.messages w
         ++ [("user"%string, JStr message);
             ("assistant"%string,
              match r with
              | Some v => if Widget.truthy v then v
                          else JStr Widget.no_answer_text
              | None => JStr Widget.no_answer_text
              end)];
       Widget.typing := false;
       Widget.conversationId :=
         match cid with
         | Some v => if Widget.truthy v then v else Widget.conversationId w
         | None => Widget.conversationId w
         end;
       Widget.console_errors := Widget.console_errors w |}.
Proof.
  intros Hmsg Hfetch Hcid Hr. unfold Widget.sendMessage. fold message.
  rewrite Hmsg. cbn [negb]. cbv zeta.
  change (Widget.conversationId
            (Widget.showTyping
               (Widget.set_input EmptyString
                  (Widget.addMessage (JStr message) "user" w))))
    with (Widget.conversationId w).
  rewrite Hfetch. unfold Widget.try_block. cbn [negb].
  rewrite Hcid, Hr.
  destruct cid as [v|]; [destruct (Widget.truthy v)|]; widget_state.
Qed.

End SendMessage.

(** C7 (as amended): the fixed fallback text belongs to the widget, not
    to the endpoint.  [handle_message] has no error handling: whichever
    step fails first (obtaining the conversation, saving the user's
    message, the embedding or the vector search, the call of the
    language model on either route, saving the reply), its exception is
    the outcome of the endpoint, and a reply is returned when every
    step succeeded; with the vector index unreachable a message routed
    to the RAG branch always raises.  [sendMessage] on a request that
    is rejected, not [ok], or whose body cannot be read shows the fixed
    connection text as the assistant's reply and adds one line to the
    console, nothing else of the error being displayed; after any other
    request the console is left as it was. *)
Theorem fallback_text_only_in_widget :
  (forall embed_text similarity qdrant llm_ainvoke FAQ_SYSTEM_PROMPT
          save_conversation save_message request,
      let run :=
        Roadmap.handle_message embed_text similarity qdrant llm_ainvoke
          FAQ_SYSTEM_PROMPT save_conversation save_message request in
      let text := Roadmap.request_content request in
      let conversation :=
        save_conversation (Roadmap.tenant_id request)
          (Roadmap.user_id request) (Roadmap.channel request) in
      let search :=
        Roadmap.search_knowledge embed_text similarity qdrant text
          (Roadmap.tenant_id request) 3 in
      let faq_call :=
        llm_ainvoke
          [ {| Roadmap.role := "system";
               Roadmap.message_content := FAQ_SYSTEM_PROMPT |};
            {| Roadmap.role := "user"; Roadmap.message_content := text |} ] in
      let rag_call chunks :=
        llm_ainvoke
          [ {| Roadmap.role := "system";
               Roadmap.message_content :=
                 ("Use this context:" ++ Py.nl
                  ++ Roadmap.format_rag_context chunks)%string |};
            {| Roadmap.role := "user"; Roadmap.message_content := text |} ] in
      (FallbackSpec.routed_to_rag request = true ->
       Qdrant.reachable qdrant = false -> raises run)
      /\ (Qdrant.reachable qdrant = false -> raises search)
      /\ (forall e, embed_text text = Raise e -> search = Raise e)
      /\ (forall e, conversation = Raise e -> run = Raise e)
      /\ (forall conv, conversation = Ok conv ->
            (forall e,
               save_message conv "user"%string text = Raise e ->
               run = Raise e)
            /\ (save_message conv "user"%string text = Ok tt ->
                (forall e, FallbackSpec.routed_to_rag request = false ->
                   faq_call = Raise e -> run = Raise e)
                /\ (forall e, FallbackSpec.routed_to_rag request = true ->
                      search = Raise e -> run = Raise e)
                /\ (forall chunks e,
                      FallbackSpec.routed_to_rag request = true ->
                      search = Ok chunks -> rag_call chunks = Raise e ->
                      run = Raise e)
                /\ (forall answer,
                      FallbackSpec.routed_to_rag request = false
                      /\ faq_call = Ok answer
                      \/ FallbackSpec.routed_to_rag request = true
                         /\ (exists chunks,
                               search = Ok chunks
                               /\ rag_call chunks = Ok answer) ->
                      (forall e,
                         save_message conv "assistant"%string answer
                         = Raise e ->
                         run = Raise e)
                      /\ (save_message conv "assistant"%string answer
                          = Ok tt ->
                          run = Ok {| Roadmap.response := answer;
                                      Roadmap.intent := Some "faq"%string;
                                      Roadmap.sources := None |})))))
  /\ (forall fetch w,
        let message := Widget.trim (Widget.input_value w) in
        let outcome := fetch message (Widget.conversationId w) in
        Py.truthy message = true ->
        (FallbackSpec.request_failed outcome = true ->
         Widget.sendMessage fetch w
         = {| Widget.input_value := EmptyString;
              Widget.messages :=
                Widget.messages w
                ++ [("user"%string, JStr message);
                    ("assistant"%string,
                     JStr Widget.connection_fallback_text)];
              Widget.typing := false;
              Widget.conversationId := Widget.conversationId w;
              Widget.console_errors :=
                Widget.console_errors w
                ++ ["Error sending message:"%string] |})
        /\ (FallbackSpec.request_failed outcome = false ->
            Widget.console_errors (Widget.sendMessage fetch w)
            = Widget.console_errors w)).
Proof.
  split.
  - intros. cbv zeta.
    split; [intros; now apply handle_message_search_unreachable|].
    split; [intros; now apply search_unreachable|].
    split; [intros e He; now apply search_embedding_fails|].
    exact (handle_message_steps embed_text similarity qdrant llm_ainvoke
             FAQ_SYSTEM_PROMPT save_conversation save_message request).
  - intros fetch w. cbv zeta. intros Hmsg. split.
    + intros Hfail. now apply sendMessage_failed_state.
    + intros Hanswered.
      destruct (request_answered _ Hanswered)
        as (data & cid & r & Hfetch & Hcid & Hr).
      now rewrite (sendMessage_answered_state fetch w data cid r
                     Hmsg Hfetch Hcid Hr).
Qed.

Lemma fallback_text_only_in_widget_witness :
  Roadmap.handle_message Examples.embed_text Examples.similarity
    Examples.unreachable (Examples.chat_says "It is on its way.")
    "faq prompt" Examples.save_conversation Examples.save_message
    Examples.order_question
  = Raise (ServiceError "qdrant")
  /\ Widget.messages (Widget.sendMessage Examples.server_error Examples.typed)
     = [("user"%string, JStr "Where is my order?");
        ("assistant"%string, JStr Widget.connection_fallback_text)]
  /\ Widget.console_errors
       (Widget.sendMessage Examples.server_error Examples.typed)
     = ["Error sending message:"%string].
Proof.
  destruct fallback_text_only_in_widget as [Hendpoint Hwidget].
  split.
  - destruct (Hendpoint Examples.embed_text Examples.similarity
                Examples.unreachable (Examples.chat_says "It is on its way.")
                "faq prompt"%string Examples.save_conversation
                Examples.save_message Examples.order_question)
      as (_ & _ & _ & _ & Hsteps).
    destruct (Hsteps "conv-1"%string eq_refl) as [_ Hsaved].
    destruct (Hsaved eq_refl) as (_ & Hsearch & _).
    apply Hsearch; reflexivity.
  - destruct (Hwidget Examples.server_error Examples.typed eq_refl)
      as [Hfailed _].
    rewrite (Hfailed eq_refl). split; reflexivity.
Defined.

(** C7 as stated fails: with the vector index unreachable the endpoint
    raises the index's error instead of returning a reply. *)
Lemma handle_message_raises_when_search_unreachable :
  Roadmap.handle_message Examples.embed_text Examples.similarity
    Examples.unreachable (Examples.chat_says "It is on its way.")
    "faq prompt" Examples.save_conversation Examples.save_message
    Examples.order_question
  = Raise (ServiceError "qdrant").
Proof.
  reflexivity.
Qed.

(** ** The context formatter *)

Section Formatter.

Context {C : Type} (part : Z -> C -> string).

(** The loop that appends one part per candidate builds the parts in
    the order of the candidates. *)
Lemma fold_left_parts (l : list (Z * C)) (parts : list string) :
  fold_left (fun parts '(i, c) => parts ++ [part i c]) l parts
  = parts ++ map (fun '(i, c) => part i c) l.
Proof.
  revert parts; induction l as [|[i c] l IH]; intros parts; simpl.
  - now rewrite app_nil_r.
  - now rewrite IH, <- app_assoc.
Qed.

Lemma enumerate_length (start : Z) (l : list C) :
  List.length (Py.enumerate start l) = List.length l.
Proof.
  revert start; induction l as [|c l IH]; intros start; simpl; auto.
Qed.

(** The [k]-th part carries the number [start + k] and the [k]-th
    candidate. *)
Lemma enumerate_parts (start : Z) (l : list C) (k : nat) (c : C) :
  nth_error l k = Some c ->
  nth_error (map (fun '(i, c) => part i c) (Py.enumerate start l)) k
  = Some (part (start + Z.of_nat k) c).
Proof.
  revert start k; induction l as [|c0 l IH]; intros start k Hk.
  - now destruct k.
  - destruct k as [|k]; simpl in *.
    + injection Hk as ->. now rewrite Z.add_0_r.
    + rewrite (IH (start + 1) k Hk). do 2 f_equal. lia.
Qed.

End Formatter.


(** ** The formatter of rag_pipeline.md *)

Section DocFormatter.

Lemma string_app_assoc (a b c : string) :
  ((a ++ b) ++ c = a ++ (b ++ c))%string.
Proof.
  induction a as [|x a IH]; simpl; auto. now rewrite IH.
Qed.

Lemma rstrip_all_space (w : string) :
  Py.all_space w = true -> Py.rstrip w = EmptyString.
Proof.
  induction w as [|c w IH]; simpl; auto.
  intros H. apply andb_prop in H. destruct H as [Hc Hw].
  now rewrite (IH Hw), Hc.
Qed.

(** Trailing whitespace does not survive [rstrip]. *)
Lemma rstrip_app_space (x w : string) :
  Py.all_space w = true -> Py.rstrip (x ++ w) = Py.rstrip x.
Proof.
  intros Hw. induction x as [|c x IH]; simpl.
  - now apply rstrip_all_space.
  - now rewrite IH.
Qed.

(** A string that ends in a character that is not whitespace is kept
    whole, whatever stands before it. *)
Lemma rstrip_app_fixed (a b : string) :
  b <> EmptyString -> Py.rstrip b = b -> Py.rstrip (a ++ b) = (a ++ b)%string.
Proof.
  intros Hb Hfix. induction a as [|c a IH]; simpl; auto.
  rewrite IH. destruct (a ++ b)%string eqn:Hab; [|reflexivity].
  destruct a; simpl in Hab; [congruence|discriminate].
Qed.

(** The block of a candidate whose text is not empty and does not end
    in whitespace is the block of the roadmap's formatter. *)
Lemma doc_context_part (i : Z) (c : RagPipeline.chunk) :
  RagPipeline.content c <> EmptyString ->
  Py.rstrip (RagPipeline.content c) = RagPipeline.content c ->
  RagPipeline.context_part i c
  = ("Source " ++ Py.str_of_int i ++ ": "
     ++ Py.str (RagPipeline.chunk_source c)
     ++ String "010" (RagPipeline.content c))%string.
Proof.
  intros Hne Hfix. unfold RagPipeline.context_part, Py.strip.
  set (num := Py.str_of_int i).
  set (source := Py.str (RagPipeline.chunk_source c)).
  set (text := RagPipeline.content c) in *.
  change (Py.lstrip _)
    with ("Source " ++ num ++ ": " ++ source ++ Py.nl ++ text
          ++ Py.nl ++ "        ")%string.
  replace ("Source " ++ num ++ ": " ++ source ++ Py.nl ++ text
           ++ Py.nl ++ "        ")%string
    with ((("Source " ++ num ++ ": " ++ source ++ Py.nl) ++ text)
          ++ (Py.nl ++ "        "))%string
    by (rewrite !string_app_assoc; reflexivity).
  rewrite rstrip_app_space by reflexivity.
  rewrite rstrip_app_fixed by assumption.
  rewrite !string_app_assoc. reflexivity.
Qed.

(** On candidates as the chunker produces them (text stripped and
    not empty) the formatter of rag_pipeline.md renders the same
    numbered blocks as the roadmap's. *)
Lemma doc_format_rag_context_blocks (chunks : list RagPipeline.chunk) :
  Forall (fun c => RagPipeline.content c <> EmptyString
                   /\ Py.rstrip (RagPipeline.content c)
                      = RagPipeline.content c) chunks ->
  RagPipeline.format_rag_context [] = EmptyString
  /\ exists blocks : list string,
       RagPipeline.format_rag_context chunks
       = String.concat RagPipeline.separator blocks
       /\ List.length blocks = List.length chunks
       /\ forall (k : nat) (c : RagPipeline.chunk),
            nth_error chunks k = Some c ->
            nth_error blocks k
            = Some ("Source " ++ Py.str_of_int (Z.of_nat k + 1) ++ ": "
                    ++ Py.str (RagPipeline.chunk_source c)
                    ++ String "010" (RagPipeline.content c))%string.
Proof.
  intros Hall. split; [reflexivity|].
  exists (map (fun '(i, c) => RagPipeline.context_part i c)
            (Py.enumerate 1 chunks)).
  repeat split.
  - unfold RagPipeline.format_rag_context. now rewrite fold_left_parts.
  - now rewrite length_map, enumerate_length.
  - intros k c Hk.
    rewrite (enumerate_parts RagPipeline.context_part 1 chunks k c Hk).
    rewrite Forall_forall in Hall.
    destruct (Hall c (nth_error_In _ _ Hk)) as [Hne Hfix].
    rewrite (doc_context_part _ c Hne Hfix).
    now replace (1 + Z.of_nat k) with (Z.of_nat k + 1) by lia.
Qed.




End DocFormatter.




(** ** Instances *)

Lemma rerank_by_score_sorted_prefix_witness :
  RagPipeline.rerank_by_score
    [Examples.a_weak; Examples.b_mid; Examples.a_strong] 2
  = [Examples.a_strong; Examples.b_mid]
  /\ Z.of_nat (List.length
                (RagPipeline.rerank_by_score
                   [Examples.a_weak; Examples.b_mid; Examples.a_strong] 2))
     <= 2.
Proof.
  split; [reflexivity|].
  apply (proj1 (proj2 (rerank_by_score_sorted_prefix
                         [Examples.a_weak; Examples.b_mid; Examples.a_strong]
                         2))).
  lia.
Defined.


Lemma generate_query_variants_fail_closed_witness :
  RagPipeline.generate_query_variants
    (Examples.llm_says Examples.variants_text)
    (Examples.decodes_to Examples.variants_json)
    "how long does shipping take"
  = Ok [JStr "how long does shipping take"; JStr "delivery time";
        JStr "shipping delay"].
Proof.
  apply (proj1 (generate_query_variants_fail_closed
                  (Examples.llm_says Examples.variants_text)
                  (Examples.decodes_to Examples.variants_json)
                  "how long does shipping take")).
  eexists _, _. repeat split.
Defined.


(** The loop runs out of any fuel when the overlap equals the size. *)
Lemma chunk_text_overlap_equal_size_diverges :
  RagPipeline.chunk_text_fuel 1000 "hello" 5 5 = None
  /\ RagPipeline.chunk_text "hello" 5 4
     = Some ["hello"; "ello"; "llo"; "lo"; "o"]%string.
Proof.
  split; vm_compute; reflexivity.
Qed.

(** A negative [top_k] is a slice bound counted from the end: the
    prefix then lacks the last [- top_k] candidates. *)
Lemma rerank_by_score_negative_top_k :
  RagPipeline.rerank_by_score
    [Examples.a_weak; Examples.b_mid; Examples.a_strong] (-1)
  = [Examples.a_strong; Examples.b_mid].
Proof.
  reflexivity.
Qed.

(* ================================================================== *)
(** * Further properties of the pipeline *)
(* ================================================================== *)

(** ** Stripped strings *)

Section StrippedStrings.

Lemma rstrip_idempotent (s : string) : Py.rstrip (Py.rstrip s) = Py.rstrip s.
Proof.
  induction s as [|c s IH]; simpl; auto.
  destruct (Py.rstrip s) as [|d r] eqn:Hr.
  - destruct (Py.isspace c) eqn:Hc; simpl; auto. now rewrite Hc.
  - simpl in *. now rewrite IH.
Qed.

Lemma strip_fixed (s : string) :
  Py.strip (Py.strip s) = Py.strip s.
Proof.
  unfold Py.strip.
  destruct (lstrip_cases s) as [[_ Hl]|[_ (c & s' & Hl & Hc)]]; rewrite Hl.
  - reflexivity.
  - assert (Hhead : exists r, Py.rstrip (String c s') = String c r).
    { simpl. rewrite Hc. destruct (Py.rstrip s'); eexists; reflexivity. }
    destruct Hhead as (r & Hr). rewrite Hr. simpl Py.lstrip. rewrite Hc.
    rewrite <- Hr. apply rstrip_idempotent.
Qed.

Lemma length_lstrip (s : string) :
  (String.length (Py.lstrip s) <= String.length s)%nat.
Proof.
  induction s as [|c s IH]; simpl; auto.
  destruct (Py.isspace c); simpl; lia.
Qed.

Lemma length_rstrip (s : string) :
  (String.length (Py.rstrip s) <= String.length s)%nat.
Proof.
  induction s as [|c s IH]; simpl; auto.
  destruct (Py.rstrip s); simpl in *.
  - destruct (Py.isspace c); simpl; lia.
  - lia.
Qed.

Lemma length_strip (s : string) :
  (String.length (Py.strip s) <= String.length s)%nat.
Proof.
  unfold Py.strip. pose proof (length_rstrip (Py.lstrip s)).
  pose proof (length_lstrip s). lia.
Qed.

Lemma all_space_app (a b : string) :
  Py.all_space (a ++ b) = Py.all_space a && Py.all_space b.
Proof.
  induction a as [|c a IH]; simpl; auto. now rewrite IH, andb_assoc.
Qed.

Lemma all_space_take (n : nat) (s : string) :
  Py.all_space s = true -> Py.all_space (Py.take n s) = true.
Proof.
  revert s; induction n as [|n IH]; intros [|c s]; simpl; auto.
  intros H. apply andb_prop in H. destruct H as [Hc Hs].
  now rewrite Hc, IH.
Qed.

Lemma all_space_drop (n : nat) (s : string) :
  Py.all_space s = true -> Py.all_space (Py.drop n s) = true.
Proof.
  revert s; induction n as [|n IH]; intros [|c s]; simpl; auto.
  intros H. apply andb_prop in H. now apply IH.
Qed.

Lemma all_space_slice (s : string) (i j : Z) :
  Py.all_space s = true -> Py.all_space (Py.slice s i j) = true.
Proof.
  intros H. unfold Py.slice. now apply all_space_take, all_space_drop.
Qed.

Lemma length_slice (s : string) (i j : Z) :
  0 <= i -> 0 <= j -> Py.len (Py.slice s i j) <= Z.max 0 (j - i).
Proof.
  intros Hi Hj. destruct (Z.le_gt_cases i j) as [Hij|Hij].
  - rewrite slice_nonneg by lia. unfold Py.len. rewrite length_take. lia.
  - unfold Py.slice, Py.len, Py.clamp. rewrite length_take.
    destruct (Z.ltb_spec i 0); [lia|].
    destruct (Z.ltb_spec j 0); lia.
Qed.

End StrippedStrings.

(** ** What the chunker returns *)

Section ChunkShape.

Variable text : string.
Variables chunk_size overlap : Z.

(** A chunk as [chunk_text] appends it: not empty, without leading or
    trailing whitespace, at most [chunk_size] characters long. *)
Let well_formed (c : string) : Prop :=
  c <> EmptyString /\ Py.strip c = c /\ Py.len c <= chunk_size.

Lemma chunk_loop_shape (fuel : nat) (start : Z) (chunks out : list string) :
  0 <= start ->
  0 <= chunk_size ->
  0 <= chunk_size - overlap ->
  Forall well_formed chunks ->
  RagPipeline.chunk_loop fuel text chunk_size overlap start chunks = Some out ->
  Forall well_formed out.
Proof.
  revert start chunks; induction fuel as [|fuel IH]; intros start chunks;
    simpl; [discriminate|].
  intros Hstart Hsize Hstep Hacc.
  destruct (start <? Py.len text); [|now intros [= <-]].
  apply IH; [lia|exact Hsize|exact Hstep|].
  destruct (Py.truthy _) eqn:Ht; [|exact Hacc].
  apply Forall_app. split; [exact Hacc|]. constructor; [|constructor].
  repeat split.
  - intros Hempty. rewrite Hempty in Ht. discriminate.
  - apply strip_fixed.
  - pose proof (length_strip (Py.slice text start (start + chunk_size))).
    pose proof (length_slice text start (start + chunk_size) Hstart
                  ltac:(lia)).
    unfold Py.len in *. lia.
Qed.

End ChunkShape.

(** X1: every chunk returned by [chunk_text] is non-empty, has no
    leading or trailing whitespace and has at most [chunk_size]
    characters. *)
Theorem chunk_text_chunks_well_formed
    (text : string) (chunk_size overlap : Z) (chunks : list string) :
  0 <= overlap < chunk_size ->
  RagPipeline.chunk_text text chunk_size overlap = Some chunks ->
  Forall (fun c => c <> EmptyString
                   /\ Py.strip c = c
                   /\ Py.len c <= chunk_size) chunks.
Proof.
  intros Hpre Hrun.
  unfold RagPipeline.chunk_text, RagPipeline.chunk_text_fuel in Hrun.
  apply chunk_loop_shape in Hrun; try lia; [exact Hrun|constructor].
Qed.

Lemma chunk_text_chunks_well_formed_witness :
  Forall (fun c => c <> EmptyString
                   /\ Py.strip c = c
                   /\ Py.len c <= 4) ["ab"; "b"; "cd"; "e"]%string.
Proof.
  apply (chunk_text_chunks_well_formed "  ab   cd     e " 4 1); [lia|].
  vm_compute. reflexivity.
Defined.

Lemma all_space_concat_drop (n : nat) (ws : list string) :
  Forall (fun w => Py.all_space w = true) ws ->
  Py.all_space (String.concat EmptyString (map (Py.drop n) ws)) = true.
Proof.
  induction 1 as [|w ws Hw _ IH].
  - reflexivity.
  - cbn [map]. rewrite concat_empty_cons, all_space_app, IH.
    now rewrite (all_space_drop _ _ Hw).
Qed.

(** X2: [chunk_text] returns no chunk exactly for a text that is empty
    or whitespace-only. *)
Theorem chunk_text_empty_iff_blank
    (text : string) (chunk_size overlap : Z) :
  0 <= overlap < chunk_size ->
  (RagPipeline.chunk_text text chunk_size overlap = Some []
   <-> Py.all_space text = true).
Proof.
  intros Hpre.
  rewrite (chunk_text_emitted text chunk_size overlap) by lia.
  pose proof (reassemble_windows text chunk_size overlap Hpre) as Hre.
  unfold ChunkSpec.emitted.
  set (ws := ChunkSpec.windows text chunk_size overlap) in *.
  assert (Hall : Py.all_space text = true
                 <-> Forall (fun w => Py.all_space w = true) ws).
  { split.
    - intros Hblank. unfold ws, ChunkSpec.windows. apply Forall_forall.
      intros w Hw. apply in_map_iff in Hw. destruct Hw as (k & <- & _).
      now apply all_space_slice.
    - intros Hws. rewrite <- Hre. destruct Hws as [|w rest Hw Hrest].
      + reflexivity.
      + unfold ChunkSpec.reassemble.
        now rewrite all_space_app, Hw, all_space_concat_drop. }
  rewrite Hall. clear Hall Hre. split.
  - intros [= Hmap]. apply map_eq_nil in Hmap.
    induction ws as [|w ws IH]; [constructor|].
    simpl in Hmap. destruct (Py.all_space w) eqn:Hw; simpl in Hmap.
    + constructor; auto.
    + discriminate.
  - intros Hws. f_equal.
    induction Hws as [|w ws Hw _ IH]; simpl; auto. now rewrite Hw.
Qed.

Lemma chunk_text_empty_iff_blank_witness :
  RagPipeline.chunk_text "      " 4 1 = Some [].
Proof.
  apply (chunk_text_empty_iff_blank "      " 4 1); [lia|reflexivity].
Defined.

(** ** Sorting what is sorted, merging what is merged *)

Section SortedAgain.

Context {A : Type} (key : A -> Q).

(** Sorting leaves a list alone that is already in descending order:
    equal keys are not swapped. *)
Lemma sorted_desc_fixed (l : list A) :
  StronglySorted (fun a b => (key b <= key a)%Q) l ->
  Py.sorted_desc key l = l.
Proof.
  induction 1 as [|x l Hl IH Hx]; simpl.
  - reflexivity.
  - rewrite IH. destruct l as [|y l']; simpl; [reflexivity|].
    inversion Hx as [|? ? Hy _]; subst.
    apply Qle_bool_iff in Hy. now rewrite Hy.
Qed.

Lemma list_prefix_all (l : list A) (k : Z) :
  Z.of_nat (List.length l) <= k -> Py.list_prefix l k = l.
Proof.
  intros Hk. unfold Py.list_prefix, Py.clamp.
  destruct (Z.ltb_spec k 0); [lia|].
  apply firstn_all2. lia.
Qed.

Lemma list_prefix_length (l : list A) (k : Z) :
  0 <= k -> Z.of_nat (List.length (Py.list_prefix l k)) <= k.
Proof.
  intros Hk. destruct (list_prefix_firstn l k) as (n & -> & Hn).
  rewrite length_firstn. specialize (Hn Hk). lia.
Qed.

Lemma list_prefix_sorted (l : list A) (k : Z) :
  StronglySorted (fun a b => (key b <= key a)%Q) l ->
  StronglySorted (fun a b => (key b <= key a)%Q) (Py.list_prefix l k).
Proof.
  intros Hs. destruct (list_prefix_firstn l k) as (n & -> & _).
  now apply sorted_firstn.
Qed.

End SortedAgain.

Section MergeAgain.

Import RagPipeline.

(** Chunks with pairwise different ids all enter the dictionary, in
    their order. *)
Lemma unique_chunks_distinct (l : list chunk) (d : Py.dict chunk) :
  NoDup (map fst d ++ map id l) ->
  fold_left (fun d c => Py.dict_set d (id c) c) l d
  = d ++ map (fun c => (id c, c)) l.
Proof.
  revert d; induction l as [|c l IH]; intros d Hnd; simpl.
  - now rewrite app_nil_r.
  - assert (Hset : Py.dict_set d (id c) c = d ++ [(id c, c)]).
    { assert (Hc : ~ In (id c) (map fst d)).
      { intros Hin. apply NoDup_remove_2 in Hnd. apply Hnd.
        apply in_or_app. now left. }
      clear Hnd IH. induction d as [|[k v] d IHd]; simpl; auto.
      destruct (String.eqb_spec k (id c)) as [->|Hne].
      - exfalso. apply Hc. now left.
      - f_equal. apply IHd. intros Hin. apply Hc. now right. }
    rewrite Hset, IH.
    + now rewrite <- app_assoc.
    + rewrite map_app, <- app_assoc. simpl.
      apply NoDup_remove_1 in Hnd as Hrest.
      apply NoDup_remove_2 in Hnd as Hc.
      apply Permutation_NoDup with (l := id c :: map fst d ++ map id l).
      * apply Permutation_middle.
      * constructor; assumption.
Qed.

Lemma unique_chunks_values_distinct (l : list chunk) :
  NoDup (map id l) -> Py.dict_values (unique_chunks l) = l.
Proof.
  intros Hnd. unfold unique_chunks.
  rewrite unique_chunks_distinct by exact Hnd.
  unfold Py.dict_values. simpl. rewrite map_map. simpl. apply map_id.
Qed.

Lemma merge_chunks_sorted (all_chunks : list chunk) :
  StronglySorted (fun a b => (score b <= score a)%Q) (merge_chunks all_chunks).
Proof.
  unfold merge_chunks. apply list_prefix_sorted, sorted_desc_sorted.
Qed.

Lemma merge_chunks_length (all_chunks : list chunk) :
  Z.of_nat (List.length (merge_chunks all_chunks)) <= 12.
Proof.
  unfold merge_chunks. apply list_prefix_length. lia.
Qed.

End MergeAgain.

(** X3: the merge step hands on at most twelve candidates, in
    descending order of score, each of them one of the collected
    chunks. *)
Theorem merge_chunks_bounded_sorted (all_chunks : list RagPipeline.chunk) :
  let merged := RagPipeline.merge_chunks all_chunks in
  Z.of_nat (List.length merged) <= 12
  /\ StronglySorted
       (fun a b => (RagPipeline.score b <= RagPipeline.score a)%Q) merged
  /\ incl merged all_chunks.
Proof.
  split; [apply merge_chunks_length|]. split; [apply merge_chunks_sorted|].
  intros c Hc.
  destruct (proj2 (merge_chunks_last all_chunks) c Hc) as (l1 & l2 & -> & _).
  apply in_or_app. right. now left.
Qed.

(** X4: merging is idempotent: the merge step applied to its own
    output returns it unchanged. *)
Theorem merge_chunks_idempotent (all_chunks : list RagPipeline.chunk) :
  RagPipeline.merge_chunks (RagPipeline.merge_chunks all_chunks)
  = RagPipeline.merge_chunks all_chunks.
Proof.
  set (m := RagPipeline.merge_chunks all_chunks).
  unfold RagPipeline.merge_chunks at 1.
  rewrite unique_chunks_values_distinct
    by apply (proj1 (merge_chunks_last all_chunks)).
  rewrite sorted_desc_fixed by apply merge_chunks_sorted.
  apply list_prefix_all, merge_chunks_length.
Qed.

(** X5: after the merge step the score-based reranker only truncates:
    it returns the first [top_k] merged candidates in their order. *)
Theorem rerank_by_score_after_merge
    (all_chunks : list RagPipeline.chunk) (top_k : Z) :
  RagPipeline.rerank_by_score (RagPipeline.merge_chunks all_chunks) top_k
  = Py.list_prefix (RagPipeline.merge_chunks all_chunks) top_k.
Proof.
  unfold RagPipeline.rerank_by_score.
  now rewrite sorted_desc_fixed by apply merge_chunks_sorted.
Qed.

(** ** What the model-based reranker can return *)

Section RerankBounds.

Variable chunks : list RagPipeline.chunk.

Lemma chunk_at_in (i : json) (c : RagPipeline.chunk) :
  RagPipeline.chunk_at chunks i = Ok c -> In c chunks.
Proof.
  assert (Hidx : forall z, Py.list_index chunks z = Some c -> In c chunks).
  { intros z. unfold Py.list_index.
    destruct (_ && _); [apply nth_error_In|].
    destruct (_ && _); [apply nth_error_In|discriminate]. }
  destruct i; simpl; try discriminate.
  - destruct (Py.list_index chunks (Z.b2z b)) eqn:H; [|discriminate].
    intros [= <-]. eauto.
  - destruct (Py.list_index chunks i) eqn:H; [|discriminate].
    intros [= <-]. eauto.
Qed.

Lemma select_chunks_in (indices : list json)
    (selected : list RagPipeline.chunk) :
  RagPipeline.select_chunks chunks indices = Ok selected ->
  List.length selected = List.length indices
  /\ Forall (fun c => In c chunks) selected.
Proof.
  revert selected; induction indices as [|i indices IH]; simpl;
    intros selected.
  - intros [= <-]. split; [reflexivity|constructor].
  - destruct (RagPipeline.chunk_at chunks i) as [c|e] eqn:Hc; [|discriminate].
    simpl.
    destruct (RagPipeline.select_chunks chunks indices) as [rest|e];
      [|discriminate]. simpl.
    intros [= <-]. destruct (IH rest eq_refl) as [Hlen Hall].
    split; [simpl; now rewrite Hlen|].
    constructor; [now apply chunk_at_in with (i := i)|exact Hall].
Qed.

Lemma length_list_ascii (s : string) :
  List.length (list_ascii_of_string s) = String.length s.
Proof.
  induction s as [|c s IH]; simpl; auto.
Qed.

Lemma sliced_indices_length (v : json) (top_k : Z) (indices : list json) :
  0 <= top_k ->
  RagPipeline.sliced_indices v top_k = Ok indices ->
  Z.of_nat (List.length indices) <= top_k.
Proof.
  intros Hk. destruct v; simpl; try discriminate; intros [= <-].
  - rewrite length_map, length_list_ascii.
    pose proof (length_slice s 0 top_k ltac:(lia) Hk) as H.
    unfold Py.len in H. lia.
  - now apply list_prefix_length.
Qed.

End RerankBounds.

(** X6: whatever the language model answers, when [rerank_with_llm]
    returns, every chunk it returns is one of the chunks it was given,
    and for [top_k >= 0] it returns at most [top_k] of them. *)
Theorem rerank_with_llm_selects_given_chunks
    (llm_invoke : string -> result string)
    (json_loads : string -> result json)
    (original_query : string) (chunks selected : list RagPipeline.chunk)
    (top_k : Z) :
  RagPipeline.rerank_with_llm llm_invoke json_loads original_query chunks top_k
  = Ok selected ->
  Forall (fun c => In c chunks) selected
  /\ (0 <= top_k -> Z.of_nat (List.length selected) <= top_k).
Proof.
  unfold RagPipeline.rerank_with_llm.
  destruct (llm_invoke _) as [response|e]; [|discriminate]. simpl.
  destruct (json_loads response) as [v|e]; [|discriminate]. simpl.
  destruct (RagPipeline.sliced_indices v top_k) as [indices|e] eqn:Hslice;
    [|discriminate]. simpl.
  intros Hsel. apply select_chunks_in in Hsel. destruct Hsel as [Hlen Hall].
  split; [exact Hall|].
  intros Hk. rewrite Hlen. now apply sliced_indices_length with (v := v).
Qed.

Lemma rerank_with_llm_selects_given_chunks_witness :
  Forall (fun c => In c [Examples.b_mid; Examples.a_strong])
    [Examples.a_strong; Examples.b_mid]
  /\ (0 <= 2 ->
      Z.of_nat (List.length [Examples.a_strong; Examples.b_mid]) <= 2).
Proof.
  apply (rerank_with_llm_selects_given_chunks
           (Examples.llm_says "[1, 0, 1]")
           (Examples.decodes_to (JArr (map JInt [1; 0; 1])))
           "how long does shipping take").
  reflexivity.
Defined.

(** ** What the searches return *)

Section SearchShape.

Variable embed_text : string -> result Qdrant.vector.
Variable similarity : Qdrant.vector -> Qdrant.vector -> Q.
Variable client : Qdrant.client.

(** The hits are at most [limit], in descending order of score. *)
Lemma search_hits_shape (query_vector : Qdrant.vector) (limit : Z)
    (must : list Qdrant.condition) (hits : list Qdrant.scored_point) :
  Qdrant.search client similarity query_vector limit must = Ok hits ->
  (0 <= limit -> Z.of_nat (List.length hits) <= limit)
  /\ StronglySorted
       (fun a b => (Qdrant.hit_score b <= Qdrant.hit_score a)%Q) hits.
Proof.
  unfold Qdrant.search. destruct (Qdrant.reachable client); [|discriminate].
  intros [= <-]. split.
  - intros Hl. rewrite length_firstn. lia.
  - apply sorted_firstn, sorted_desc_sorted.
Qed.

Lemma sorted_map_hits {B : Type} (f : Qdrant.scored_point -> B)
    (score : B -> Q) (hits : list Qdrant.scored_point) :
  (forall h, score (f h) = Qdrant.hit_score h) ->
  StronglySorted
    (fun a b => (Qdrant.hit_score b <= Qdrant.hit_score a)%Q) hits ->
  StronglySorted (fun a b => (score b <= score a)%Q) (map f hits).
Proof.
  intros Hf. induction 1 as [|h hits Hs IH Hh]; simpl; constructor; auto.
  rewrite Forall_forall in *. intros b Hb. apply in_map_iff in Hb.
  destruct Hb as (h' & <- & Hh'). rewrite !Hf. now apply Hh.
Qed.

End SearchShape.

(** X7: [search_qdrant] returns only candidates of source type
    [document] or [website] (never an FAQ entry), in descending order
    of score, and for [top_k >= 0] at most [top_k] of them; the index
    is the modelled one. *)
Theorem search_qdrant_shape
    (embed_text : string -> result Qdrant.vector)
    (similarity : Qdrant.vector -> Qdrant.vector -> Q)
    (client : Qdrant.client) (query tenant : string) (top_k : Z)
    (found : list RagPipeline.chunk) :
  RagPipeline.search_qdrant embed_text similarity client query tenant top_k
  = Ok found ->
  Forall (fun c => RagPipeline.source_type c = "document"%string
                   \/ RagPipeline.source_type c = "website"%string) found
  /\ StronglySorted
       (fun a b => (RagPipeline.score b <= RagPipeline.score a)%Q) found
  /\ (0 <= top_k -> Z.of_nat (List.length found) <= top_k).
Proof.
  unfold RagPipeline.search_qdrant.
  destruct (embed_text query) as [v|e]; [|discriminate]. simpl.
  destruct (Qdrant.search _ _ _ _ _) as [hits|e] eqn:Hsearch;
    [|discriminate]. simpl.
  intros [= <-].
  destruct (search_hits_shape _ _ _ _ _ _ Hsearch) as [Hlen Hsorted].
  split; [|split].
  - apply Forall_forall. intros c Hc. apply in_map_iff in Hc.
    destruct Hc as (h & <- & Hh).
    destruct (search_hits _ _ _ _ _ _ Hsearch h Hh) as (p & _ & Hsat & ->).
    simpl in Hsat. apply andb_prop in Hsat. destruct Hsat as [_ Hkind].
    rewrite andb_true_r in Hkind.
    unfold Qdrant.satisfies, Qdrant.payload_field in Hkind. simpl in Hkind.
    rewrite orb_false_r in Hkind. apply orb_prop in Hkind.
    simpl. destruct Hkind as [H|H]; apply String.eqb_eq in H; auto.
  - now apply sorted_map_hits.
  - now rewrite length_map.
Qed.

Lemma search_qdrant_shape_witness :
  exists found : list RagPipeline.chunk,
    RagPipeline.search_qdrant Examples.embed_text Examples.similarity
      Examples.online "delivery" "t1" 1 = Ok found
    /\ map RagPipeline.id found = ["p1"]%string
    /\ Forall (fun c => RagPipeline.source_type c = "document"%string
                        \/ RagPipeline.source_type c = "website"%string) found.
Proof.
  eexists. split; [vm_compute; reflexivity|]. split; [reflexivity|].
  apply (search_qdrant_shape Examples.embed_text Examples.similarity
           Examples.online "delivery" "t1" 1).
  vm_compute. reflexivity.
Defined.

(** X8: [search_knowledge] returns at most [top_k] candidates for
    [top_k >= 0] (the assertion of the repository's
    [test_search_knowledge]), in descending order of score; unlike
    [search_qdrant] it puts no condition on the source type. *)
Theorem search_knowledge_shape
    (embed_text : string -> result Qdrant.vector)
    (similarity : Qdrant.vector -> Qdrant.vector -> Q)
    (client : Qdrant.client) (query tenant : string) (top_k : Z)
    (found : list Roadmap.chunk) :
  Roadmap.search_knowledge embed_text similarity client query tenant top_k
  = Ok found ->
  (0 <= top_k -> Z.of_nat (List.length found) <= top_k)
  /\ StronglySorted
       (fun a b => (Roadmap.score b <= Roadmap.score a)%Q) found.
Proof.
  unfold Roadmap.search_knowledge.
  destruct (embed_text query) as [v|e]; [|discriminate]. simpl.
  destruct (Qdrant.search _ _ _ _ _) as [hits|e] eqn:Hsearch;
    [|discriminate]. simpl.
  intros [= <-].
  destruct (search_hits_shape _ _ _ _ _ _ Hsearch) as [Hlen Hsorted].
  split.
  - now rewrite length_map.
  - now apply sorted_map_hits.
Qed.

Lemma search_knowledge_shape_witness :
  exists found : list Roadmap.chunk,
    Roadmap.search_knowledge Examples.embed_text Examples.similarity
      Examples.online "delivery" "t1" 3 = Ok found
    /\ map Roadmap.source_type found = ["faq"; "website"; "document"]%string
    /\ (0 <= 3 -> Z.of_nat (List.length found) <= 3).
Proof.
  eexists. split; [vm_compute; reflexivity|]. split; [reflexivity|].
  apply (search_knowledge_shape Examples.embed_text Examples.similarity
           Examples.online "delivery" "t1" 3).
  vm_compute. reflexivity.
Defined.

(** ** One failing variant fails the whole retrieval *)

Section AllOrNothing.

Variable embed_text : string -> result Qdrant.vector.
Variable similarity : Qdrant.vector -> Qdrant.vector -> Q.
Variable client : Qdrant.client.
Variable tenant : string.

Let search (q : string) : result (list RagPipeline.chunk) :=
  RagPipeline.search_qdrant embed_text similarity client q tenant 5.

Lemma search_each_succeeds (queries : list string)
    (acc : list RagPipeline.chunk) :
  Forall (fun q => exists r, search q = Ok r) queries ->
  exists all_chunks,
    RagPipeline.search_each embed_text similarity client queries tenant acc
    = Ok all_chunks.
Proof.
  intros Hall. revert acc.
  induction Hall as [|q queries (r & Hq) _ IH]; intros acc; simpl.
  - now exists acc.
  - unfold search in Hq. rewrite Hq. simpl. apply IH.
Qed.

(** The first variant whose search fails decides the error. *)
Lemma search_each_first_failure (before after : list string) (q : string)
    (e : exn) (acc : list RagPipeline.chunk) :
  Forall (fun q => exists r, search q = Ok r) before ->
  search q = Raise e ->
  RagPipeline.search_each embed_text similarity client
    (before ++ q :: after) tenant acc = Raise e.
Proof.
  intros Hall Hq. revert acc.
  induction Hall as [|q0 before (r & Hq0) _ IH]; intros acc; simpl.
  - unfold search in Hq. now rewrite Hq.
  - unfold search in Hq0. rewrite Hq0. simpl. apply IH.
Qed.

End AllOrNothing.

(** X9: [multi_query_search] is all-or-nothing.  It returns a result
    exactly when the search of every query variant succeeds; the first
    variant whose search raises makes the whole call raise that error,
    whatever the other variants found. *)
Theorem multi_query_search_all_or_nothing
    (embed_text : string -> result Qdrant.vector)
    (similarity : Qdrant.vector -> Qdrant.vector -> Q)
    (client : Qdrant.client) (tenant : string) :
  let search q :=
    RagPipeline.search_qdrant embed_text similarity client q tenant 5 in
  let run queries :=
    RagPipeline.multi_query_search embed_text similarity client queries
      tenant in
  (forall queries,
      (exists merged, run queries = Ok merged)
      <-> Forall (fun q => exists r, search q = Ok r) queries)
  /\ (forall before q after e,
        Forall (fun q => exists r, search q = Ok r) before ->
        search q = Raise e ->
        run (before ++ q :: after) = Raise e)
  /\ run [] = Ok [].
Proof.
  cbv zeta. split; [|split].
  - intros queries. split.
    + intros (merged & Hrun).
      destruct (multi_query_search_merges _ _ _ _ _ _ Hrun)
        as (results & Hres & _).
      clear Hrun. induction Hres as [|q r queries results Hq _ IH];
        constructor; eauto.
    + intros Hall. unfold RagPipeline.multi_query_search.
      destruct (search_each_succeeds _ _ _ _ queries [] Hall) as (all & ->).
      simpl. eauto.
  - intros before q after e Hall Hq. unfold RagPipeline.multi_query_search.
    now rewrite (search_each_first_failure _ _ _ _ before after q e [] Hall Hq).
  - reflexivity.
Qed.

Lemma multi_query_search_all_or_nothing_witness :
  RagPipeline.multi_query_search
    (fun q => if String.eqb q "shipping" then Raise (ServiceError "openai")
              else Ok [1%Q])
    Examples.similarity Examples.online
    (["delivery"%string] ++ "shipping"%string :: ["returns"%string]) "t1"
  = Raise (ServiceError "openai").
Proof.
  apply (proj1 (proj2 (multi_query_search_all_or_nothing _ _ _ _))).
  - repeat constructor. eexists. vm_compute. reflexivity.
  - reflexivity.
Defined.

(** ** What the formatted context contains *)

Section Contains.

Lemma prefix_app (n b : string) : String.prefix n (n ++ b) = true.
Proof.
  induction n as [|c n IH]; simpl.
  - now destruct b.
  - destruct (Ascii.ascii_dec c c); [exact IH|congruence].
Qed.

Lemma contains_prefix (n h : string) :
  String.prefix n h = true -> Py.contains n h = true.
Proof.
  intros H. destruct h; simpl in *; now rewrite H.
Qed.

Lemma contains_app (n a b : string) : Py.contains n (a ++ n ++ b) = true.
Proof.
  induction a as [|c a IH].
  - change (Py.contains n (n ++ b) = true).
    apply contains_prefix, prefix_app.
  - simpl. rewrite IH. apply orb_true_r.
Qed.

Lemma contains_intro (n s a b : string) :
  s = (a ++ n ++ b)%string -> Py.contains n s = true.
Proof.
  intros ->. apply contains_app.
Qed.

Lemma string_app_nil_r (s : string) : (s ++ "")%string = s.
Proof.
  induction s as [|c s IH]; simpl; congruence.
Qed.

(** A part of a joined string stands in it between a left and a right
    context. *)
Lemma join_part (sep : string) (parts : list string) (k : nat) (p : string) :
  nth_error parts k = Some p ->
  exists a b, String.concat sep parts = (a ++ p ++ b)%string.
Proof.
  revert k; induction parts as [|x parts IH]; intros k Hk.
  - now destruct k.
  - destruct k as [|k]; simpl in Hk.
    + injection Hk as ->. exists EmptyString.
      destruct parts as [|y parts]; simpl.
      * exists EmptyString. simpl. now rewrite string_app_nil_r.
      * eexists. reflexivity.
    + destruct (IH k Hk) as (a & b & Hab).
      destruct parts as [|y parts]; [now destruct k|].
      exists (x ++ sep ++ a)%string, b.
      change (String.concat sep (x :: y :: parts))
        with (x ++ sep ++ String.concat sep (y :: parts))%string.
      rewrite Hab. now rewrite !string_app_assoc.
Qed.

End Contains.

(** X10: the context returned by [format_rag_context] contains, for
    the candidate at every position [k], the label ["Source "] with the
    number [k+1] and the candidate's text (the assertions of the
    repository's [test_format_rag_context], for every list). *)
Theorem format_rag_context_contains
    (chunks : list Roadmap.chunk) (k : nat) (c : Roadmap.chunk) :
  nth_error chunks k = Some c ->
  let context := Roadmap.format_rag_context chunks in
  Py.contains ("Source " ++ Py.str_of_int (Z.of_nat k + 1)) context = true
  /\ Py.contains (Roadmap.content c) context = true.
Proof.
  intros Hk context.
  assert (Hctx : exists a b,
             context = (a ++ Roadmap.context_part (Z.of_nat k + 1) c ++ b)%string).
  { unfold context, Roadmap.format_rag_context.
    destruct chunks as [|c0 chunks0] eqn:Hchunks; [now destruct k|].
    rewrite <- Hchunks in *. rewrite fold_left_parts. simpl app.
    apply join_part with (k := k).
    rewrite (enumerate_parts Roadmap.context_part 1 chunks k c Hk).
    do 2 f_equal. lia. }
  destruct Hctx as (a & b & ->). unfold Roadmap.context_part. split.
  - apply contains_intro
      with (a := a)
           (b := (": " ++ Py.str (Roadmap.chunk_source c) ++ Py.nl
                  ++ Roadmap.content c ++ b)%string).
    now rewrite !string_app_assoc.
  - apply contains_intro
      with (a := (a ++ "Source " ++ Py.str_of_int (Z.of_nat k + 1) ++ ": "
                  ++ Py.str (Roadmap.chunk_source c) ++ Py.nl)%string)
           (b := b).
    now rewrite !string_app_assoc.
Qed.

Lemma format_rag_context_contains_witness :
  Py.contains "Source 2"
    (Roadmap.format_rag_context
       [ {| Roadmap.content := "Test content 1"; Roadmap.score := 1;
            Roadmap.source_type := "website";
            Roadmap.metadata :=
              [("url"%string, Py.VStr "https://example.com/page1")] |};
         {| Roadmap.content := "Test content 2"; Roadmap.score := 1;
            Roadmap.source_type := "document";
            Roadmap.metadata := [("filename"%string, Py.VStr "doc.pdf")] |} ])
  = true.
Proof.
  match goal with
  | |- Py.contains _ (Roadmap.format_rag_context ?l) = true =>
      match l with
      | [_; ?c] => exact (proj1 (format_rag_context_contains l 1 c eq_refl))
      end
  end.
Defined.

(** ** Chunked text through the formatter of rag_pipeline.md *)

(** X11: candidates whose text is a chunk returned by [chunk_text] are
    rendered verbatim by the formatter of rag_pipeline.md: its
    stripping of each block removes nothing from them, and the block at
    position [k] is ["Source "], [k+1], [": "], the source, a newline
    and the chunk. *)
Theorem chunked_candidates_render_verbatim
    (text : string) (chunk_size overlap : Z) (pieces : list string)
    (candidates : list RagPipeline.chunk) :
  0 <= overlap < chunk_size ->
  RagPipeline.chunk_text text chunk_size overlap = Some pieces ->
  Forall (fun c => In (RagPipeline.content c) pieces) candidates ->
  exists blocks : list string,
    RagPipeline.format_rag_context candidates
    = String.concat RagPipeline.separator blocks
    /\ List.length blocks = List.length candidates
    /\ forall (k : nat) (c : RagPipeline.chunk),
         nth_error candidates k = Some c ->
         nth_error blocks k
         = Some ("Source " ++ Py.str_of_int (Z.of_nat k + 1) ++ ": "
                 ++ Py.str (RagPipeline.chunk_source c)
                 ++ String "010" (RagPipeline.content c))%string.
Proof.
  intros Hpre Hrun Hcontent.
  unfold RagPipeline.chunk_text, RagPipeline.chunk_text_fuel in Hrun.
  apply chunk_loop_shape in Hrun; try lia; [|constructor].
  apply doc_format_rag_context_blocks.
  rewrite Forall_forall in *. intros c Hc.
  destruct (Hrun _ (Hcontent c Hc)) as (Hne & Hstrip & _).
  split; [exact Hne|].
  rewrite <- Hstrip at 1. unfold Py.strip.
  rewrite rstrip_idempotent. exact Hstrip.
Qed.

Lemma chunked_candidates_render_verbatim_witness :
  exists blocks : list string,
    RagPipeline.format_rag_context
      [Examples.mk_chunk "c1" "cd" 1; Examples.mk_chunk "c0" "ab" 1]
    = String.concat RagPipeline.separator blocks
    /\ List.length blocks = 2%nat
    /\ forall (k : nat) (c : RagPipeline.chunk),
         nth_error [Examples.mk_chunk "c1" "cd" 1;
                    Examples.mk_chunk "c0" "ab" 1] k = Some c ->
         nth_error blocks k
         = Some ("Source " ++ Py.str_of_int (Z.of_nat k + 1) ++ ": "
                 ++ Py.str (RagPipeline.chunk_source c)
                 ++ String "010" (RagPipeline.content c))%string.
Proof.
  apply (chunked_candidates_render_verbatim "  ab   cd     e " 4 1
           ["ab"; "b"; "cd"; "e"]%string).
  - lia.
  - vm_compute. reflexivity.
  - repeat constructor; simpl; tauto.
Defined.

(** ** The message endpoint *)

Section Endpoint.

Variable llm_ainvoke : list Roadmap.message -> result string.
Variable FAQ_SYSTEM_PROMPT : string.
Variable save_conversation : string -> string -> string -> result string.
Variable save_message : string -> string -> string -> result unit.
Variable request : Roadmap.MessageRequest.

Lemma handle_message_faq_route
    (embed_text : string -> result Qdrant.vector)
    (similarity : Qdrant.vector -> Qdrant.vector -> Q)
    (qdrant : Qdrant.client) :
  FallbackSpec.routed_to_rag request = false ->
  Roadmap.handle_message embed_text similarity qdrant llm_ainvoke
    FAQ_SYSTEM_PROMPT save_conversation save_message request
  = (conv_id <- save_conversation (Roadmap.tenant_id request)
                  (Roadmap.user_id request) (Roadmap.channel request) ;;
     _ <- save_message conv_id "user" (Roadmap.request_content request) ;;
     response_text <- Roadmap.handle_faq llm_ainvoke FAQ_SYSTEM_PROMPT
                        (Roadmap.request_content request) ;;
     _ <- save_message conv_id "assistant" response_text ;;
     Ok {| Roadmap.response := response_text;
           Roadmap.intent := Some "faq"%string;
           Roadmap.sources := None |}).
Proof.
  unfold FallbackSpec.routed_to_rag, Roadmap.handle_message.
  intros Hroute. apply negb_false_iff in Hroute. now rewrite Hroute.
Qed.

End Endpoint.

(** X12: a message that contains "livraison" or "retour" (in any
    capitalisation) is answered without the vector index: the outcome
    of [handle_message] is the same whatever the embedding provider and
    the Qdrant client are or do, also when the index is unreachable. *)
Theorem handle_message_faq_ignores_index
    (embed_text embed_text' : string -> result Qdrant.vector)
    (similarity similarity' : Qdrant.vector -> Qdrant.vector -> Q)
    (qdrant qdrant' : Qdrant.client)
    (llm_ainvoke : list Roadmap.message -> result string)
    (FAQ_SYSTEM_PROMPT : string)
    (save_conversation : string -> string -> string -> result string)
    (save_message : string -> string -> string -> result unit)
    (request : Roadmap.MessageRequest) :
  Py.contains "livraison" (Py.lower (Roadmap.request_content request)) = true
  \/ Py.contains "retour" (Py.lower (Roadmap.request_content request)) = true ->
  Roadmap.handle_message embed_text similarity qdrant llm_ainvoke
    FAQ_SYSTEM_PROMPT save_conversation save_message request
  = Roadmap.handle_message embed_text' similarity' qdrant' llm_ainvoke
      FAQ_SYSTEM_PROMPT save_conversation save_message request.
Proof.
  intros Hword.
  assert (Hroute : FallbackSpec.routed_to_rag request = false).
  { unfold FallbackSpec.routed_to_rag. apply negb_false_iff.
    apply orb_true_iff. exact Hword. }
  now rewrite !handle_message_faq_route by exact Hroute.
Qed.

Lemma handle_message_faq_ignores_index_witness :
  Roadmap.handle_message Examples.embed_text Examples.similarity
    Examples.unreachable (Examples.chat_says "3 to 5 days.") "faq prompt"
    Examples.save_conversation Examples.save_message
    {| Roadmap.tenant_id := "t1"; Roadmap.user_id := "u1";
       Roadmap.channel := "widget";
       Roadmap.request_content := "Quel est le delai de LIVRAISON ?" |}
  = Ok {| Roadmap.response := "3 to 5 days."; Roadmap.intent := Some "faq"%string;
          Roadmap.sources := None |}.
Proof.
  rewrite (handle_message_faq_ignores_index
             Examples.embed_text Examples.embed_text
             Examples.similarity Examples.similarity
             Examples.unreachable Examples.online).
  - reflexivity.
  - left. reflexivity.
Defined.

(** X13: a reply returned by [handle_message] has been stored: the
    conversation was obtained, the user's message was saved and the
    reply itself was saved as the assistant's message; the reply is
    always labelled with the intent "faq" and carries no sources, also
    when it came from the RAG branch. *)
Theorem handle_message_reply_is_saved
    (embed_text : string -> result Qdrant.vector)
    (similarity : Qdrant.vector -> Qdrant.vector -> Q)
    (qdrant : Qdrant.client)
    (llm_ainvoke : list Roadmap.message -> result string)
    (FAQ_SYSTEM_PROMPT : string)
    (save_conversation : string -> string -> string -> result string)
    (save_message : string -> string -> string -> result unit)
    (request : Roadmap.MessageRequest) (reply : Roadmap.MessageResponse) :
  Roadmap.handle_message embed_text similarity qdrant llm_ainvoke
    FAQ_SYSTEM_PROMPT save_conversation save_message request = Ok reply ->
  Roadmap.intent reply = Some "faq"%string
  /\ Roadmap.sources reply = None
  /\ exists conv_id : string,
       save_conversation (Roadmap.tenant_id request) (Roadmap.user_id request)
         (Roadmap.channel request) = Ok conv_id
       /\ save_message conv_id "user"%string (Roadmap.request_content request)
          = Ok tt
       /\ save_message conv_id "assistant"%string (Roadmap.response reply)
          = Ok tt.
Proof.
  unfold Roadmap.handle_message.
  destruct (save_conversation _ _ _) as [conv|e]; [|discriminate]. simpl.
  destruct (save_message conv "user"%string _) as [[]|e] eqn:Huser;
    [|discriminate]. simpl.
  match goal with
  | |- bind ?text _ = _ -> _ => destruct text as [response_text|e]
  end; [|discriminate]. simpl.
  destruct (save_message conv "assistant"%string response_text) as [[]|e]
    eqn:Hassistant; [|discriminate]. simpl.
  intros [= <-]. simpl. repeat split. exists conv. auto.
Qed.

Lemma handle_message_reply_is_saved_witness :
  Roadmap.intent
    {| Roadmap.response := "It is on its way.";
       Roadmap.intent := Some "faq"%string; Roadmap.sources := None |}
  = Some "faq"%string.
Proof.
  apply (handle_message_reply_is_saved Examples.embed_text Examples.similarity
           Examples.online (Examples.chat_says "It is on its way.")
           "faq prompt" Examples.save_conversation Examples.save_message
           Examples.order_question).
  reflexivity.
Defined.

(** ** The widget *)

Section WidgetFacts.

Lemma trim_start_cases (s : string) :
  (forallb Widget.isspace (list_ascii_of_string s) = true
   /\ Widget.trim_start s = EmptyString)
  \/ (forallb Widget.isspace (list_ascii_of_string s) = false
      /\ exists c s', Widget.trim_start s = String c s'
                      /\ Widget.isspace c = false).
Proof.
  induction s as [|c s IH]; simpl.
  - now left.
  - destruct (Widget.isspace c) eqn:Hc; simpl.
    + exact IH.
    + right. split; [reflexivity|]. now exists c, s.
Qed.

(** The trimmed input is empty exactly when the input holds white
    space only. *)
Lemma truthy_trim (s : string) :
  Py.truthy (Widget.trim s)
  = negb (forallb Widget.isspace (list_ascii_of_string s)).
Proof.
  unfold Widget.trim.
  destruct (trim_start_cases s) as [[Ha Hl]|[Ha (c & s' & Hl & Hc)]];
    rewrite Ha, Hl.
  - reflexivity.
  - simpl. rewrite Hc. now destruct (Widget.trim_end s').
Qed.

Variable fetch : string -> json -> Widget.fetch_result.
Variable w : Widget.widget.

Let message : string := Widget.trim (Widget.input_value w).
Let sent : Widget.widget :=
  Widget.showTyping
    (Widget.set_input EmptyString (Widget.addMessage (JStr message) "user" w)).

(** The reply that [sendMessage] displays for an outcome of the
    request. *)
Let reply_ok (outcome : Widget.fetch_result) (reply : json) : Prop :=
  reply = JStr Widget.connection_fallback_text
  \/ reply = JStr Widget.no_answer_text
  \/ (Widget.truthy reply = true
      /\ exists fields,
           outcome = Widget.Response true (Some (JObj fields))
           /\ Py.dict_lookup fields "response" = Some reply).

Lemma try_block_outcome (outcome : Widget.fetch_result) :
  (exists w2 e,
      Widget.try_block outcome sent = (w2, Raise e)
      /\ Widget.messages w2 = Widget.messages sent
      /\ Widget.input_value w2 = EmptyString)
  \/ (exists w2 reply,
        Widget.try_block outcome sent = (w2, Ok tt)
        /\ Widget.messages w2
           = Widget.messages sent ++ [("assistant"%string, reply)]
        /\ Widget.input_value w2 = EmptyString
        /\ Widget.typing w2 = false
        /\ reply_ok outcome reply).
Proof.
  unfold reply_ok.
  destruct outcome as [|[|] [data|]]; simpl;
    try (left; eexists _, _; repeat split; reflexivity).
  destruct data; simpl;
    try (left; eexists _, _; repeat split; reflexivity);
    try (right; eexists _, _; repeat split; auto; fail).
  right.
  destruct (Py.dict_lookup fields "conversation_id") as [cid|];
    [destruct (Widget.truthy cid)|];
    (destruct (Py.dict_lookup fields "response") as [r|] eqn:Hr;
     [destruct (Widget.truthy r) eqn:Ht|]);
    eexists _, _; repeat split; eauto 8.
Qed.

Lemma sendMessage_nonblank :
  forallb Widget.isspace (list_ascii_of_string (Widget.input_value w)) = false ->
  exists reply : json,
    Widget.messages (Widget.sendMessage fetch w)
    = Widget.messages w
        ++ [("user"%string, JStr message); ("assistant"%string, reply)]
    /\ Widget.input_value (Widget.sendMessage fetch w) = EmptyString
    /\ Widget.typing (Widget.sendMessage fetch w) = false
    /\ reply_ok (fetch message (Widget.conversationId w)) reply.
Proof.
  intros Hinput.
  assert (Hsend :
    Widget.sendMessage fetch w
    = match Widget.try_block (fetch message (Widget.conversationId w)) sent
      with
      | (w2, Ok _) => w2
      | (w2, Raise _) => Widget.catch_block w2
      end).
  { unfold Widget.sendMessage.
    now rewrite truthy_trim, Hinput. }
  rewrite Hsend. clear Hsend.
  destruct (try_block_outcome (fetch message (Widget.conversationId w)))
    as [(w2 & e & -> & Hm & Hi)|(w2 & reply & -> & Hm & Hi & Ht & Hr)].
  - exists (JStr Widget.connection_fallback_text).
    unfold Widget.catch_block, Widget.addMessage, Widget.hideTyping,
      Widget.set_typing, Widget.console_error.
    cbn [Widget.messages Widget.input_value Widget.typing].
    rewrite Hm, Hi. unfold sent. cbn. rewrite <- app_assoc.
    repeat split. now left.
  - exists reply. rewrite Hm, Hi, Ht. unfold sent. cbn.
    rewrite <- app_assoc. repeat split. exact Hr.
Qed.

End WidgetFacts.

(** X14: an input that holds only white space sends nothing: whatever
    the server would answer, [sendMessage] leaves the widget as it
    is. *)
Theorem sendMessage_blank_input_is_ignored
    (fetch : string -> json -> Widget.fetch_result) (w : Widget.widget) :
  forallb Widget.isspace (list_ascii_of_string (Widget.input_value w)) = true ->
  Widget.sendMessage fetch w = w.
Proof.
  intros Hblank. unfold Widget.sendMessage.
  now rewrite truthy_trim, Hblank.
Qed.

Lemma sendMessage_blank_input_is_ignored_witness :
  Widget.sendMessage Examples.server_error
    {| Widget.input_value := "   ";
       Widget.messages := [];
       Widget.typing := false;
       Widget.conversationId := JStr "conv-1";
       Widget.console_errors := [] |}
  = {| Widget.input_value := "   ";
       Widget.messages := [];
       Widget.typing := false;
       Widget.conversationId := JStr "conv-1";
       Widget.console_errors := [] |}.
Proof.
  apply (sendMessage_blank_input_is_ignored Examples.server_error).
  reflexivity.
Defined.

(** X15: for every other input and every outcome of the request,
    [sendMessage] clears the input field, ends with the typing
    indicator hidden and appends exactly two messages: the trimmed
    input as the user's, then one assistant reply.  The reply is the
    fixed connection text when the request is rejected, not [ok], or
    its body cannot be read; for an ok answer it is the answer's
    [response] when that is truthy, and the fixed "no answer" text
    when it is falsy or missing. *)
Theorem sendMessage_appends_question_and_reply
    (fetch : string -> json -> Widget.fetch_result) (w : Widget.widget) :
  forallb Widget.isspace (list_ascii_of_string (Widget.input_value w)) = false ->
  let message := Widget.trim (Widget.input_value w) in
  let outcome := fetch message (Widget.conversationId w) in
  exists reply : json,
    Widget.messages (Widget.sendMessage fetch w)
    = Widget.messages w
        ++ [("user"%string, JStr message); ("assistant"%string, reply)]
    /\ Widget.input_value (Widget.sendMessage fetch w) = EmptyString
    /\ Widget.typing (Widget.sendMessage fetch w) = false
    /\ (FallbackSpec.request_failed outcome = true ->
        reply = JStr Widget.connection_fallback_text)
    /\ (forall data r,
          outcome = Widget.Response true (Some data) ->
          Widget.property data "response" = Ok r ->
          (forall v, r = Some v -> Widget.truthy v = true -> reply = v)
          /\ (Widget.truthy_opt r = false ->
              reply = JStr Widget.no_answer_text)).
Proof.
  intros Hinput. cbv zeta.
  assert (Hmsg : Py.truthy (Widget.trim (Widget.input_value w)) = true)
    by now rewrite truthy_trim, Hinput.
  destruct (FallbackSpec.request_failed
              (fetch (Widget.trim (Widget.input_value w))
                 (Widget.conversationId w))) eqn:Hfail.
  - rewrite (sendMessage_failed_state fetch w Hmsg Hfail).
    exists (JStr Widget.connection_fallback_text).
    cbn [Widget.messages Widget.input_value Widget.typing].
    split; [reflexivity|]. split; [reflexivity|]. split; [reflexivity|].
    split; [reflexivity|].
    intros data r Hfetch Hr. rewrite Hfetch in Hfail.
    destruct data; discriminate.
  - destruct (request_answered _ Hfail)
      as (data & cid & r & Hfetch & Hcid & Hr).
    rewrite (sendMessage_answered_state fetch w data cid r
               Hmsg Hfetch Hcid Hr).
    eexists. cbn [Widget.messages Widget.input_value Widget.typing].
    split; [reflexivity|]. split; [reflexivity|]. split; [reflexivity|].
    split; [discriminate|].
    intros data' r' Hfetch' Hr'. rewrite Hfetch in Hfetch'.
    injection Hfetch' as <-. rewrite Hr in Hr'. injection Hr' as <-.
    split.
    + intros v -> ->. reflexivity.
    + intros Hfalsy. destruct r as [v|]; [|reflexivity].
      cbn in Hfalsy. now rewrite Hfalsy.
Qed.

Lemma sendMessage_appends_question_and_reply_witness :
  Widget.messages (Widget.sendMessage Examples.server_error Examples.typed)
  = Widget.messages Examples.typed
      ++ [("user"%string, JStr "Where is my order?");
          ("assistant"%string, JStr Widget.connection_fallback_text)]
  /\ Widget.messages (Widget.sendMessage Samples.answering Examples.typed)
     = Widget.messages Examples.typed
         ++ [("user"%string, JStr "Where is my order?");
             ("assistant"%string, JStr "It is on its way.")].
Proof.
  split.
  - destruct (sendMessage_appends_question_and_reply Examples.server_error
                Examples.typed eq_refl)
      as (reply & Hm & _ & _ & Hfailed & _).
    now rewrite Hm, (Hfailed eq_refl).
  - destruct (sendMessage_appends_question_and_reply Samples.answering
                Examples.typed eq_refl)
      as (reply & Hm & _ & _ & _ & Hanswered).
    destruct (Hanswered _ _ eq_refl eq_refl) as [Htruthy _].
    now rewrite Hm, (Htruthy _ eq_refl eq_refl).
Defined.

(** X16: [sendMessage] changes the conversation id only to a truthy
    [conversation_id] carried by an ok JSON object; after a failed
    request, or an answer without such a field, the widget keeps the
    id it had. *)
Theorem sendMessage_conversation_id
    (fetch : string -> json -> Widget.fetch_result) (w : Widget.widget) :
  let outcome :=
    fetch (Widget.trim (Widget.input_value w)) (Widget.conversationId w) in
  let after := Widget.conversationId (Widget.sendMessage fetch w) in
  (after = Widget.conversationId w
   \/ exists fields v,
        outcome = Widget.Response true (Some (JObj fields))
        /\ Py.dict_lookup fields "conversation_id" = Some v
        /\ Widget.truthy v = true
        /\ after = v)
  /\ (FallbackSpec.request_failed outcome = true ->
      after = Widget.conversationId w).
Proof.
  cbv zeta. unfold Widget.sendMessage.
  destruct (Py.truthy (Widget.trim (Widget.input_value w))); simpl negb;
    cbv iota; [|split; auto].
  change (Widget.conversationId
            (Widget.showTyping
               (Widget.set_input EmptyString
                  (Widget.addMessage
                     (JStr (Widget.trim (Widget.input_value w))) "user" w))))
    with (Widget.conversationId w).
  destruct (fetch _ _) as [|[|] [data|]]; simpl; try (split; auto; fail).
  destruct data; simpl; try (split; auto; discriminate).
  destruct (Py.dict_lookup fields "conversation_id") as [cid|] eqn:Hcid;
    [destruct (Widget.truthy cid) eqn:Ht|];
    (destruct (Py.dict_lookup fields "response") as [r|];
     [destruct (Widget.truthy r)|]); simpl;
    (split; [|discriminate]); auto;
    right; exists fields, cid; auto.
Qed.

Lemma sendMessage_conversation_id_witness :
  Widget.conversationId
    (Widget.sendMessage Examples.server_error Examples.typed)
  = JStr "conv-1".
Proof.
  apply (proj2 (sendMessage_conversation_id Examples.server_error
                  Examples.typed)).
  reflexivity.
Defined.

(* ================================================================== *)
(** * Crawling and ingestion *)
(* ================================================================== *)

Section CrawlFacts.

Variable arun : Crawl4AI.crawler.

Lemma visited_mem_spec (link : string) (visited : list string) :
  Crawl4AI.visited_mem link visited = true <-> In link visited.
Proof.
  unfold Crawl4AI.visited_mem. rewrite existsb_exists. split.
  - intros (x & Hx & Heq). apply String.eqb_eq in Heq. now subst.
  - intros H. exists link. split; [exact H|apply String.eqb_refl].
Qed.

Lemma first_visits_spec (to_visit visited : list string) :
  NoDup (CrawlSpec.first_visits to_visit visited)
  /\ forall l, In l (CrawlSpec.first_visits to_visit visited)
               <-> In l to_visit /\ ~ In l visited.
Proof.
  revert visited; induction to_visit as [|link rest IH]; intros visited;
    simpl.
  - split; [constructor|]. intuition.
  - destruct (Crawl4AI.visited_mem link visited) eqn:Hmem.
    + apply visited_mem_spec in Hmem.
      destruct (IH visited) as [Hnd Hin]. split; [exact Hnd|].
      intros l. rewrite Hin. intuition (subst; tauto).
    + assert (Hnot : ~ In link visited).
      { rewrite <- visited_mem_spec. congruence. }
      destruct (IH (link :: visited)) as [Hnd Hin]. split.
      * constructor; [|exact Hnd]. rewrite Hin. simpl. tauto.
      * intros l. simpl. rewrite Hin. simpl.
        destruct (string_dec link l) as [->|Hne]; intuition.
Qed.

Lemma length_crawled {P : Type} (page_of : Crawl4AI.crawl_result -> P)
    (requested : list string) :
  (List.length (CrawlSpec.crawled arun page_of requested)
   <= List.length requested)%nat.
Proof.
  unfold CrawlSpec.crawled.
  induction requested as [|l requested IH]; simpl; auto.
  rewrite length_app. destruct (arun l None); simpl; lia.
Qed.

Lemma length_first_visits (to_visit visited : list string) :
  (List.length (CrawlSpec.first_visits to_visit visited)
   <= List.length to_visit)%nat.
Proof.
  revert visited; induction to_visit as [|l rest IH]; intros visited;
    simpl; auto.
  destruct (Crawl4AI.visited_mem l visited); simpl.
  - specialize (IH visited). lia.
  - specialize (IH (l :: visited)). lia.
Qed.

(** The loop of rag_pipeline.md appends the pages of the links it
    visits for the first time. *)
Lemma pipeline_crawl_links (to_visit visited : list string)
    (pages : list PipelineCrawl.page) :
  PipelineCrawl.crawl_links arun to_visit visited pages
  = pages ++ CrawlSpec.crawled arun PipelineCrawl.page_of
               (CrawlSpec.first_visits to_visit visited).
Proof.
  revert visited pages; induction to_visit as [|l rest IH];
    intros visited pages; simpl.
  - now rewrite app_nil_r.
  - destruct (Crawl4AI.visited_mem l visited); [apply IH|].
    unfold CrawlSpec.crawled. simpl.
    destruct (arun l None); rewrite IH; simpl; auto.
    now rewrite <- app_assoc.
Qed.

(** The loop of the roadmap appends the page of every link whose
    crawl succeeds. *)
Lemma roadmap_crawl_links (to_visit visited : list string)
    (pages : list RoadmapIngestion.page) :
  RoadmapIngestion.crawl_links arun to_visit visited pages
  = pages ++ CrawlSpec.crawled arun RoadmapIngestion.page_of to_visit.
Proof.
  revert visited pages; induction to_visit as [|l rest IH];
    intros visited pages; simpl.
  - now rewrite app_nil_r.
  - unfold CrawlSpec.crawled. simpl.
    destruct (arun l None); rewrite IH; simpl; auto.
    now rewrite <- app_assoc.
Qed.

End CrawlFacts.

(** X17: [crawl_website] of rag_pipeline.md raises only when the
    starting page cannot be crawled; a linked page that fails is
    skipped.  The result starts with the starting page, followed by the
    pages of the links that answered, where each of the first
    [max_pages] links of the starting page is requested once, and the
    starting url itself never again. *)
Theorem pipeline_crawl_website_requests_once
    (arun : Crawl4AI.crawler) (base_url : string) (max_pages : Z) :
  let run := PipelineCrawl.crawl_website arun base_url max_pages in
  let start := arun base_url (Some Crawl4AI.base_config) in
  (forall e, start = Raise e -> run = Raise e)
  /\ (forall r, start = Ok r ->
        exists requested : list string,
          run = Ok (PipelineCrawl.page_of r
                    :: CrawlSpec.crawled arun PipelineCrawl.page_of requested)
          /\ NoDup requested
          /\ forall l, In l requested
                       <-> In l (Py.list_prefix (Crawl4AI.internal_links r)
                                   max_pages)
                           /\ l <> base_url).
Proof.
  cbv zeta. unfold PipelineCrawl.crawl_website. split.
  - intros e ->. reflexivity.
  - intros r ->. simpl.
    exists (CrawlSpec.first_visits
              (Py.list_prefix (Crawl4AI.internal_links r) max_pages)
              [base_url]).
    rewrite pipeline_crawl_links.
    destruct (first_visits_spec
                (Py.list_prefix (Crawl4AI.internal_links r) max_pages)
                [base_url]) as [Hnd Hin].
    split; [reflexivity|]. split; [exact Hnd|].
    intros l. rewrite Hin. simpl. intuition.
Qed.

(** X18: for [max_pages >= 0], [crawl_website] of rag_pipeline.md
    returns at least the starting page and at most [1 + max_pages]
    pages: [max_pages] bounds the linked pages, not the total. *)
Theorem pipeline_crawl_website_page_bound
    (arun : Crawl4AI.crawler) (base_url : string) (max_pages : Z)
    (pages : list PipelineCrawl.page) :
  0 <= max_pages ->
  PipelineCrawl.crawl_website arun base_url max_pages = Ok pages ->
  1 <= Z.of_nat (List.length pages) <= 1 + max_pages.
Proof.
  intros Hmax. unfold PipelineCrawl.crawl_website.
  destruct (arun base_url _) as [r|e]; [|discriminate]. cbn [bind].
  intros [= <-]. rewrite pipeline_crawl_links. cbn [app List.length].
  pose proof (length_crawled arun PipelineCrawl.page_of
                (CrawlSpec.first_visits
                   (Py.list_prefix (Crawl4AI.internal_links r) max_pages)
                   [base_url])).
  pose proof (length_first_visits
                (Py.list_prefix (Crawl4AI.internal_links r) max_pages)
                [base_url]).
  pose proof (list_prefix_length (Crawl4AI.internal_links r) max_pages Hmax).
  lia.
Qed.

(** The pages of the roadmap's crawl, and their number. *)
Lemma roadmap_crawl_website_pages
    (arun : Crawl4AI.crawler) (base_url : string) (max_pages : Z)
    (pages : list RoadmapIngestion.page) :
  1 <= max_pages ->
  RoadmapIngestion.crawl_website arun base_url max_pages = Ok pages ->
  1 <= Z.of_nat (List.length pages) <= max_pages
  /\ exists r,
       arun base_url (Some Crawl4AI.base_config) = Ok r
       /\ pages
          = RoadmapIngestion.page_of r
            :: CrawlSpec.crawled arun RoadmapIngestion.page_of
                 (Py.list_prefix
                    (filter (fun l => negb (String.eqb l base_url))
                       (Crawl4AI.internal_links r))
                    (max_pages - 1)).
Proof.
  intros Hmax. unfold RoadmapIngestion.crawl_website.
  destruct (arun base_url _) as [r|e]; [|discriminate]. cbn [bind].
  cbv zeta. intros [= <-]. rewrite roadmap_crawl_links.
  assert (Hfilter :
    filter (fun link => negb (String.eqb link base_url || false))
      (Crawl4AI.internal_links r)
    = filter (fun l => negb (String.eqb l base_url))
        (Crawl4AI.internal_links r)).
  { apply filter_ext. intros l. now rewrite orb_false_r. }
  rewrite Hfilter. split; [|now exists r]. cbn [app List.length].
  pose proof (length_crawled arun RoadmapIngestion.page_of
                (Py.list_prefix
                   (filter (fun l => negb (String.eqb l base_url))
                      (Crawl4AI.internal_links r)) (max_pages - 1))).
  pose proof (list_prefix_length
                (filter (fun l => negb (String.eqb l base_url))
                   (Crawl4AI.internal_links r)) (max_pages - 1)
                ltac:(lia)).
  lia.
Qed.

(** X19: [crawl_website] of the roadmap counts the starting page in
    [max_pages]: for [max_pages >= 1] it returns between one and
    [max_pages] pages, the starting page first, then the pages of the
    first [max_pages - 1] links other than the starting url whose crawl
    succeeds, a link listed twice being crawled twice. *)
Theorem roadmap_crawl_website_page_bound
    (arun : Crawl4AI.crawler) (base_url : string) (max_pages : Z)
    (pages : list RoadmapIngestion.page) :
  1 <= max_pages ->
  RoadmapIngestion.crawl_website arun base_url max_pages = Ok pages ->
  1 <= Z.of_nat (List.length pages) <= max_pages
  /\ exists r,
       arun base_url (Some Crawl4AI.base_config) = Ok r
       /\ pages
          = RoadmapIngestion.page_of r
            :: CrawlSpec.crawled arun RoadmapIngestion.page_of
                 (Py.list_prefix
                    (filter (fun l => negb (String.eqb l base_url))
                       (Crawl4AI.internal_links r))
                    (max_pages - 1)).
Proof.
  apply roadmap_crawl_website_pages.
Qed.

(** ** Splitting into paragraphs *)

Section SplitFacts.

Variable sep : string.
Hypothesis sep_not_empty : sep <> EmptyString.

Lemma split_from_not_nil (skip : nat) (s piece : string) :
  RoadmapIngestion.split_from sep skip s piece <> [].
Proof.
  revert skip piece; induction s as [|c s IH]; intros skip piece;
    cbn [RoadmapIngestion.split_from].
  - discriminate.
  - destruct skip; [|apply IH].
    destruct (String.prefix sep (String c s)); [discriminate|apply IH].
Qed.

Lemma concat_cons_more (x : string) (xs : list string) :
  xs <> [] ->
  String.concat sep (x :: xs) = (x ++ sep ++ String.concat sep xs)%string.
Proof.
  destruct xs; [congruence|reflexivity].
Qed.

Lemma prefix_decompose (a s : string) :
  String.prefix a s = true -> exists rest, s = (a ++ rest)%string.
Proof.
  revert s; induction a as [|c a IH]; intros s.
  - intros _. now exists s.
  - destruct s as [|d s]; simpl; [intros H; discriminate H|].
    destruct (Ascii.ascii_dec c d) as [->|]; [|intros H; discriminate H].
    intros H. destruct (IH s H) as (rest & ->). now exists rest.
Qed.

(** The characters of a separator just found are passed over. *)
Lemma split_from_skip (u rest piece : string) :
  RoadmapIngestion.split_from sep (String.length u) (u ++ rest) piece
  = RoadmapIngestion.split_from sep 0 rest piece.
Proof.
  induction u as [|c u IH]; simpl.
  - reflexivity.
  - exact IH.
Qed.

Lemma length_app_string (a b : string) :
  String.length (a ++ b) = (String.length a + String.length b)%nat.
Proof.
  induction a as [|c a IH]; simpl; auto.
Qed.

Lemma join_split_from (n : nat) (s piece : string) :
  (String.length s <= n)%nat ->
  String.concat sep (RoadmapIngestion.split_from sep 0 s piece)
  = (piece ++ s)%string.
Proof.
  revert s piece; induction n as [|n IH]; intros s piece Hlen.
  - destruct s; [|simpl in Hlen; lia]. simpl. now rewrite string_app_nil_r.
  - destruct s as [|c s]; [simpl; now rewrite string_app_nil_r|].
    simpl in Hlen. cbn [RoadmapIngestion.split_from].
    destruct (String.prefix sep (String c s)) eqn:Hpre.
    + destruct (prefix_decompose _ _ Hpre) as (rest & Hs).
      assert (Hhead : exists sep', sep = String c sep'
                                   /\ s = (sep' ++ rest)%string).
      { destruct sep as [|d sep']; [congruence|].
        simpl in Hs. injection Hs as -> ->. now exists sep'. }
      destruct Hhead as (sep' & Hsep & ->).
      assert (Hskip : (String.length sep - 1)%nat = String.length sep').
      { rewrite Hsep. simpl. lia. }
      rewrite Hskip, split_from_skip.
      rewrite concat_cons_more by apply split_from_not_nil.
      rewrite IH.
      * rewrite Hsep. reflexivity.
      * rewrite length_app_string in Hlen. lia.
    + rewrite IH by lia. rewrite string_app_assoc. reflexivity.
Qed.

End SplitFacts.

(** X20: splitting loses the separators only: the pieces of
    [s.split(sep)] joined by [sep] are [s] again, for every separator
    that is not empty; in particular the paragraphs that
    [ingest_website] cuts at blank lines rejoin to the page content. *)
Theorem split_join_round_trip (s sep : string) :
  sep <> EmptyString ->
  String.concat sep (RoadmapIngestion.split s sep) = s.
Proof.
  intros Hsep. unfold RoadmapIngestion.split.
  now rewrite (join_split_from sep Hsep (String.length s)).
Qed.

Lemma split_join_round_trip_witness :
  String.concat RoadmapIngestion.blank_line
    (RoadmapIngestion.split
       ("Delivery" ++ Py.nl ++ Py.nl ++ Py.nl ++ "Returns")
       RoadmapIngestion.blank_line)
  = ("Delivery" ++ Py.nl ++ Py.nl ++ Py.nl ++ "Returns")%string.
Proof.
  apply split_join_round_trip. discriminate.
Defined.

(** ** The points ingested from a website *)

Section IngestFacts.

Variable arun : Crawl4AI.crawler.
Variable embed_text : string -> result Qdrant.vector.
Variable upsert : RoadmapIngestion.point -> result unit.
Variable tenant : string.
Variable pages : list RoadmapIngestion.page.

Lemma enumerate_positions {A : Type} (start : Z) (l : list A) :
  Forall (fun '(i, x) => start <= i
                         /\ nth_error l (Z.to_nat (i - start)) = Some x)
    (Py.enumerate start l).
Proof.
  revert start; induction l as [|x l IH]; intros start; simpl.
  - constructor.
  - constructor.
    + split; [lia|]. now rewrite Z.sub_diag.
    + eapply Forall_impl; [|apply (IH (start + 1))].
      intros [i y] [Hi Hy]. split; [lia|].
      replace (Z.to_nat (i - start)) with (S (Z.to_nat (i - (start + 1))))
        by lia.
      exact Hy.
Qed.

(** What one pass of the inner loop adds: points of this tenant, cut
    from this page, one per count. *)
Lemma index_chunks_adds (p : RoadmapIngestion.page)
    (chunks : list (Z * string)) (upserted upserted' : list RoadmapIngestion.point)
    (count : Z) (outcome : result Z) :
  In p pages ->
  Forall (fun '(i, c) =>
            0 <= i
            /\ nth_error (RoadmapIngestion.split (RoadmapIngestion.content p)
                            RoadmapIngestion.blank_line) (Z.to_nat i)
               = Some c) chunks ->
  RoadmapIngestion.index_chunks embed_text upsert tenant p chunks upserted
    count = (upserted', outcome) ->
  exists added,
    upserted' = upserted ++ added
    /\ Forall (CrawlSpec.ingested_from tenant pages) added
    /\ forall count', outcome = Ok count' ->
                      count' = count + Z.of_nat (List.length added).
Proof.
  intros Hp Hchunks. revert upserted count.
  induction Hchunks as [|[i c] chunks [Hi Hc] _ IH]; intros upserted count;
    cbn [RoadmapIngestion.index_chunks].
  - intros [= <- <-]. exists []. rewrite app_nil_r.
    repeat split; [constructor|]. intros count' [= <-]. simpl. lia.
  - destruct (Z.ltb_spec (Py.len (Py.strip c)) 50) as [Hshort|Hlong];
      [apply IH|].
    destruct (embed_text c) as [v|e].
    2:{ intros [= <- <-]. exists []. rewrite app_nil_r.
        repeat split; [constructor|discriminate]. }
    destruct (upsert _) as [[]|e].
    2:{ intros [= <- <-]. exists []. rewrite app_nil_r.
        repeat split; [constructor|discriminate]. }
    intros Hrest. destruct (IH _ _ Hrest) as (added & -> & Hadded & Hcount).
    exists (RoadmapIngestion.make_point tenant p i c v :: added).
    split; [now rewrite <- app_assoc|]. split.
    + constructor; [|exact Hadded].
      split; [reflexivity|]. split; [reflexivity|].
      exists p, (Z.to_nat i). repeat split; auto.
      simpl. now rewrite Z2Nat.id by lia.
    + intros count' Hok. rewrite (Hcount count' Hok).
      cbn [List.length]. lia.
Qed.

Lemma index_pages_adds (todo : list RoadmapIngestion.page)
    (upserted upserted' : list RoadmapIngestion.point)
    (count : Z) (outcome : result Z) :
  incl todo pages ->
  RoadmapIngestion.index_pages embed_text upsert tenant todo upserted count
  = (upserted', outcome) ->
  exists added,
    upserted' = upserted ++ added
    /\ Forall (CrawlSpec.ingested_from tenant pages) added
    /\ forall count', outcome = Ok count' ->
                      count' = count + Z.of_nat (List.length added).
Proof.
  revert upserted count; induction todo as [|p todo IH];
    intros upserted count Hincl; cbn [RoadmapIngestion.index_pages].
  - intros [= <- <-]. exists []. rewrite app_nil_r.
    repeat split; [constructor|]. intros count' [= <-]. simpl. lia.
  - destruct (RoadmapIngestion.index_chunks _ _ _ _ _ _ _)
      as [mid [count1|e]] eqn:Hchunks.
    + apply index_chunks_adds in Hchunks.
      * destruct Hchunks as (added1 & -> & Hadded1 & Hcount1).
        intros Hrest. apply IH in Hrest.
        -- destruct Hrest as (added2 & -> & Hadded2 & Hcount2).
           exists (added1 ++ added2). split; [now rewrite app_assoc|].
           split; [now apply Forall_app|].
           intros count' Hok. rewrite (Hcount2 count' Hok).
           rewrite (Hcount1 count1 eq_refl), length_app. lia.
        -- intros q Hq. apply Hincl. now right.
      * apply Hincl. now left.
      * eapply Forall_impl; [|apply enumerate_positions].
        intros [i c] [Hi Hc]. split; [exact Hi|].
        now rewrite Z.sub_0_r in Hc.
    + apply index_chunks_adds in Hchunks.
      * destruct Hchunks as (added1 & -> & Hadded1 & _).
        intros [= <- <-]. exists added1. repeat split; auto. discriminate.
      * apply Hincl. now left.
      * eapply Forall_impl; [|apply enumerate_positions].
        intros [i c] [Hi Hc]. split; [exact Hi|].
        now rewrite Z.sub_0_r in Hc.
Qed.

End IngestFacts.

(** X21: every point that [ingest_website] upserts, also in a run that
    ends with an exception, carries the tenant id it was called with
    and the source type "website", and holds a paragraph of a crawled
    page with at least 50 characters once stripped.  When it returns,
    [chunks_indexed] is the number of points upserted and
    [pages_crawled] the number of pages crawled, at most 10; a failed
    crawl of the starting page raises before anything is upserted. *)
Theorem ingest_website_points
    (arun : Crawl4AI.crawler)
    (embed_text : string -> result Qdrant.vector)
    (upsert : RoadmapIngestion.point -> result unit)
    (tenant website_url : string) :
  let run :=
    RoadmapIngestion.ingest_website arun embed_text upsert tenant website_url in
  let crawl := RoadmapIngestion.crawl_website arun website_url 10 in
  (forall e, crawl = Raise e -> run = ([], Raise e))
  /\ (forall pages, crawl = Ok pages ->
        Z.of_nat (List.length pages) <= 10
        /\ Forall (CrawlSpec.ingested_from tenant pages) (fst run)
        /\ forall s, snd run = Ok s ->
              RoadmapIngestion.status s = "success"%string
              /\ RoadmapIngestion.pages_crawled s
                 = Z.of_nat (List.length pages)
              /\ RoadmapIngestion.chunks_indexed s
                 = Z.of_nat (List.length (fst run))).
Proof.
  cbv zeta. unfold RoadmapIngestion.ingest_website. split.
  - intros e ->. reflexivity.
  - intros pages Hcrawl. rewrite Hcrawl.
    destruct (roadmap_crawl_website_pages arun website_url 10 pages
                ltac:(lia) Hcrawl) as [Hlen _].
    split; [lia|].
    destruct (RoadmapIngestion.index_pages _ _ _ _ _ _)
      as [upserted [count|e]] eqn:Hindex;
      apply index_pages_adds with (pages := pages) in Hindex;
      try apply incl_refl;
      destruct Hindex as (added & -> & Hadded & Hcount); simpl.
    + split; [exact Hadded|]. intros s [= <-]. simpl.
      repeat split. rewrite (Hcount count eq_refl). lia.
    + split; [exact Hadded|]. discriminate.
Qed.

(** ** Witnesses on a sample site *)

Lemma pipeline_crawl_website_page_bound_witness :
  0 <= 3
  /\ exists pages,
       PipelineCrawl.crawl_website Samples.shop Samples.home 3 = Ok pages
       /\ 1 <= Z.of_nat (List.length pages) <= 1 + 3.
Proof.
  split; [lia|]. eexists. split; [vm_compute; reflexivity|].
  apply (pipeline_crawl_website_page_bound Samples.shop Samples.home 3);
    [lia | vm_compute; reflexivity].
Defined.

Lemma roadmap_crawl_website_page_bound_witness :
  1 <= 3
  /\ exists pages,
       RoadmapIngestion.crawl_website Samples.shop Samples.home 3 = Ok pages
       /\ 1 <= Z.of_nat (List.length pages) <= 3.
Proof.
  split; [lia|]. eexists. split; [vm_compute; reflexivity|].
  apply (roadmap_crawl_website_page_bound Samples.shop Samples.home 3);
    [lia | vm_compute; reflexivity].
Defined.

Lemma pipeline_crawl_website_requests_once_witness :
  exists requested,
    PipelineCrawl.crawl_website Samples.shop Samples.home 4
    = Ok (PipelineCrawl.page_of
            (Samples.crawled_page Samples.home "Shop" Samples.welcome
               [Samples.home; Samples.delivery; Samples.returns;
                Samples.delivery; Samples.gone])
          :: CrawlSpec.crawled Samples.shop PipelineCrawl.page_of requested)
    /\ NoDup requested
    /\ In Samples.delivery requested
    /\ ~ In Samples.home requested.
Proof.
  destruct (pipeline_crawl_website_requests_once Samples.shop Samples.home 4)
    as [_ Hok].
  destruct (Hok _ eq_refl) as (requested & Hrun & Hnodup & Hin).
  exists requested. split; [exact Hrun|]. split; [exact Hnodup|]. split.
  - apply Hin. split; [vm_compute; tauto | discriminate].
  - intros Hhome. apply Hin in Hhome. destruct Hhome as [_ Hne].
    now apply Hne.
Defined.

Lemma ingest_website_points_witness :
  exists s,
    snd (RoadmapIngestion.ingest_website Samples.shop Samples.embedded
           Samples.stored "t1" Samples.home) = Ok s
    /\ RoadmapIngestion.pages_crawled s = 4
    /\ RoadmapIngestion.chunks_indexed s = 1
    /\ Forall (fun pt => RoadmapIngestion.tenant_id pt = "t1"%string)
         (fst (RoadmapIngestion.ingest_website Samples.shop Samples.embedded
                 Samples.stored "t1" Samples.home)).
Proof.
  destruct (ingest_website_points Samples.shop Samples.embedded Samples.stored
              "t1" Samples.home) as [_ Hok].
  destruct (Hok _ eq_refl) as (_ & Hpoints & Hsummary).
  eexists. split; [vm_compute; reflexivity|].
  destruct (Hsummary _ eq_refl) as (_ & Hpages & Hchunks).
  split; [exact Hpages|]. split; [exact Hchunks|].
  vm_compute. repeat constructor.
Defined.

(** ** Conversations and messages *)

Section StorageFacts.

Variable new_id : nat -> string.

Lemma selected_spec (t u c : string) (row : RoadmapStorage.conversation) :
  RoadmapStorage.selected t u c row = true
  <-> RoadmapStorage.tenant_id row = t
      /\ RoadmapStorage.user_id row = u
      /\ RoadmapStorage.channel row = c.
Proof.
  unfold RoadmapStorage.selected.
  rewrite !andb_true_iff, !String.eqb_eq. tauto.
Qed.

Lemma filter_nil_none {A : Type} (f : A -> bool) (l : list A) :
  filter f l = [] -> forall x, In x l -> f x = false.
Proof.
  intros Hnil x Hx. destruct (f x) eqn:Hfx; [|reflexivity].
  assert (Hin : In x (filter f l)) by (apply filter_In; auto).
  rewrite Hnil in Hin. destruct Hin.
Qed.

(** What [save_conversation] does, by cases on the rows selected. *)
Lemma save_conversation_cases (t u c : string) (db : RoadmapStorage.database) :
  let row :=
    {| RoadmapStorage.id :=
         new_id (List.length (RoadmapStorage.conversations db));
       RoadmapStorage.tenant_id := t;
       RoadmapStorage.user_id := u;
       RoadmapStorage.channel := c;
       RoadmapStorage.status := "open" |} in
  (filter (RoadmapStorage.selected t u c) (RoadmapStorage.conversations db)
   = []
   /\ RoadmapStorage.save_conversation new_id t u c db
      = ({| RoadmapStorage.conversations :=
              RoadmapStorage.conversations db ++ [row];
            RoadmapStorage.conversation_messages :=
              RoadmapStorage.conversation_messages db |}, row))
  \/ (exists found rest,
        filter (RoadmapStorage.selected t u c)
          (RoadmapStorage.conversations db) = found :: rest
        /\ RoadmapStorage.save_conversation new_id t u c db = (db, found)).
Proof.
  cbv zeta. unfold RoadmapStorage.save_conversation.
  destruct (filter _ _) as [|found rest] eqn:Hfilter.
  - left. split; reflexivity.
  - right. exists found, rest. split; reflexivity.
Qed.

End StorageFacts.

(** X22: [save_conversation] is get-or-create.  The conversation it
    returns is in the table afterwards and has the tenant, user and
    channel asked for; the table grows by one row exactly when no row
    had them before, and is left as it was otherwise; no message is
    touched; and asking again for the same three values returns the
    same conversation without writing anything. *)
Theorem save_conversation_get_or_create
    (new_id : nat -> string) (tenant user chan : string)
    (db : RoadmapStorage.database) :
  let out := RoadmapStorage.save_conversation new_id tenant user chan db in
  In (snd out) (RoadmapStorage.conversations (fst out))
  /\ RoadmapStorage.selected tenant user chan (snd out) = true
  /\ RoadmapStorage.conversation_messages (fst out)
     = RoadmapStorage.conversation_messages db
  /\ ((exists row, In row (RoadmapStorage.conversations db)
                   /\ RoadmapStorage.selected tenant user chan row = true)
      /\ fst out = db
      \/ (forall row, In row (RoadmapStorage.conversations db) ->
            RoadmapStorage.selected tenant user chan row = false)
         /\ RoadmapStorage.conversations (fst out)
            = RoadmapStorage.conversations db ++ [snd out])
  /\ RoadmapStorage.save_conversation new_id tenant user chan (fst out) = out.
Proof.
  cbv zeta.
  destruct (save_conversation_cases new_id tenant user chan db)
    as [[Hnone ->] | (found & rest & Hfound & ->)]; cbn [fst snd].
  - repeat split.
    + apply in_or_app. right. now left.
    + apply selected_spec. cbn. auto.
    + right. split; [|reflexivity]. now apply filter_nil_none.
    + unfold RoadmapStorage.save_conversation.
      cbn [RoadmapStorage.conversations]. rewrite filter_app, Hnone.
      cbn [filter app].
      replace (RoadmapStorage.selected tenant user chan _) with true
        by (symmetry; apply selected_spec; cbn; auto).
      reflexivity.
  - assert (Hin : In found (filter (RoadmapStorage.selected tenant user chan)
                              (RoadmapStorage.conversations db)))
      by (rewrite Hfound; now left).
    apply filter_In in Hin. destruct Hin as [Hin Hsel].
    repeat split; auto.
    + left. split; [|reflexivity]. now exists found.
    + unfold RoadmapStorage.save_conversation. now rewrite Hfound.
Qed.

Section EchoFacts.

Variable new_id : nat -> string.

(** After the call the conversation returned heads the rows selected. *)
Lemma save_conversation_first (t u c : string) (db : RoadmapStorage.database) :
  let out := RoadmapStorage.save_conversation new_id t u c db in
  exists rest,
    filter (RoadmapStorage.selected t u c)
      (RoadmapStorage.conversations (fst out)) = snd out :: rest.
Proof.
  cbv zeta.
  destruct (save_conversation_cases new_id t u c db)
    as [[Hnone ->] | (found & rest & Hfound & ->)]; cbn [fst snd].
  - exists []. cbn [RoadmapStorage.conversations].
    rewrite filter_app, Hnone. cbn [filter app].
    replace (RoadmapStorage.selected t u c _) with true
      by (symmetry; apply selected_spec; cbn; auto).
    reflexivity.
  - now exists rest.
Qed.

Lemma save_conversation_found (t u c : string) (db : RoadmapStorage.database)
    (found : RoadmapStorage.conversation)
    (rest : list RoadmapStorage.conversation) :
  filter (RoadmapStorage.selected t u c) (RoadmapStorage.conversations db)
  = found :: rest ->
  RoadmapStorage.save_conversation new_id t u c db = (db, found).
Proof.
  intros Hfound. unfold RoadmapStorage.save_conversation. now rewrite Hfound.
Qed.

Lemma save_conversation_incl (t u c : string) (db : RoadmapStorage.database) :
  incl (RoadmapStorage.conversations db)
    (RoadmapStorage.conversations
       (fst (RoadmapStorage.save_conversation new_id t u c db))).
Proof.
  destruct (save_conversation_cases new_id t u c db)
    as [[Hnone ->] | (found & rest & Hfound & ->)]; cbn [fst snd].
  - cbn [RoadmapStorage.conversations]. apply incl_appl, incl_refl.
  - apply incl_refl.
Qed.

Lemma save_conversation_length (t u c : string) (db : RoadmapStorage.database) :
  (List.length
     (RoadmapStorage.conversations
        (fst (RoadmapStorage.save_conversation new_id t u c db)))
   <= S (List.length (RoadmapStorage.conversations db)))%nat.
Proof.
  destruct (save_conversation_cases new_id t u c db)
    as [[Hnone ->] | (found & rest & Hfound & ->)]; cbn [fst snd].
  - cbn [RoadmapStorage.conversations]. rewrite length_app. simpl. lia.
  - lia.
Qed.

Lemma save_conversation_one_each (t u c : string)
    (db : RoadmapStorage.database) :
  RoadmapStorage.one_conversation_each db ->
  RoadmapStorage.one_conversation_each
    (fst (RoadmapStorage.save_conversation new_id t u c db)).
Proof.
  intros Hone.
  destruct (save_conversation_cases new_id t u c db)
    as [[Hnone ->] | (found & rest & Hfound & ->)]; cbn [fst snd];
    [|exact Hone].
  intros t' u' c'. cbn [RoadmapStorage.conversations].
  rewrite filter_app, length_app. cbn [filter].
  destruct (RoadmapStorage.selected t' u' c' _) eqn:Hsel.
  - apply selected_spec in Hsel. cbn in Hsel.
    destruct Hsel as (<- & <- & <-). rewrite Hnone. simpl. lia.
  - specialize (Hone t' u' c'). simpl. lia.
Qed.

(** [handle_message] in terms of the conversation found or made. *)
Lemma handle_message_echo (request : Roadmap.MessageRequest)
    (db : RoadmapStorage.database) :
  let found :=
    RoadmapStorage.save_conversation new_id (Roadmap.tenant_id request)
      (Roadmap.user_id request) (Roadmap.channel request) db in
  let text := ("Echo: " ++ Roadmap.request_content request)%string in
  let n := List.length (RoadmapStorage.conversation_messages (fst found)) in
  RoadmapStorage.handle_message new_id request db
  = ({| RoadmapStorage.conversations :=
          RoadmapStorage.conversations (fst found);
        RoadmapStorage.conversation_messages :=
          RoadmapStorage.conversation_messages (fst found)
          ++ [ {| RoadmapStorage.message_id := new_id n;
                  RoadmapStorage.conversation_id :=
                    RoadmapStorage.id (snd found);
                  RoadmapStorage.role := "user";
                  RoadmapStorage.content := Roadmap.request_content request;
                  RoadmapStorage.metadata := [] |};
               {| RoadmapStorage.message_id := new_id (S n);
                  RoadmapStorage.conversation_id :=
                    RoadmapStorage.id (snd found);
                  RoadmapStorage.role := "assistant";
                  RoadmapStorage.content := text;
                  RoadmapStorage.metadata := [] |} ] |},
     {| Roadmap.response := text;
        Roadmap.intent := Some "unknown"%string;
        Roadmap.sources := None |}).
Proof.
  cbv zeta. unfold RoadmapStorage.handle_message.
  destruct (RoadmapStorage.save_conversation _ _ _ _ _) as [db1 conv].
  unfold RoadmapStorage.save_message.
  cbn [fst snd RoadmapStorage.conversations
       RoadmapStorage.conversation_messages].
  rewrite <- app_assoc, length_app. cbn [app List.length].
  replace (List.length (RoadmapStorage.conversation_messages db1) + 1)%nat
    with (S (List.length (RoadmapStorage.conversation_messages db1)))
    by lia.
  reflexivity.
Qed.

Lemma save_conversation_in (t u c : string) (db : RoadmapStorage.database) :
  let out := RoadmapStorage.save_conversation new_id t u c db in
  In (snd out) (RoadmapStorage.conversations (fst out))
  /\ RoadmapStorage.selected t u c (snd out) = true.
Proof.
  cbv zeta. destruct (save_conversation_first t u c db) as [rest Hrest].
  apply filter_In. rewrite Hrest. now left.
Qed.

Lemma save_conversation_messages (t u c : string)
    (db : RoadmapStorage.database) :
  RoadmapStorage.conversation_messages
    (fst (RoadmapStorage.save_conversation new_id t u c db))
  = RoadmapStorage.conversation_messages db.
Proof.
  destruct (save_conversation_cases new_id t u c db)
    as [[Hnone ->] | (found & rest & Hfound & ->)]; reflexivity.
Qed.

Lemma handle_message_keeps (request : Roadmap.MessageRequest)
    (db : RoadmapStorage.database) :
  let db' := fst (RoadmapStorage.handle_message new_id request db) in
  (RoadmapStorage.one_conversation_each db ->
   RoadmapStorage.one_conversation_each db')
  /\ (RoadmapStorage.messages_filed db -> RoadmapStorage.messages_filed db')
  /\ List.length (RoadmapStorage.conversation_messages db')
     = (List.length (RoadmapStorage.conversation_messages db) + 2)%nat
  /\ (List.length (RoadmapStorage.conversations db')
      <= S (List.length (RoadmapStorage.conversations db)))%nat.
Proof.
  cbv zeta. rewrite handle_message_echo. cbv zeta. cbn [fst].
  set (t := Roadmap.tenant_id request). set (u := Roadmap.user_id request).
  set (c := Roadmap.channel request).
  destruct (save_conversation_in t u c db) as [Hin _].
  pose proof (save_conversation_messages t u c db) as Hmsgs.
  pose proof (save_conversation_incl t u c db) as Hincl.
  pose proof (save_conversation_length t u c db) as Hlen.
  repeat split.
  - intros Hone. apply (save_conversation_one_each t u c) in Hone.
    exact Hone.
  - intros Hfiled m. cbn [RoadmapStorage.conversation_messages
                          RoadmapStorage.conversations].
    rewrite Hmsgs. intros Hm. apply in_app_or in Hm.
    destruct Hm as [Hm | [<- | [<- | []]]].
    + destruct (Hfiled m Hm) as (conv & Hconv & Hid).
      exists conv. split; [now apply Hincl | exact Hid].
    + eexists. split; [exact Hin | reflexivity].
    + eexists. split; [exact Hin | reflexivity].
  - cbn [RoadmapStorage.conversation_messages]. rewrite length_app, Hmsgs.
    reflexivity.
  - exact Hlen.
Qed.

End EchoFacts.

(** X23: one exchange with the echoing [handle_message].  The reply
    is "Echo: " followed by the request's text; afterwards the table
    holds a conversation with the request's tenant, user and channel,
    and exactly two messages were appended, the user's text and then
    the reply, both filed under that conversation.  A later request
    with the same tenant, user and channel adds no conversation and
    files its two messages under the same one. *)
Theorem handle_message_echo_thread
    (new_id : nat -> string) (request : Roadmap.MessageRequest)
    (db : RoadmapStorage.database) :
  let out := RoadmapStorage.handle_message new_id request db in
  let reply := ("Echo: " ++ Roadmap.request_content request)%string in
  Roadmap.response (snd out) = reply
  /\ exists conv,
       In conv (RoadmapStorage.conversations (fst out))
       /\ RoadmapStorage.selected (Roadmap.tenant_id request)
            (Roadmap.user_id request) (Roadmap.channel request) conv = true
       /\ (exists asked answered,
             RoadmapStorage.conversation_messages (fst out)
             = RoadmapStorage.conversation_messages db ++ [asked; answered]
             /\ RoadmapStorage.conversation_id asked = RoadmapStorage.id conv
             /\ RoadmapStorage.role asked = "user"%string
             /\ RoadmapStorage.content asked = Roadmap.request_content request
             /\ RoadmapStorage.conversation_id answered
                = RoadmapStorage.id conv
             /\ RoadmapStorage.role answered = "assistant"%string
             /\ RoadmapStorage.content answered = reply)
       /\ forall later : Roadmap.MessageRequest,
            Roadmap.tenant_id later = Roadmap.tenant_id request ->
            Roadmap.user_id later = Roadmap.user_id request ->
            Roadmap.channel later = Roadmap.channel request ->
            let out' := RoadmapStorage.handle_message new_id later (fst out) in
            RoadmapStorage.conversations (fst out')
            = RoadmapStorage.conversations (fst out)
            /\ exists asked answered,
                 RoadmapStorage.conversation_messages (fst out')
                 = RoadmapStorage.conversation_messages (fst out)
                   ++ [asked; answered]
                 /\ RoadmapStorage.conversation_id asked
                    = RoadmapStorage.id conv
                 /\ RoadmapStorage.conversation_id answered
                    = RoadmapStorage.id conv.
Proof.
  cbv zeta. rewrite handle_message_echo. cbv zeta. cbn [fst snd].
  set (t := Roadmap.tenant_id request). set (u := Roadmap.user_id request).
  set (c := Roadmap.channel request).
  destruct (save_conversation_in new_id t u c db) as [Hin Hsel].
  pose proof (save_conversation_messages new_id t u c db) as Hmsgs.
  destruct (save_conversation_first new_id t u c db) as [rest Hrest].
  set (found := RoadmapStorage.save_conversation new_id t u c db) in *.
  split; [reflexivity|].
  exists (snd found). cbn [RoadmapStorage.conversations
                           RoadmapStorage.conversation_messages].
  split; [exact Hin|]. split; [exact Hsel|]. split.
  - rewrite Hmsgs. eexists. eexists. repeat split.
  - intros later Ht Hu Hc. rewrite handle_message_echo. cbv zeta.
    rewrite Ht, Hu, Hc. fold t u c.
    match goal with
    | |- context [RoadmapStorage.save_conversation new_id t u c ?d] =>
        rewrite (save_conversation_found new_id t u c d (snd found) rest)
          by exact Hrest
    end.
    cbn [fst snd RoadmapStorage.conversations
         RoadmapStorage.conversation_messages].
    split; [reflexivity|]. eexists. eexists. repeat split.
Qed.

(** X24: the echoing endpoint called for any list of requests on an
    empty database.  The tables stay consistent: no two conversations
    share tenant, user and channel, every message is filed under a
    conversation of the table, each request has added two messages,
    and there are at most as many conversations as requests. *)
Theorem serve_keeps_database_consistent
    (new_id : nat -> string) (requests : list Roadmap.MessageRequest) :
  let db := RoadmapStorage.serve new_id requests RoadmapStorage.empty in
  RoadmapStorage.one_conversation_each db
  /\ RoadmapStorage.messages_filed db
  /\ List.length (RoadmapStorage.conversation_messages db)
     = (2 * List.length requests)%nat
  /\ (List.length (RoadmapStorage.conversations db)
      <= List.length requests)%nat.
Proof.
  cbv zeta.
  assert (Hgen : forall db0,
    RoadmapStorage.one_conversation_each db0 ->
    RoadmapStorage.messages_filed db0 ->
    let db := RoadmapStorage.serve new_id requests db0 in
    RoadmapStorage.one_conversation_each db
    /\ RoadmapStorage.messages_filed db
    /\ List.length (RoadmapStorage.conversation_messages db)
       = (List.length (RoadmapStorage.conversation_messages db0)
          + 2 * List.length requests)%nat
    /\ (List.length (RoadmapStorage.conversations db)
        <= List.length (RoadmapStorage.conversations db0)
           + List.length requests)%nat).
  { induction requests as [|request requests' IH]; intros db0 Hone Hfiled.
    - cbn. repeat split; auto; lia.
    - destruct (handle_message_keeps new_id request db0)
        as (Hone' & Hfiled' & Hmsgs & Hconvs).
      specialize (IH _ (Hone' Hone) (Hfiled' Hfiled)).
      cbv zeta in IH. destruct IH as (IH1 & IH2 & IH3 & IH4).
      unfold RoadmapStorage.serve in *. cbn [fold_left List.length].
      repeat split; auto; lia. }
  destruct (Hgen RoadmapStorage.empty) as (H1 & H2 & H3 & H4).
  - intros t u c. cbn. lia.
  - intros m [].
  - cbv zeta in *. cbn in H3, H4. repeat split; auto.
Qed.

(** ** Document upload *)

Section UploadFacts.

Variable pdf_pages : string -> result (list string).
Variable docx_paragraphs : string -> result (list string).
Variable new_id : nat -> string.

(** The chunker returns on every text with the sizes of the upload
    flow, and gives at most one chunk per window. *)
Lemma chunk_text_upload (text : string) :
  exists chunks,
    RagPipeline.chunk_text text 500 50 = Some chunks
    /\ (List.length chunks <= ChunkSpec.window_count text 450)%nat.
Proof.
  exists (ChunkSpec.emitted (ChunkSpec.windows text 500 50)).
  split; [apply chunk_text_emitted; lia|].
  unfold ChunkSpec.emitted, ChunkSpec.windows.
  rewrite length_map.
  etransitivity; [apply filter_length_le|].
  rewrite length_map, length_seq.
  replace (500 - 50) with 450 by lia. lia.
Qed.

Lemma set_processed_other (doc_id : string) (n : Z)
    (d : PipelineDocuments.document) :
  PipelineDocuments.id d <> doc_id ->
  PipelineDocuments.set_processed doc_id n d = d.
Proof.
  intros Hne. unfold PipelineDocuments.set_processed.
  destruct (String.eqb_spec (PipelineDocuments.id d) doc_id);
    [contradiction | reflexivity].
Qed.

Lemma set_processed_own (n : Z) (d : PipelineDocuments.document) :
  let d' := PipelineDocuments.set_processed (PipelineDocuments.id d) n d in
  PipelineDocuments.id d' = PipelineDocuments.id d
  /\ PipelineDocuments.status d' = "processed"%string
  /\ PipelineDocuments.chunk_count d' = Some n.
Proof.
  cbv zeta. unfold PipelineDocuments.set_processed.
  rewrite String.eqb_refl. cbn. auto.
Qed.

End UploadFacts.

(** X25: when [upload_document] raises, the file is already in the
    bucket and its row is already in the table, and the row stays in
    the status "processing" without a chunk count.  It raises its
    own [ValueError], naming the content type, exactly when the
    content type is neither PDF nor DOCX; any other exception comes
    from reading the file. *)
Theorem upload_document_failure_leaves_processing
    (pdf_pages docx_paragraphs : string -> result (list string))
    (new_id : nat -> string) (tenant : string)
    (f : PipelineDocuments.UploadFile)
    (s s' : PipelineDocuments.supabase) (e : PipelineDocuments.failure) :
  PipelineDocuments.upload_document pdf_pages docx_paragraphs new_id tenant f s
  = Some (s', Some e) ->
  let path :=
    ("tenants/" ++ tenant ++ "/documents/"
     ++ PipelineDocuments.filename f)%string in
  PipelineDocuments.storage s' = PipelineDocuments.storage s ++ [path]
  /\ (exists row,
        PipelineDocuments.documents s'
        = PipelineDocuments.documents s ++ [row]
        /\ PipelineDocuments.tenant_id row = tenant
        /\ PipelineDocuments.file_path row = path
        /\ PipelineDocuments.status row = "processing"%string
        /\ PipelineDocuments.chunk_count row = None)
  /\ forall message,
       e = PipelineDocuments.ValueError message
       <-> PipelineDocuments.content_type f <> PipelineDocuments.pdf_mime
           /\ PipelineDocuments.content_type f <> PipelineDocuments.docx_mime
           /\ message
              = ("Unsupported file type: "
                 ++ PipelineDocuments.content_type f)%string.
Proof.
  unfold PipelineDocuments.upload_document. cbv zeta.
  destruct (String.eqb_spec (PipelineDocuments.content_type f)
              PipelineDocuments.pdf_mime) as [Hpdf|Hpdf].
  - destruct (PipelineDocuments.extract_pdf_text _ _) as [text|err].
    + destruct (RagPipeline.chunk_text text 500 50); discriminate.
    + intros [= <- <-]. cbn. split; [reflexivity|]. split.
      * eexists. repeat split.
      * intros message. split; [discriminate | tauto].
  - destruct (String.eqb_spec (PipelineDocuments.content_type f)
                PipelineDocuments.docx_mime) as [Hdocx|Hdocx].
    + destruct (PipelineDocuments.extract_docx_text _ _) as [text|err].
      * destruct (RagPipeline.chunk_text text 500 50); discriminate.
      * intros [= <- <-]. cbn. split; [reflexivity|]. split.
        -- eexists. repeat split.
        -- intros message. split; [discriminate | tauto].
    + intros [= <- <-]. cbn. split; [reflexivity|]. split.
      * eexists. repeat split.
      * intros message. split.
        -- intros [= <-]. auto.
        -- intros (_ & _ & ->). reflexivity.
Qed.

Lemma upload_document_failure_leaves_processing_witness :
  exists s' e,
    PipelineDocuments.upload_document Samples.two_pages Samples.no_paragraphs
      Samples.row_id "t1" Samples.a_picture Samples.no_documents
    = Some (s', Some e)
    /\ PipelineDocuments.storage s' = ["tenants/t1/documents/logo.png"%string]
    /\ e = PipelineDocuments.ValueError "Unsupported file type: image/png".
Proof.
  eexists. eexists. split; [vm_compute; reflexivity|].
  destruct (upload_document_failure_leaves_processing
              Samples.two_pages Samples.no_paragraphs Samples.row_id "t1"
              Samples.a_picture Samples.no_documents _ _ eq_refl)
    as (Hstorage & _ & Hmessage).
  split; [exact Hstorage|].
  apply Hmessage. repeat split; discriminate.
Defined.

(** X26: [upload_document] comes to an end on every file (the chunking
    loop with size 500 and overlap 50 always does).  When it returns
    without raising, the content type was PDF or DOCX, the file is in
    the bucket, and the row it inserted is the last of the table, now
    "processed" with [chunk_count] the number of chunks of the text
    extracted, which is at most one per 450 characters, rounded up;
    the rows with another id are the rows that were there before. *)
Theorem upload_document_processed
    (pdf_pages docx_paragraphs : string -> result (list string))
    (new_id : nat -> string) (tenant : string)
    (f : PipelineDocuments.UploadFile) (s : PipelineDocuments.supabase) :
  let run :=
    PipelineDocuments.upload_document pdf_pages docx_paragraphs new_id
      tenant f s in
  run <> None
  /\ forall s', run = Some (s', None) ->
       exists text chunks older row,
         (PipelineDocuments.content_type f = PipelineDocuments.pdf_mime
          /\ PipelineDocuments.extract_pdf_text pdf_pages
               (PipelineDocuments.file f) = Ok text
          \/ PipelineDocuments.content_type f = PipelineDocuments.docx_mime
             /\ PipelineDocuments.extract_docx_text docx_paragraphs
                  (PipelineDocuments.file f) = Ok text)
         /\ RagPipeline.chunk_text text 500 50 = Some chunks
         /\ (List.length chunks <= ChunkSpec.window_count text 450)%nat
         /\ PipelineDocuments.storage s'
            = PipelineDocuments.storage s
              ++ [("tenants/" ++ tenant ++ "/documents/"
                   ++ PipelineDocuments.filename f)%string]
         /\ PipelineDocuments.documents s' = older ++ [row]
         /\ PipelineDocuments.id row
            = new_id (List.length (PipelineDocuments.documents s))
         /\ PipelineDocuments.status row = "processed"%string
         /\ PipelineDocuments.chunk_count row
            = Some (Z.of_nat (List.length chunks))
         /\ List.length older
            = List.length (PipelineDocuments.documents s)
         /\ forall d, In d (PipelineDocuments.documents s) ->
              PipelineDocuments.id d <> PipelineDocuments.id row ->
              In d older.
Proof.
  cbv zeta. unfold PipelineDocuments.upload_document. cbv zeta.
  assert (Hmain : forall text,
    (PipelineDocuments.content_type f = PipelineDocuments.pdf_mime
     /\ PipelineDocuments.extract_pdf_text pdf_pages
          (PipelineDocuments.file f) = Ok text
     \/ PipelineDocuments.content_type f = PipelineDocuments.docx_mime
        /\ PipelineDocuments.extract_docx_text docx_paragraphs
             (PipelineDocuments.file f) = Ok text) ->
    forall (row0 : PipelineDocuments.document) (st : list string),
      PipelineDocuments.id row0
      = new_id (List.length (PipelineDocuments.documents s)) ->
      let run :=
        match RagPipeline.chunk_text text 500 50 with
        | None => None
        | Some chunks =>
            Some ({| PipelineDocuments.storage := st;
                     PipelineDocuments.documents :=
                       map (PipelineDocuments.set_processed
                              (PipelineDocuments.id row0)
                              (Z.of_nat (List.length chunks)))
                         (PipelineDocuments.documents s ++ [row0]) |},
                  @None PipelineDocuments.failure)
        end in
      run <> None
      /\ forall s', run = Some (s', None) ->
           exists text' chunks older row,
             (PipelineDocuments.content_type f = PipelineDocuments.pdf_mime
              /\ PipelineDocuments.extract_pdf_text pdf_pages
                   (PipelineDocuments.file f) = Ok text'
              \/ PipelineDocuments.content_type f
                 = PipelineDocuments.docx_mime
                 /\ PipelineDocuments.extract_docx_text docx_paragraphs
                      (PipelineDocuments.file f) = Ok text')
             /\ RagPipeline.chunk_text text' 500 50 = Some chunks
             /\ (List.length chunks
                 <= ChunkSpec.window_count text' 450)%nat
             /\ PipelineDocuments.storage s' = st
             /\ PipelineDocuments.documents s' = older ++ [row]
             /\ PipelineDocuments.id row
                = new_id (List.length (PipelineDocuments.documents s))
             /\ PipelineDocuments.status row = "processed"%string
             /\ PipelineDocuments.chunk_count row
                = Some (Z.of_nat (List.length chunks))
             /\ List.length older
                = List.length (PipelineDocuments.documents s)
             /\ forall d, In d (PipelineDocuments.documents s) ->
                  PipelineDocuments.id d <> PipelineDocuments.id row ->
                  In d older).
  { intros text Hsrc row0 st Hid. cbv zeta.
    destruct (chunk_text_upload text) as (chunks & Hchunks & Hbound).
    rewrite Hchunks.
    split; [discriminate|]. intros s' [= <-].
    exists text, chunks.
    exists (map (PipelineDocuments.set_processed (PipelineDocuments.id row0)
                   (Z.of_nat (List.length chunks)))
              (PipelineDocuments.documents s)).
    exists (PipelineDocuments.set_processed (PipelineDocuments.id row0)
              (Z.of_nat (List.length chunks)) row0).
    cbn [PipelineDocuments.storage PipelineDocuments.documents].
    rewrite map_app. cbn [map].
    destruct (set_processed_own (Z.of_nat (List.length chunks)) row0)
      as (Hown1 & Hown2 & Hown3).
    rewrite Hown1, Hown2, Hown3.
    repeat split; auto.
    - now rewrite length_map.
    - intros d Hd Hne. apply in_map_iff. exists d. split; [|exact Hd].
      apply set_processed_other. exact Hne. }
  destruct (String.eqb_spec (PipelineDocuments.content_type f)
              PipelineDocuments.pdf_mime) as [Hpdf|Hpdf].
  - destruct (PipelineDocuments.extract_pdf_text _ _) as [text|err] eqn:Hx.
    + apply (Hmain text); [left; auto | reflexivity].
    + split; [discriminate|]. intros s' [=].
  - destruct (String.eqb_spec (PipelineDocuments.content_type f)
                PipelineDocuments.docx_mime) as [Hdocx|Hdocx].
    + destruct (PipelineDocuments.extract_docx_text _ _) as [text|err] eqn:Hx.
      * apply (Hmain text); [right; auto | reflexivity].
      * split; [discriminate|]. intros s' [=].
    + split; [discriminate|]. intros s' [=].
Qed.

Lemma upload_document_processed_witness :
  exists s' older row n,
    PipelineDocuments.upload_document Samples.two_pages Samples.no_paragraphs
      Samples.row_id "t1" Samples.a_pdf Samples.no_documents
    = Some (s', None)
    /\ PipelineDocuments.documents s' = older ++ [row]
    /\ PipelineDocuments.status row = "processed"%string
    /\ PipelineDocuments.chunk_count row = Some n.
Proof.
  destruct (upload_document_processed Samples.two_pages Samples.no_paragraphs
              Samples.row_id "t1" Samples.a_pdf Samples.no_documents)
    as [_ Hdone].
  destruct (Hdone _ eq_refl)
    as (text & chunks & older & row & _ & _ & _ & _ & Hrows & _ & Hstatus
        & Hcount & _).
  eexists. exists older, row, (Z.of_nat (List.length chunks)).
  split; [reflexivity|]. split; [exact Hrows|].
  split; [exact Hstatus | exact Hcount].
Defined.

(** ** The API client *)

Section ClientFacts.

Variable API_BASE_URL : string.
Variable fetch : Api.request -> Api.fetch_result.

Lemma throw_detail_never_resolves {A : Type} (r : Api.response)
    (fallback : string) :
  Api.resolves (Api.throw_detail (A := A) r fallback) = false.
Proof.
  unfold Api.throw_detail.
  destruct (Api.body r) as [error|]; [|reflexivity].
  destruct (Widget.property error "detail") as [[d|]|]; try reflexivity.
  destruct (Widget.truthy d); reflexivity.
Qed.

Lemma call_json_refused (req : Api.request) (fallback : string) :
  (forall r, fetch req = Api.Answered r -> Api.ok r = false) ->
  Api.resolves (Api.call_json fetch req fallback) = false.
Proof.
  intros Hrefused. unfold Api.call_json.
  destruct (fetch req) as [|r]; [reflexivity|].
  rewrite (Hrefused r eq_refl). apply throw_detail_never_resolves.
Qed.

Lemma call_void_refused (req : Api.request) (fallback : string) :
  (forall r, fetch req = Api.Answered r -> Api.ok r = false) ->
  Api.resolves (Api.call_void fetch req fallback) = false.
Proof.
  intros Hrefused. unfold Api.call_void.
  destruct (fetch req) as [|r]; [reflexivity|].
  rewrite (Hrefused r eq_refl). apply throw_detail_never_resolves.
Qed.

Lemma call_settings_refused (req : Api.request) :
  (forall r, fetch req = Api.Answered r -> Api.ok r = false) ->
  Api.resolves (Api.call_settings fetch req) = false.
Proof.
  intros Hrefused. unfold Api.call_settings.
  destruct (fetch req) as [|r]; [reflexivity|].
  rewrite (Hrefused r eq_refl). apply throw_detail_never_resolves.
Qed.

End ClientFacts.

(** X27: against a server that answers no request with a status in
    200-299, no call of the client resolves: each of them throws,
    whatever the body of the response. *)
Theorem client_never_resolves_on_error_status
    (API_BASE_URL : string) (fetch : Api.request -> Api.fetch_result) :
  (forall req r, fetch req = Api.Answered r ->
     ~ (200 <= Api.status r <= 299)) ->
  (forall content conversation_id,
     Api.resolves (Api.sendPlaygroundMessage API_BASE_URL fetch content
                     conversation_id) = false)
  /\ (forall document_id,
        Api.resolves (Api.ingestDocument API_BASE_URL fetch document_id)
        = false)
  /\ (forall site max_pages page_id,
        Api.resolves (Api.ingestWebsite API_BASE_URL fetch site max_pages
                        page_id) = false)
  /\ (forall job,
        Api.resolves (Api.getJobStatus API_BASE_URL fetch job) = false)
  /\ Api.resolves (Api.listDocuments API_BASE_URL fetch) = false
  /\ Api.resolves (Api.listWebsites API_BASE_URL fetch) = false
  /\ (forall document_id,
        Api.resolves (Api.deleteDocument API_BASE_URL fetch document_id)
        = false)
  /\ (forall website_id,
        Api.resolves (Api.deleteWebsite API_BASE_URL fetch website_id)
        = false)
  /\ Api.resolves (Api.getAISettings API_BASE_URL fetch) = false
  /\ (forall settings,
        Api.resolves (Api.updateAISettings API_BASE_URL fetch settings)
        = false)
  /\ (forall settings,
        Api.resolves (Api.patchAISettings API_BASE_URL fetch settings)
        = false).
Proof.
  intros Hstatus.
  assert (Hrefused : forall req r,
            fetch req = Api.Answered r -> Api.ok r = false).
  { intros req r Hr. specialize (Hstatus req r Hr). unfold Api.ok.
    destruct (Z.leb_spec 200 (Api.status r));
      destruct (Z.leb_spec (Api.status r) 299); try reflexivity. lia. }
  repeat split; intros;
    first [ apply call_json_refused | apply call_void_refused
          | apply call_settings_refused ];
    intros r Hr; exact (Hrefused _ r Hr).
Qed.

Lemma client_never_resolves_on_error_status_witness :
  Api.resolves (Api.listDocuments "http://localhost:8000" Samples.gateway_down)
  = false.
Proof.
  apply (client_never_resolves_on_error_status "http://localhost:8000"
           Samples.gateway_down).
  intros req r [= <-]. cbn. lia.
Defined.

(** X28: the message of the error thrown for a response that is not
    ok, for [listDocuments], [deleteDocument], [sendPlaygroundMessage]
    and [getAISettings].  When its body is a JSON value other than
    [null] with a truthy [detail], each of them throws an [Error] made
    from that detail; with a falsy or missing [detail], the first
    three use their own fixed text and [getAISettings] uses "HTTP
    error! status: " followed by the status.  When the body is not
    JSON, only [getAISettings] still throws its [Error] with the
    status; the others fail with the decoding error, and their fixed
    text is not used. *)
Theorem client_error_message
    (API_BASE_URL : string) (fetch : Api.request -> Api.fetch_result)
    (r : Api.response) (document_id content : string)
    (conversation_id : option json) :
  (forall req, fetch req = Api.Answered r) ->
  Api.ok r = false ->
  let listed := Api.listDocuments API_BASE_URL fetch in
  let deleted := Api.deleteDocument API_BASE_URL fetch document_id in
  let sent :=
    Api.sendPlaygroundMessage API_BASE_URL fetch content conversation_id in
  let settings := Api.getAISettings API_BASE_URL fetch in
  let status_text :=
    ("HTTP error! status: " ++ Py.str_of_int (Api.status r))%string in
  (Api.body r = None ->
   listed = Api.Threw Api.BodyNotJson
   /\ deleted = Api.Threw Api.BodyNotJson
   /\ sent = Api.Threw Api.BodyNotJson
   /\ settings = Api.Threw (Api.Error (JStr status_text)))
  /\ (forall error detail,
        Api.body r = Some error ->
        Widget.property error "detail" = Ok detail ->
        (forall d, detail = Some d -> Widget.truthy d = true ->
           listed = Api.Threw (Api.Error d)
           /\ deleted = Api.Threw (Api.Error d)
           /\ sent = Api.Threw (Api.Error d)
           /\ settings = Api.Threw (Api.Error d))
        /\ (Widget.truthy_opt detail = false ->
            listed
            = Api.Threw (Api.Error (JStr "Failed to fetch documents"))
            /\ deleted
               = Api.Threw (Api.Error (JStr "Failed to delete document"))
            /\ sent = Api.Threw (Api.Error (JStr "Failed to send message"))
            /\ settings = Api.Threw (Api.Error (JStr status_text)))).
Proof.
  intros Hfetch Hok. cbv zeta.
  unfold Api.listDocuments, Api.deleteDocument, Api.sendPlaygroundMessage,
    Api.getAISettings, Api.call_json, Api.call_void, Api.call_settings.
  rewrite !Hfetch, Hok. cbn [negb]. split.
  - intros Hbody. unfold Api.throw_detail. rewrite Hbody. cbn. auto.
  - intros error detail Hbody Hdetail.
    unfold Api.throw_detail. rewrite Hbody. cbn [Api.body].
    rewrite Hdetail. split.
    + intros d -> Hd. rewrite Hd. auto.
    + intros Hfalsy. destruct detail as [d|]; [|auto].
      cbn in Hfalsy. rewrite Hfalsy. auto.
Qed.

Lemma client_error_message_witness :
  Api.listDocuments "http://localhost:8000" Samples.gateway_down
  = Api.Threw Api.BodyNotJson
  /\ Api.getAISettings "http://localhost:8000" Samples.gateway_down
     = Api.Threw (Api.Error (JStr "HTTP error! status: 502")).
Proof.
  destruct (client_error_message "http://localhost:8000" Samples.gateway_down
              {| Api.status := 502; Api.body := None |} "doc-1" "Hello" None
              (fun _ => eq_refl) eq_refl) as [Hnone _].
  destruct (Hnone eq_refl) as (Hlisted & _ & _ & Hsettings).
  split; [exact Hlisted | exact Hsettings].
Defined.

(** ** The playground page *)

(** X29: [handleSend] on a state with a non-blank input and no request
    in flight, whatever the server does.  The input is cleared and the
    loading flag is reset; the user's message, as typed, is added
    once; then either the assistant's message follows it and no toast
    is shown, or nothing follows it, one toast titled "Erreur" shows
    the error thrown and the conversation id is left as it was.  The
    toast is shown exactly when the call to the server throws or
    resolves to [null].  A truthy conversation id is never replaced.
    With a blank input, or while a request is in flight, nothing
    changes. *)
Theorem handleSend_outcome
    (API_BASE_URL : string) (fetch : Api.request -> Api.fetch_result)
    (c : Playground.clock) (s : Playground.state) :
  let out := Playground.handleSend API_BASE_URL fetch c s in
  let sent :=
    Api.sendPlaygroundMessage API_BASE_URL fetch (Playground.input s)
      (if Widget.truthy_opt (Playground.conversationId s)
       then Playground.conversationId s else None) in
  let asked :=
    {| Playground.id := Py.str_of_int (Playground.sent_now c);
       Playground.role := "user";
       Playground.content := Some (JStr (Playground.input s));
       Playground.timestamp := Playground.sent_time c |} in
  (Py.truthy (Widget.trim (Playground.input s)) = false
   \/ Playground.isLoading s = true -> out = (s, []))
  /\ (Py.truthy (Widget.trim (Playground.input s)) = true ->
      Playground.isLoading s = false ->
      Playground.input (fst out) = EmptyString
      /\ Playground.isLoading (fst out) = false
      /\ (Widget.truthy_opt (Playground.conversationId s) = true ->
          Playground.conversationId (fst out) = Playground.conversationId s)
      /\ ((exists data answered,
             sent = Api.Resolved data /\ data <> JNull
             /\ Playground.messages (fst out)
                = Playground.messages s ++ [asked; answered]
             /\ Playground.role answered = "assistant"%string
             /\ Widget.property data "response"
                = Ok (Playground.content answered)
             /\ snd out = [])
          \/ (exists t,
                (sent = Api.Threw t
                 \/ sent = Api.Resolved JNull /\ t = Api.PropertyOfNull)
                /\ Playground.messages (fst out)
                   = Playground.messages s ++ [asked]
                /\ Playground.conversationId (fst out)
                   = Playground.conversationId s
                /\ snd out = [{| Playground.title := "Erreur";
                                 Playground.description := t;
                                 Playground.variant := "destructive" |}]))).
Proof.
  cbv zeta. unfold Playground.handleSend, Playground.try_block. split.
  - intros [Hblank | Hloading].
    + now rewrite Hblank.
    + rewrite Hloading. now rewrite orb_true_r.
  - intros Hinput Hloading. rewrite Hinput, Hloading. cbn [negb orb].
    destruct (Api.sendPlaygroundMessage _ _ _ _) as [data|t].
    + assert (Hnull : data = JNull \/ data <> JNull)
        by (destruct data; solve [left; reflexivity | right; discriminate]).
      destruct Hnull as [-> | Hdata].
      * destruct (Widget.truthy_opt (Playground.conversationId s)) eqn:Hcid;
          cbn; (repeat split; try congruence);
          right; exists Api.PropertyOfNull; repeat split; right; auto.
      * assert (Hprop : forall key, exists v, Widget.property data key = Ok v)
          by (intros key; destruct data; try congruence;
              eexists; reflexivity).
        destruct (Hprop "response"%string) as [reply Hreply].
        destruct (Hprop "conversation_id"%string) as [cid Hcidp].
        rewrite Hreply.
        destruct (Widget.truthy_opt (Playground.conversationId s)) eqn:Hcid;
          cbn [negb]; rewrite ?Hcidp; cbn [fst snd Playground.input
            Playground.isLoading Playground.conversationId
            Playground.messages];
          (repeat split; try congruence);
          left; exists data;
          exists {| Playground.id :=
                      Py.str_of_int (Playground.received_now c + 1);
                    Playground.role := "assistant";
                    Playground.content := reply;
                    Playground.timestamp := Playground.received_time c |};
          repeat split; auto; rewrite <- app_assoc; reflexivity.
    + cbn. repeat split; try congruence.
      right. exists t. repeat split. now left.
Qed.

Lemma handleSend_outcome_witness :
  snd (Playground.handleSend "http://localhost:8000"
         (Samples.refusing (JStr "Model unavailable")) Samples.noon
         (Samples.typed " Hello "))
  = [{| Playground.title := "Erreur";
        Playground.description := Api.Error (JStr "Model unavailable");
        Playground.variant := "destructive" |}].
Proof.
  destruct (handleSend_outcome "http://localhost:8000"
              (Samples.refusing (JStr "Model unavailable")) Samples.noon
              (Samples.typed " Hello ")) as [_ Hready].
  destruct (Hready eq_refl eq_refl)
    as (_ & _ & _ & [(data & answered & Hsent & _)
                    | (t & Hsent & _ & _ & Htoast)]).
  - discriminate Hsent.
  - destruct Hsent as [Hsent | [Hsent _]]; [|discriminate Hsent].
    injection Hsent as <-. exact Htoast.
Defined.
